(** * latex2pdf: the fixed-point build loop of [doc/latex2pdf.py]

    A shallow embedding of the parts of [latex2pdf.py] that decide whether
    another run of the toolchain is needed: the snapshots of auxiliary
    files ([getauxinfo], [getmodifiedaux]), the timestamp checks
    ([getmtime], [biboutofdate], the index check of [main]), the log
    scanner ([ErrorChecker]), the citation index cleaner
    ([CitationIndex]) and the loop of [main].

    Conventions.
    - A Python [str] is a [string]; a character is a code point below 256.
    - A modification time is an integer; [getmtime] adds the two
      infinities that the script uses for files that do not exist.
    - The file system is a finite map from absolute paths to regular
      files.  A file carries its modification time, its text as the list
      of lines that iterating over the open file yields (each line with
      its terminator), and the hexadecimal MD5 digest of its bytes.
    - External programs (pdflatex, bibtex, authorindex, makeindex,
      kpsewhich) and the library calls on paths ([os.path.normpath],
      [os.path.relpath]) are parameters, and so are the two uses of the
      library of regular expressions by the log checkers: whether
      [re.compile] accepts a pattern, and the search of a line with a
      compiled pattern.  The expressions that the script uses to take
      text apart (in [getbibdata], [getindexfiles], [checktotalslides],
      [getauxfromlog], [biboutofdate] and [CitationIndex]) are written
      out as functions on strings.
    - [os.listdir] and [getauxfromlog] return their names in an order
      that Python does not fix; their results are given with each pass of
      the loop.  A dictionary whose order of iteration matters is kept
      with its keys in that order.
    - A step of the loop fails in the ways listed under [exn]: a program
      that cannot be started, a log that cannot be opened, a citation
      index with a line that is no entry or with bytes that cannot be
      decoded, output of kpsewhich that cannot be decoded, a number that
      [int] refuses.  A file that exists can be read, and the build
      directory can be listed and written to. *)

From Stdlib Require Import ZArith String Ascii List Bool Lia.
From stdpp Require Import gmap strings list fin_maps.

Local Open Scope string_scope.
Local Open Scope Z_scope.

(** ** Python strings *)

Module PyStr.

Definition newline : ascii := "010"%char.

(** [str.isspace] on one character. *)
Definition isspace (c : ascii) : bool :=
  let n := nat_of_ascii c in
  ((9 <=? n)%nat && (n <=? 13)%nat) || ((28 <=? n)%nat && (n <=? 32)%nat)
  || (n =? 133)%nat || (n =? 160)%nat.

Fixpoint startswith (p s : string) : bool :=
  match p, s with
  | EmptyString, _ => true
  | String a p', String b s' => Ascii.eqb a b && startswith p' s'
  | String _ _, EmptyString => false
  end.

Definition endswith (p s : string) : bool :=
  startswith (String.rev p) (String.rev s).

(** [s[n:]] for [0 <= n]. *)
Fixpoint drop (n : nat) (s : string) : string :=
  match n, s with
  | O, _ => s
  | S n', String _ s' => drop n' s'
  | S _, EmptyString => EmptyString
  end.

(** Remove the leading characters that satisfy [p]. *)
Fixpoint lstrip_by (p : ascii -> bool) (s : string) : string :=
  match s with
  | String c s' => if p c then lstrip_by p s' else s
  | EmptyString => EmptyString
  end.

Definition rstrip_by (p : ascii -> bool) (s : string) : string :=
  String.rev (lstrip_by p (String.rev s)).

Definition strip_by (p : ascii -> bool) (s : string) : string :=
  rstrip_by p (lstrip_by p s).

(** [s.strip()] *)
Definition strip (s : string) : string := strip_by isspace s.

(** [s.strip] with a newline as its argument. *)
Definition strip_nl (s : string) : string := strip_by (Ascii.eqb newline) s.

(** [s.split(sep)] for a separator of one character. *)
Fixpoint split (sep : ascii) (s : string) : list string :=
  match s with
  | EmptyString => [EmptyString]
  | String c s' =>
      if Ascii.eqb c sep then EmptyString :: split sep s'
      else match split sep s' with
           | w :: ws => String c w :: ws
           | [] => [String c EmptyString]
           end
  end.

(** [sep.join(l)] *)
Fixpoint join (sep : string) (l : list string) : string :=
  match l with
  | [] => EmptyString
  | [x] => x
  | x :: l' => x ++ sep ++ join sep l'
  end.

(** [s.replace(find, repl)] for a non-empty [find]: the occurrences are
    replaced from left to right and do not overlap.  The first argument
    bounds the number of steps; [replace] takes the length of [s]. *)
Fixpoint replace_fuel (fuel : nat) (find repl s : string) : string :=
  match fuel with
  | O => s
  | S fuel' =>
      match s with
      | EmptyString => EmptyString
      | String c s' =>
          if startswith find s
          then repl ++ replace_fuel fuel' find repl (drop (String.length find) s)
          else String c (replace_fuel fuel' find repl s')
      end
  end.

Definition replace (find repl s : string) : string :=
  replace_fuel (String.length s) find repl s.

(** [s.upper()] on ASCII text. *)
Definition upper_char (c : ascii) : ascii :=
  let n := nat_of_ascii c in
  if ((97 <=? n)%nat && (n <=? 122)%nat) then ascii_of_nat (n - 32) else c.

Fixpoint upper (s : string) : string :=
  match s with
  | EmptyString => EmptyString
  | String c s' => String (upper_char c) (upper s')
  end.

Fixpoint mem (c : ascii) (s : string) : bool :=
  match s with
  | EmptyString => false
  | String d s' => Ascii.eqb c d || mem c s'
  end.

(** [p in s] for strings. *)
Fixpoint contains (p s : string) : bool :=
  startswith p s ||
  match s with
  | EmptyString => false
  | String _ s' => contains p s'
  end.

End PyStr.

(** ** Modification times *)

Inductive mtime : Type :=
| NegInf                (* minus infinity *)
| At (t : Z)
| PosInf.               (* plus infinity *)

Module Time.

(** [a <= b] *)
Definition leb (a b : mtime) : bool :=
  match a, b with
  | NegInf, _ => true
  | _, PosInf => true
  | At x, At y => x <=? y
  | _, _ => false
  end.

(** [a >= b] *)
Definition geb (a b : mtime) : bool := leb b a.

(** [a > b] *)
Definition gtb (a b : mtime) : bool := negb (leb a b).

Definition max (a b : mtime) : mtime := if leb a b then b else a.
Definition min (a b : mtime) : mtime := if leb a b then a else b.

End Time.

(** [safemax(x)] and [safemin(x)] with their default [empty] values. *)
Definition safemax (x : list mtime) : mtime :=
  match x with
  | [] => NegInf
  | a :: x' => fold_left Time.max x' a
  end.

Definition safemin (x : list mtime) : mtime :=
  match x with
  | [] => PosInf
  | a :: x' => fold_left Time.min x' a
  end.

(** ** The file system *)

Record File : Type := mkFile {
  f_mtime : Z;
  f_lines : list string;
  f_md5 : string
}.

Abbreviation FS := (gmap string File).

(** [os.path.isfile(f)] *)
Definition isfile (fs : FS) (f : string) : bool :=
  match fs !! f with Some _ => true | None => false end.

(** [getmtime(f, na)]: [os.path.getmtime] raises [OSError] exactly when the
    file is absent. *)
Definition getmtime (fs : FS) (f : string) (na : mtime) : mtime :=
  match fs !! f with
  | Some file => At (f_mtime file)
  | None => na
  end.

(** The library calls on paths that the script relies on.
    [normjoin pdir f] is [os.path.normpath(os.path.join(pdir, f))] and
    [relpath f pdir] is [os.path.relpath(f, pdir)]. *)
Record OsPath : Type := mkOsPath {
  normjoin : string -> string -> string;
  relpath : string -> string -> string
}.

(** [getfullpaths(files, pdir, empty=False)] *)
Definition getfullpaths (os : OsPath) (files : list string) (pdir : string)
  : list string :=
  map (fun f => normjoin os pdir (PyStr.strip f))
      (List.filter (fun f => (1 <=? String.length f)%nat) files).

(** ** Artifact snapshots *)

(** The named tuple [AuxFile]. *)
Record AuxFile : Type := mkAuxFile {
  aux_relpath : string;
  aux_exists : bool;
  aux_timestamp : mtime;
  aux_bibdata : list string;
  aux_md5 : option string
}.

(** The characters of [s] before its first newline. *)
Fixpoint line_body (s : string) : string :=
  match s with
  | EmptyString => EmptyString
  | String c s' =>
      if Ascii.eqb c PyStr.newline then EmptyString else String c (line_body s')
  end.

(** The text before the last occurrence of [c] in [s]. *)
Fixpoint before_last (c : ascii) (s : string) : option string :=
  match s with
  | EmptyString => None
  | String d s' =>
      match before_last c s' with
      | Some p => Some (String d p)
      | None => if Ascii.eqb d c then Some EmptyString else None
      end
  end.

(** The match of the pattern of [getbibdata] at the start of a line, giving
    group 1: the line starts with the directive and its opening brace, and
    the greedy group stops at the last closing brace of the line. *)
Definition bibdata_match (line : string) : option string :=
  if PyStr.startswith "\bibdata{" line
  then before_last "}"%char (line_body (PyStr.drop 9 line))
  else None.

(** [getbibdata(filename)] on the lines of the file. *)
Definition getbibdata (lines : list string) : list string :=
  flat_map (fun line =>
              match bibdata_match line with
              | Some g => map (fun b => PyStr.strip b ++ ".bib") (PyStr.split ","%char g)
              | None => []
              end) lines.

(** What the local variable [md5] of [getauxinfo] holds: the flag it was
    called with, and then whatever the loop body last assigned to it. *)
Inductive md5var : Type :=
| Flag (b : bool)
| Digest (d : option string).

(** Python truth value of that variable. *)
Definition truthy (v : md5var) : bool :=
  match v with
  | Flag b => b
  | Digest (Some d) => negb (String.eqb d EmptyString)
  | Digest None => false
  end.

(** One pass through the body of the loop of [getauxinfo]. *)
Definition getauxinfo_body (os : OsPath) (fs : FS) (pdir : string)
    (st : md5var * gmap string AuxFile) (f : string)
  : md5var * gmap string AuxFile :=
  let '(md5, auxinfo) := st in
  let rel := relpath os f pdir in
  match fs !! f with
  | Some file =>
      let timestamp := At (f_mtime file) in
      let bibdata := getbibdata (f_lines file) in
      let md5' := if truthy md5 then Some (f_md5 file) else None in
      (Digest md5', <[f := mkAuxFile rel true timestamp bibdata md5']> auxinfo)
  | None =>
      (Digest None, <[f := mkAuxFile rel false NegInf [] None]> auxinfo)
  end.

(** [getauxinfo(files, pdir, md5, ext)] for a list [files]. *)
Definition getauxinfo (os : OsPath) (fs : FS) (files : list string)
    (pdir : string) (md5 : bool) (ext : string) : gmap string AuxFile :=
  snd (fold_left (getauxinfo_body os fs pdir)
         (List.filter (PyStr.endswith ext) (getfullpaths os files pdir))
         (Flag md5, ∅)).

(** The test [ischanged] of [getmodifiedaux]. *)
Definition ischanged (old : gmap string AuxFile) (md5 : bool)
    (f : string) (aux : AuxFile) : bool :=
  match old !! f with
  | None => true
  | Some o =>
      Time.gtb (aux_timestamp aux) (aux_timestamp o)
      || (md5 && bool_decide (aux_md5 aux ≠ aux_md5 o))
  end.

(** [getmodifiedaux(old, new, md5)]: the entries of [new] that pass
    [ischanged]. *)
Definition getmodifiedaux (old new : gmap string AuxFile) (md5 : bool)
  : gmap string AuxFile :=
  filter (fun p => ischanged old md5 p.1 p.2 = true) new.

(** The keys of a dictionary to which the keys of [l] are assigned in
    turn, in the order that iterating over the dictionary follows: a key
    stays where it was first assigned. *)
Fixpoint assigned (l : list string) : list string :=
  match l with
  | [] => []
  | k :: l' => k :: List.filter (fun x => negb (String.eqb x k)) (assigned l')
  end.

(** The keys of [getauxinfo(files, pdir, md5, ext)] in that order. *)
Definition getauxinfo_keys (os : OsPath) (files : list string) (pdir : string)
    (ext : string) : list string :=
  assigned (List.filter (PyStr.endswith ext) (getfullpaths os files pdir)).

(** The keys of [getmodifiedaux(old, new, md5)] in that order, given the
    keys of [new]: the loop over the items of [new] assigns the changed
    ones in turn. *)
Definition getmodifiedaux_keys (old new : gmap string AuxFile) (md5 : bool)
    (newkeys : list string) : list string :=
  List.filter (fun f => match new !! f with
                        | Some aux => ischanged old md5 f aux
                        | None => false
                        end) newkeys.

(** The items of a dictionary, for its keys in order. *)
Definition items_of {V : Type} (keys : list string) (m : gmap string V)
  : list (string * V) :=
  omap (fun k => (fun v => (k, v)) <$> m !! k) keys.

(** ** Staleness checks *)

(** The substitution that [biboutofdate] applies to each key: the pattern
    [.aux$] is replaced by [.bbl].  The dot stands for any character but a
    newline, and [$] also matches before a newline that ends the string. *)
Definition is_any_aux (t : string) : bool :=
  match t with
  | String c (String "a" (String "u" (String "x" EmptyString))) =>
      negb (Ascii.eqb c PyStr.newline)
  | _ => false
  end.

Definition sub_aux_bbl (f : string) : string :=
  let n := String.length f in
  if is_any_aux (substring (n - 4) 4 f) && (4 <=? n)%nat
  then substring 0 (n - 4) f ++ ".bbl"
  else if is_any_aux (substring (n - 5) 4 f) && (5 <=? n)%nat
          && String.eqb (substring (n - 1) 1 f) (String PyStr.newline EmptyString)
  then substring 0 (n - 5) f ++ ".bbl" ++ String PyStr.newline EmptyString
  else f.

(** [kpsewhich(biblist, cwd, env)]: [stdout] is what the program prints for
    the list of names. *)
Definition kpsewhich (os : OsPath) (stdout : list string -> string)
    (biblist : list string) (cwd : string) : list string :=
  getfullpaths os (PyStr.split PyStr.newline (stdout biblist)) cwd.

(** The list [bib] of [biboutofdate]. *)
Definition bibnames (auxinfo : gmap string AuxFile) (includeblx : bool)
  : list string :=
  let bib := flat_map (fun p => aux_bibdata p.2) (map_to_list auxinfo) in
  if includeblx then bib
  else List.filter (fun b => negb (PyStr.endswith "-blx.bib" b)) bib.

(** [biboutofdate(auxinfo, pdir, includeblx, env)] *)
Definition biboutofdate (os : OsPath) (fs : FS) (stdout : list string -> string)
    (auxinfo : gmap string AuxFile) (pdir : string) (includeblx : bool)
  : bool * list string :=
  let bib := bibnames auxinfo includeblx in
  if (length bib =? 0)%nat then (false, [])
  else
    let bibfull := kpsewhich os stdout bib pdir in
    let bibtimes := map (fun f => getmtime fs f NegInf) bibfull in
    let newestbib := safemax bibtimes in
    let bblfull := map (fun p => sub_aux_bbl p.1) (map_to_list auxinfo) in
    let bbltimes := map (fun f => getmtime fs f PosInf) bblfull in
    let oldestbbl := safemin bbltimes in
    (Time.geb newestbib oldestbbl, bibfull).

(** The test that [main] applies to each index file it found: the source
    [tex] against the compiled index [ind]. *)
Definition index_outofdate (fs : FS) (tex ind : string) : bool :=
  let textime := getmtime fs tex NegInf in
  let indextime := getmtime fs ind PosInf in
  Time.geb textime indextime.

(** ** The log scanner: class [ErrorChecker] *)

(** A key of the dictionary of checks: the number that [add] picks when no
    name is given, or the name. *)
Inductive checkname : Type :=
| Auto (n : nat)
| Named (s : string).

#[global] Instance checkname_eq_dec : EqDecision checkname.
Proof. solve_decision. Defined.

(** The named tuple [Check].  The compiled expression is kept as its
    pattern; searching a line with it is the parameter [re] below. *)
Record Check : Type := mkCheck {
  regex : string;
  level : string;
  lines : Z
}.

(** A Python dictionary as the list of its items in insertion order. *)
Module Dict.

Fixpoint get {K V : Type} `{EqDecision K} (k : K) (d : list (K * V)) : option V :=
  match d with
  | [] => None
  | (k', v) :: d' => if decide (k = k') then Some v else get k d'
  end.

(** [d[k] = v]: an existing key keeps its place. *)
Fixpoint set {K V : Type} `{EqDecision K} (k : K) (v : V) (d : list (K * V))
  : list (K * V) :=
  match d with
  | [] => [(k, v)]
  | (k', v') :: d' =>
      if decide (k = k') then (k, v) :: d' else (k', v') :: set k v d'
  end.

Definition values {K V : Type} (d : list (K * V)) : list V := map snd d.

End Dict.

Record ErrorChecker : Type := mkErrorChecker {
  checks : list (checkname * Check);
  defaultlevel : string
}.

(** The ways in which [add] fails. *)
Inductive add_error : Type :=
| NameUsed      (* ValueError: the name is already used *)
| NoPattern     (* TypeError of re.compile: no pattern is given *)
| BadPattern.   (* re.error: re.compile rejects the pattern *)

(** [ErrorChecker.add(regex=None, level=, lines=, name=)].  [compiles p]
    tells whether [re.compile] accepts the pattern [p].  The name is
    settled first; the pattern is compiled when the rule is built, before
    the rule is stored, so that a failure registers nothing. *)
Definition add (compiles : string -> bool) (ec : ErrorChecker)
    (rx : option string) (lvl : option string) (n : Z) (name : option string)
  : add_error + (checkname * ErrorChecker) :=
  let key :=
    match name with
    | None => Some (Auto (length (checks ec)))
    | Some s =>
        match Dict.get (Named s) (checks ec) with
        | Some _ => None
        | None => Some (Named s)
        end
    end in
  match key with
  | None => inl NameUsed
  | Some k =>
      let lvl' := match lvl with Some l => l | None => defaultlevel ec end in
      match rx with
      | None => inl NoPattern
      | Some p =>
          if compiles p
          then inr (k, mkErrorChecker (Dict.set k (mkCheck p lvl' n) (checks ec))
                                      (defaultlevel ec))
          else inl BadPattern
      end
  end.

(** [ErrorChecker.change(name, level=, lines=)]; [None] is the [KeyError]. *)
Definition change (ec : ErrorChecker) (name : checkname)
    (lvl : option string) (n : option Z) : option ErrorChecker :=
  match Dict.get name (checks ec) with
  | None => None
  | Some default =>
      let lvl' := match lvl with Some l => l | None => level default end in
      let n' := match n with Some k => k | None => lines default end in
      Some (mkErrorChecker
              (Dict.set name (mkCheck (regex default) lvl' n') (checks ec))
              (defaultlevel ec))
  end.

(** The dictionary [messages]: a [defaultdict(list)] keyed by level. *)
Definition bucket (messages : gmap string (list string)) (lvl : string)
  : list string :=
  default [] (messages !! lvl).

Definition bucket_append (messages : gmap string (list string))
    (lvl : string) (m : string) : gmap string (list string) :=
  <[lvl := (bucket messages lvl ++ [m])%list]> messages.

(** [n] calls of [next(log, "").strip("\n")] on the open log: the texts
    obtained and the lines that remain unread. *)
Fixpoint take_next (n : nat) (log : list string) : list string * list string :=
  match n with
  | O => ([], log)
  | S n' =>
      match log with
      | [] => let '(m, r) := take_next n' [] in (EmptyString :: m, r)
      | l :: log' => let '(m, r) := take_next n' log' in (PyStr.strip_nl l :: m, r)
      end
  end.

(** The body of the inner loop of [search] for one check: the state is the
    unread part of the log and the messages so far. *)
Definition search_check (re : string -> string -> bool) (line : string)
    (st : list string * gmap string (list string)) (check : Check)
  : list string * gmap string (list string) :=
  let '(log, messages) := st in
  if re (regex check) line then
    let '(extra, log') := take_next (Z.to_nat (lines check - 1)) log in
    let m := PyStr.join (String PyStr.newline EmptyString)
                        (PyStr.strip_nl line :: extra) in
    (log', bucket_append messages (level check) m)
  else (log, messages).

(** The outer loop of [search]: [for line in log].  Every pass reads at
    least one line, so [length log] passes are enough. *)
Fixpoint search_loop (re : string -> string -> bool) (cs : list Check)
    (fuel : nat) (log : list string) (messages : gmap string (list string))
  : gmap string (list string) :=
  match fuel with
  | O => messages
  | S fuel' =>
      match log with
      | [] => messages
      | line :: rest =>
          let '(rest', messages') :=
            fold_left (search_check re line) cs (rest, messages) in
          search_loop re cs fuel' rest' messages'
      end
  end.

(** [ErrorChecker.search(logfile)] on the lines of the log. *)
Definition search (re : string -> string -> bool) (ec : ErrorChecker)
    (log : list string) : gmap string (list string) :=
  search_loop re (Dict.values (checks ec)) (length log) log ∅.

(** The scanner as the specification words it: every line of the text is
    tested against every rule, and a match captures the line and the
    following [lines - 1] lines, or fewer at the end of the text. *)
Module Spec.

Definition block (line : string) (n : Z) (following : list string) : string :=
  PyStr.join (String PyStr.newline EmptyString)
    (map PyStr.strip_nl (line :: take (Z.to_nat (n - 1)) following)).

Definition scan_line (re : string -> string -> bool) (cs : list Check)
    (line : string) (following : list string)
    (messages : gmap string (list string)) : gmap string (list string) :=
  fold_left (fun ms c =>
               if re (regex c) line
               then bucket_append ms (level c) (block line (lines c) following)
               else ms) cs messages.

Fixpoint scan_from (re : string -> string -> bool) (cs : list Check)
    (log : list string) (messages : gmap string (list string))
  : gmap string (list string) :=
  match log with
  | [] => messages
  | line :: rest => scan_from re cs rest (scan_line re cs line rest messages)
  end.

Definition scan (re : string -> string -> bool) (ec : ErrorChecker)
    (log : list string) : gmap string (list string) :=
  scan_from re (Dict.values (checks ec)) log ∅.

End Spec.

(** What one pass of the outer loop of [search] finds for the line it
    read, as a list of (level, block) in the order of the checks: each
    matching check takes its extra lines from what the checks before it
    left unread. *)
Fixpoint found (re : string -> string -> bool) (cs : list Check)
    (line : string) (rest : list string) : list (string * string) :=
  match cs with
  | [] => []
  | c :: cs' =>
      if re (regex c) line then
        let k := Z.to_nat (lines c - 1) in
        (level c,
         PyStr.join (String PyStr.newline EmptyString)
           (PyStr.strip_nl line
              :: (map PyStr.strip_nl (take k rest)
                  ++ replicate (k - length rest) EmptyString)%list))
        :: found re cs' line (drop k rest)
      else found re cs' line rest
  end.

(** The number of lines after [line] that the matching checks consume. *)
Definition consumed (re : string -> string -> bool) (cs : list Check)
    (line : string) : nat :=
  sum_list (map (fun c => if re (regex c) line then Z.to_nat (lines c - 1) else O) cs).

Definition at_level (lvl : string) (l : list (string * string)) : list string :=
  map snd (List.filter (fun p => String.eqb p.1 lvl) l).

(** ** The citation index cleaner: class [CitationIndex] *)

Module CitationIndex.

(** [re.sub] for an expression that never matches the empty string.
    [m s] is the match of the expression at the start of [s], given as the
    text that follows the match.  The scan goes from left to right and
    resumes after each match; the fuel is the length of the text. *)
Fixpoint sub_fuel (fuel : nat) (m : string -> option string) (repl s : string)
  : string :=
  match fuel with
  | O => s
  | S fuel' =>
      match s with
      | EmptyString => EmptyString
      | String c s' =>
          match m s with
          | Some r => repl ++ sub_fuel fuel' m repl r
          | None => String c (sub_fuel fuel' m repl s')
          end
      end
  end.

Definition sub (m : string -> option string) (repl s : string) : string :=
  sub_fuel (String.length s) m repl s.

(** [spacebeforere]: one or more blanks and then a closing brace. *)
Definition spacebeforere (s : string) : option string :=
  match s with
  | String c _ =>
      if PyStr.isspace c then
        match PyStr.lstrip_by PyStr.isspace s with
        | String "}" r => Some r
        | _ => None
        end
      else None
  | EmptyString => None
  end.

(** [spaceafterre]: an opening brace and then one or more blanks. *)
Definition spaceafterre (s : string) : option string :=
  match s with
  | String "{" (String c r) =>
      if PyStr.isspace c then Some (PyStr.lstrip_by PyStr.isspace r) else None
  | _ => None
  end.

(** [tokenre]: a backslash, one character that is neither a blank nor an
    opening brace, and a blank if there is one. *)
Definition tokenre (s : string) : option string :=
  match s with
  | String "\" (String c r) =>
      if Ascii.eqb c " " || Ascii.eqb c "{" then None
      else match r with
           | String " " r' => Some r'
           | _ => Some r
           end
  | _ => None
  end.

(** [keeptext] *)
Definition keeptext : string :=
  "abcdefghijklmnopqrstuvwxyzABCDEFGHIJKLMNOPQRSTUVWXYZ0123456789 ".

(** [replacements], in the order of the list. *)
Definition replacements : list (string * string) :=
  [("\OE", "OE"); ("\aa", "a"); ("\O", "O"); ("\o", "o"); ("\ss", "s");
   ("\ae", "ae"); ("\AA", "A"); ("\L", "L"); ("\l", "l"); ("\oe", "oe");
   ("\ae", "AE"); ("~", " ")].

(** [nobracespace]: the first substitution writes an opening brace, the
    second a closing one. *)
Definition nobracespace (s : string) : string :=
  let s := sub spacebeforere "{" s in
  let s := sub spaceafterre "}" s in
  s.

(** [keep] *)
Definition keep (c : ascii) : bool := PyStr.mem c keeptext.

(** The object that the builtin [filter] returns: an iterator over the
    kept characters that lives at some address.  Nothing in [purify]
    iterates over it. *)
Record filter_object : Type := mkFilter {
  fo_function : ascii -> bool;
  fo_iterable : string;
  fo_address : string
}.

(** [str] of a filter object: the class gives it no text of its own, so
    the result is the default one, the type name and the address in
    hexadecimal. *)
Definition str_filter (o : filter_object) : string :=
  "<filter object at 0x" ++ fo_address o ++ ">".

(** [purify(name)]; [address] is where the filter object is allocated. *)
Definition purify (address : string) (name : string) : string :=
  let name := nobracespace name in
  let name := fold_left (fun n fr => PyStr.replace fr.1 fr.2 n) replacements name in
  let name := sub tokenre "" name in
  let name := str_filter (mkFilter keep name address) in
  PyStr.upper name.

(** [entryre], from its last group to its first.  Each group is lazy: it
    takes the fewest characters, none of them a newline, after which the
    rest of the expression matches. *)
Fixpoint match_page (s : string) : option string :=
  match s with
  | EmptyString => None
  | String c s' =>
      if Ascii.eqb c "}" then Some EmptyString
      else if Ascii.eqb c PyStr.newline then None
      else option_map (String c) (match_page s')
  end.

Fixpoint match_year (s : string) : option (string * string) :=
  let here :=
    if PyStr.startswith "}{" s then match_page (PyStr.drop 2 s) else None in
  match here with
  | Some page => Some (EmptyString, page)
  | None =>
      match s with
      | EmptyString => None
      | String c s' =>
          if Ascii.eqb c PyStr.newline then None
          else option_map (fun yp => (String c yp.1, yp.2)) (match_year s')
      end
  end.

Fixpoint match_author (s : string) : option (string * string * string) :=
  let here :=
    if PyStr.startswith "}\ " s then match_year (PyStr.drop 3 s) else None in
  match here with
  | Some (year, page) => Some (EmptyString, year, page)
  | None =>
      match s with
      | EmptyString => None
      | String c s' =>
          if Ascii.eqb c PyStr.newline then None
          else option_map (fun ayp => (String c ayp.1.1, ayp.1.2, ayp.2))
                          (match_author s')
      end
  end.

Definition entry_prefix : string := "\indexentry {{".

(** [entryre.search(line)]: the groups author, year and page of the
    leftmost match. *)
Fixpoint entryre_search (line : string) : option (string * string * string) :=
  let here :=
    if PyStr.startswith entry_prefix line
    then match_author (PyStr.drop 14 line) else None in
  match here with
  | Some g => Some g
  | None =>
      match line with
      | EmptyString => None
      | String _ line' => entryre_search line'
      end
  end.

(** The line that [clean] writes for the groups of one entry. *)
Definition entry (nicename niceyear name year page : string) : string :=
  let key := "{" ++ name ++ "}\ " ++ year in
  let nicekey := PyStr.join " " [nicename; niceyear] in
  "\indexentry{" ++ nicekey ++ "@" ++ key ++ "}{" ++ page ++ "}".

Inductive outcome : Type :=
| Done
| RuntimeError (i : nat)      (* no entry on line [i] *)
| FileNotFound.               (* the input cannot be opened *)

(** The main loop of [clean]: [out] is what the output file holds.  The
    two calls of [purify] for line [i] allocate their filter objects at
    [address (2 * i)] and [address (2 * i + 1)]. *)
Fixpoint clean_loop (address : nat -> string) (i : nat) (infile : list string)
    (out : list string) : outcome * list string :=
  match infile with
  | [] => (Done, out)
  | line :: infile' =>
      match entryre_search line with
      | Some (name, year, page) =>
          let nicename := purify (address (2 * i)%nat) name in
          let niceyear := purify (address (2 * i + 1)%nat) year in
          let e := entry nicename niceyear name year page in
          clean_loop address (S i) infile'
            (app out [e ++ String PyStr.newline EmptyString])
      | None => (RuntimeError i, out)
      end
  end.

(** [clean(infilename, outfilename)] on the texts of the files: a map from
    a path to the lines of the file.  [tmp] is the name that
    [NamedTemporaryFile] picks.  Opening the output file creates or
    empties it before the first line of the input is read. *)
Definition clean (address : nat -> string) (tmp : string)
    (files : gmap string (list string)) (infilename : string)
    (outfilename : option string) : outcome * gmap string (list string) :=
  match files !! infilename with
  | None => (FileNotFound, files)
  | Some _ =>
      let outname := match outfilename with Some o => o | None => tmp end in
      let files := <[outname := []]> files in
      let infile := default [] (files !! infilename) in
      let '(r, out) := clean_loop address O infile [] in
      let files := <[outname := out]> files in
      match r, outfilename with
      | Done, None =>
          (* os.rename(outfiletmp, infilename) *)
          (Done, <[infilename := out]> (delete tmp files))
      | _, _ => (r, files)
      end
  end.

End CitationIndex.

(** ** The checkers that the script builds when it is loaded *)

(** The rules of the two checkers, in the order of the calls of [add]: the
    pattern, the level, the number of lines and the name. *)
Definition logchecker_rules : list (string * option string * Z * option string) :=
  [("Warning:.*Rerun to get cross", None, 1, None);
   ("Warning:.*Citation.*may have changed", None, 1, None);
   ("Warning:.*Citation.*undefined", None, 1, Some "undefcite");
   ("Warning: Reference `.*' on page \d+ undefined", None, 1, Some "undefref");
   ("Warning:.*There were undefined (references|citations)", None, 1, Some "undef");
   ("No file .*\.(bbl|toc|[aic]nd)", None, 1, None);
   ("Package rerunfilecheck Warning: File.*has changed", None, 1, None);
   ("LaTeX Error:", Some "fatal", 1, None);
   ("! Undefined control sequence", Some "fatal", 2, None);
   ("!  ==> Fatal error occurred", Some "fatal", 1, None);
   ("! Missing [{}] inserted", Some "fatal", 5, None);
   ("! Package.*Error", Some "fatal", 1, None)].

Definition blgchecker_rules : list (string * option string * Z * option string) :=
  [("Repeated entry---line \d* of file", None, 4, None);
   ("Warning--I didn't find a database entry for", None, 1, None);
   ("I was expecting a .* or a .*---line \d* of file", None, 5, None);
   ("Warning--entry type for .* isn't style-file defined", None, 2, None);
   ("I couldn't open database file", None, 4, None)].

(** [re.compile] on the patterns of these rules: it accepts each of them
    (the script loads).  Nothing is said of other patterns. *)
Definition compiles_loaded (p : string) : bool :=
  existsb (fun r => String.eqb p r.1.1.1) (logchecker_rules ++ blgchecker_rules)%list.

(** One call of [add] while the script is loaded; an error stops the
    loading. *)
Definition add_to (ec : option ErrorChecker)
    (r : string * option string * Z * option string) : option ErrorChecker :=
  match ec with
  | Some e =>
      match add compiles_loaded e (Some r.1.1.1) r.1.1.2 r.1.2 r.2 with
      | inr (_, e') => Some e'
      | inl _ => None
      end
  | None => None
  end.

Definition build_logchecker : option ErrorChecker :=
  fold_left add_to logchecker_rules (Some (mkErrorChecker [] "warning")).

Definition logchecker : ErrorChecker :=
  default (mkErrorChecker [] "warning") build_logchecker.

Definition build_blgchecker : option ErrorChecker :=
  fold_left add_to blgchecker_rules (Some (mkErrorChecker [] "error")).

Definition blgchecker : ErrorChecker :=
  default (mkErrorChecker [] "error") build_blgchecker.

(** ** What the script reads in the log and in the aux file *)

(** The last place in [s] where a dot is followed by one of the three
    extensions of index files, with that extension. *)
Fixpoint last_index_ext (s : string) : option string :=
  match s with
  | EmptyString => None
  | String c s' =>
      match last_index_ext s' with
      | Some e => Some e
      | None =>
          if Ascii.eqb c "." then
            if PyStr.startswith "idx" s' then Some "idx"
            else if PyStr.startswith "ain" s' then Some "ain"
            else if PyStr.startswith "ctx" s' then Some "ctx"
            else None
          else None
      end
  end.

(** The search of [getindexfiles] in one line, giving group 1: the words
    that announce an index file, then as much of the line as leaves a dot
    and an extension. *)
Fixpoint index_search (line : string) : option string :=
  let here :=
    if PyStr.startswith "Writing index file " line
    then last_index_ext (line_body (PyStr.drop 19 line)) else None in
  match here with
  | Some e => Some e
  | None =>
      match line with
      | EmptyString => None
      | String _ line' => index_search line'
      end
  end.

(** The dictionary [indexes] of [getindexfiles]. *)
Definition indexes : list (string * (string * string)) :=
  [("idx", ("subject", "ind")); ("ain", ("author", "and"));
   ("ctx", ("citation", "cnd"))].

(** [getindexfiles(logfile)] on the lines of the log. *)
Definition getindexfiles (log : list string) : list (string * (string * string)) :=
  fold_left (fun found line =>
               match index_search line with
               | Some inext =>
                   match Dict.get inext indexes with
                   | Some (name, outext) => Dict.set name (inext, outext) found
                   | None => found
                   end
               | None => found
               end) log [].

Definition is_digit (c : ascii) : bool :=
  let n := nat_of_ascii c in (48 <=? n)%nat && (n <=? 57)%nat.

(** The leading digits of [s] and what follows them. *)
Fixpoint span_digits (s : string) : string * string :=
  match s with
  | String c s' =>
      if is_digit c then let '(ds, r) := span_digits s' in (String c ds, r)
      else (EmptyString, s)
  | EmptyString => (EmptyString, EmptyString)
  end.

(** The value of a string of digits, read after the number [acc]. *)
Fixpoint int_digits (acc : Z) (ds : string) : Z :=
  match ds with
  | EmptyString => acc
  | String c ds' => int_digits (10 * acc + Z.of_nat (nat_of_ascii c - 48)) ds'
  end.

(** The most digits that [int] converts (Python 3.11 and later, with its
    default setting). *)
Definition int_max_str_digits : nat := 4300.

(** [int(ds)] for a string of digits; [None] is the [ValueError] for a
    string with more digits than the limit. *)
Definition py_int (ds : string) : option Z :=
  if (int_max_str_digits <? String.length ds)%nat then None
  else Some (int_digits 0 ds).

(** The expression of [checktotalslides] matched at the start of [s],
    giving group 1: the command, one blank, and digits in braces. *)
Definition totalframes_at (s : string) : option string :=
  if PyStr.startswith "\inserttotalframenumber" s then
    match PyStr.drop 23 s with
    | String c (String "{" r) =>
        if PyStr.isspace c then
          match span_digits r with
          | (String d ds, String "}" _) => Some (String d ds)
          | _ => None
          end
        else None
    | _ => None
    end
  else None.

Fixpoint totalframes_search (line : string) : option string :=
  match totalframes_at line with
  | Some ds => Some ds
  | None =>
      match line with
      | EmptyString => None
      | String _ line' => totalframes_search line'
      end
  end.

(** [checktotalslides(auxfile)]: the number on the last line that has
    one.  The outer [None] is the [ValueError] of [int], raised at the
    first line whose number has too many digits. *)
Definition checktotalslides (fs : FS) (auxfile : string) : option (option Z) :=
  match fs !! auxfile with
  | Some file =>
      fold_left (fun retval line =>
                   match retval with
                   | Some r =>
                       match totalframes_search line with
                       | Some ds => option_map Some (py_int ds)
                       | None => Some r
                       end
                   | None => None
                   end) (f_lines file) (Some None)
  | None => Some None
  end.

(** ** The loop of [main] *)

(** The options of the command line that the loop reads.  [errordisplay]
    is what the option [display] gives, and [pdflatex] is the command to
    run. *)
Record Options : Type := mkOptions {
  max_runs : Z;
  min_runs : Z;
  paranoid : bool;
  check_all_aux : bool;
  recheck_aux : bool;
  check_blx_timestamps : bool;
  show_cite_errors : bool;
  ignore_cite_errors : bool;
  errordisplay : bool;
  pdflatex : string
}.

(** The paths of one document: [extrafile ext] is the entry of the
    dictionary [extrafile] for an extension. *)
Record Job : Type := mkJob {
  fullbuilddir : string;
  extrafile : string -> string
}.

(** What iterating over the open input file of an index gives: all its
    lines, or the lines read before bytes that cannot be decoded. *)
Inductive index_text : Type :=
| Text (lines : list string)
| Garbled (before : list string).

(** What the world shows to the script during one pass of the loop: the
    results of the programs it starts and of the files it reads, each at
    the moment the script looks. *)
Record Run : Type := mkRun {
  (* the programs that subprocess.Popen cannot start *)
  cannot_start : string -> bool;
  (* the exit code of bibtex for a relative path, and the bibtex log of
     that file if it can be opened *)
  bibtex_returncode : string -> Z;
  blg_lines : string -> option (list string);
  (* the input file of an index when the index loop reaches it, if it is
     a file *)
  index_input : string -> option index_text;
  filter_address : nat -> string;
  tmpname : string;
  (* before pdflatex: the directory, the aux files named in an older log,
     the files *)
  listdir_before : list string;
  logaux_before : list string;
  fs_before : FS;
  (* pdflatex *)
  returncode : Z;
  (* after pdflatex: the files, and what getauxfromlog and os.listdir
     return *)
  fs_after : FS;
  logaux_after : list string;
  listdir_after : list string;
  (* what kpsewhich prints for a list of names, if it can be decoded *)
  kpsewhich_stdout : list string -> option string
}.

(** The variables that one pass of the loop hands to the next.  The
    dictionary [auxinfo] is a map together with its keys in the order of
    iteration. *)
Record State : Type := mkState {
  auxinfo : gmap string AuxFile;
  auxkeys : list string;
  indexfiles : list (string * (string * string));
  beamer_numslides : option Z;
  checker : ErrorChecker
}.

Inductive exn : Type :=
| OSError                 (* Popen: the program cannot be started *)
| BibtexLogError          (* errorout: the bibtex log cannot be searched *)
| CorruptIndex (i : nat)  (* clean: no entry on line i *)
| UnicodeDecodeError      (* clean: the index cannot be decoded *)
| LogMissing              (* the log of pdflatex cannot be opened *)
| UnknownCheck            (* change: the name is not known *)
| ValueError              (* int: too many digits *)
| NameError.              (* runcount is read but the loop never ran *)

Inductive result : Type :=
| Success (runcount : Z)          (* Successful completion *)
| ErrorsPersist (runcount : Z)    (* Errors persist after runcount runs *)
| Raised (runcount : Z) (e : exn).

(** The bibtex loop fails on the log of bibtex when bibtex fails on a file
    with bibliography data, errors are displayed, and its log cannot be
    opened. *)
Definition bibtex_raises (opts : Options) (run : Run)
    (auxinfo : gmap string AuxFile) : bool :=
  existsb (fun p =>
             let a := p.2 in
             negb (length (aux_bibdata a) =? 0)%nat
             && negb (bibtex_returncode run (aux_relpath a) =? 0)
             && errordisplay opts
             && match blg_lines run (aux_relpath a) with
                | Some _ => false
                | None => true
                end)
          (map_to_list auxinfo).

(** The bibtex loop: bibtex is started for every aux file with
    bibliography data, which fails at the first of them when the program
    cannot be started. *)
Definition bibtex_step (opts : Options) (run : Run)
    (auxinfo : gmap string AuxFile) : option exn :=
  if existsb (fun p => negb (length (aux_bibdata p.2) =? 0)%nat) (map_to_list auxinfo)
  then
    if cannot_start run "bibtex" then Some OSError
    else if bibtex_raises opts run auxinfo then Some BibtexLogError
    else None
  else None.

(** What [clean] raises on the input file of a citation index: the line
    that is not an entry, or the bytes that cannot be decoded, whichever
    is met first. *)
Definition clean_raises (run : Run) (f : string) (text : index_text) : option exn :=
  match text with
  | Text lines =>
      match (CitationIndex.clean (filter_address run) (tmpname run)
               {[ f := lines ]} f None).1 with
      | CitationIndex.RuntimeError i => Some (CorruptIndex i)
      | _ => None
      end
  | Garbled before =>
      match (CitationIndex.clean (filter_address run) (tmpname run)
               {[ f := before ]} f None).1 with
      | CitationIndex.RuntimeError i => Some (CorruptIndex i)
      | _ => Some UnicodeDecodeError
      end
  end.

(** The index loop: for each index whose input file exists, authorindex
    is started for an author index and the input of a citation index is
    cleaned, and then makeindex is started.  The first error ends it. *)
Fixpoint index_raises (job : Job) (run : Run)
    (indexfiles : list (string * (string * string))) : option exn :=
  match indexfiles with
  | [] => None
  | (indextype, (inext, outext)) :: rest =>
      let f := extrafile job inext in
      match index_input run f with
      | Some text =>
          let prepared :=
            if String.eqb indextype "author" then
              if cannot_start run "authorindex" then Some OSError else None
            else if String.eqb indextype "citation" then clean_raises run f text
            else None in
          match prepared with
          | Some e => Some e
          | None =>
              if cannot_start run "makeindex" then Some OSError
              else index_raises job run rest
          end
      | None => index_raises job run rest
      end
  end.

(** [any(len(logmessages[k]) > 0 for k in ["warning", "error", "fatal"])] *)
Definition any_messages (logmessages : gmap string (list string)) : bool :=
  existsb (fun k => negb (length (bucket logmessages k) =? 0)%nat)
          ["warning"; "error"; "fatal"].

(** The updates of the levels on the final run. *)
Definition final_levels (opts : Options) (ec : ErrorChecker) : option ErrorChecker :=
  let citeerror := if ignore_cite_errors opts then "ignore" else "error" in
  fold_left (fun c k =>
               match c with
               | Some e => change e (Named k) (Some citeerror) None
               | None => None
               end)
            ["undef"; "undefref"; "undefcite"] (Some ec).

(** The checker that scans the log of a pass. *)
Definition pass_checker (opts : Options) (maxruns runcount : Z) (st : State)
  : option ErrorChecker :=
  if runcount =? maxruns then final_levels opts (checker st) else Some (checker st).

(** The body of the loop over the changed aux files, for one file. *)
Definition aux_check (opts : Options) (oldauxinfo : gmap string AuxFile)
    (keepgoing : bool) (p : string * AuxFile) : bool :=
  let '(f, a) := p in
  let keepgoing :=
    if negb (length (aux_bibdata a) =? 0)%nat then
      match oldauxinfo !! f with
      | Some o => if bool_decide (aux_bibdata o ≠ aux_bibdata a) then true else keepgoing
      | None => keepgoing
      end
    else keepgoing in
  if negb keepgoing && paranoid opts then
    match oldauxinfo !! f with
    | None => true
    | Some o => if bool_decide (aux_md5 o ≠ aux_md5 a) then true else keepgoing
    end
  else keepgoing.

(** The body of the loop over the index files, for one file. *)
Definition index_check (job : Job) (fs : FS) (keepgoing : bool)
    (v : string * (string * string)) : bool :=
  let ext := v.2.2 in
  if index_outofdate fs (extrafile job "tex") (extrafile job ext)
  then true else keepgoing.

(** The two snapshots that one pass takes, before and after pdflatex.
    After the first pass, the older one is taken for the keys of
    [auxinfo], in their order. *)
Definition oldauxinfo_of (os : OsPath) (opts : Options) (job : Job) (run : Run)
    (runcount : Z) (st : State) : gmap string AuxFile :=
  let auxfiles :=
    if runcount =? 1
    then (extrafile job "aux" :: listdir_before run ++ logaux_before run)%list
    else auxkeys st in
  getauxinfo os (fs_before run) auxfiles (fullbuilddir job) (paranoid opts) ".aux".

(** The list [auxfiles] of the newer snapshot. *)
Definition newauxfiles (opts : Options) (job : Job) (run : Run) : list string :=
  let auxfiles := (extrafile job "aux" :: logaux_after run)%list in
  if check_all_aux opts then (auxfiles ++ listdir_after run)%list else auxfiles.

Definition newauxinfo_of (os : OsPath) (opts : Options) (job : Job) (run : Run)
  : gmap string AuxFile :=
  getauxinfo os (fs_after run) (newauxfiles opts job run) (fullbuilddir job)
             (paranoid opts) ".aux".

(** The dictionary [auxinfo] that a pass builds with [getmodifiedaux], and
    its keys in order. *)
Definition changed_aux (os : OsPath) (opts : Options) (job : Job) (run : Run)
    (runcount : Z) (st : State) : gmap string AuxFile :=
  getmodifiedaux (oldauxinfo_of os opts job run runcount st)
                 (newauxinfo_of os opts job run) (paranoid opts).

Definition changed_keys (os : OsPath) (opts : Options) (job : Job) (run : Run)
    (runcount : Z) (st : State) : list string :=
  getmodifiedaux_keys (oldauxinfo_of os opts job run runcount st)
    (newauxinfo_of os opts job run) (paranoid opts)
    (getauxinfo_keys os (newauxfiles opts job run) (fullbuilddir job) ".aux").

(** The text that [kpsewhich] decodes. *)
Definition kpsewhich_text (run : Run) (names : list string) : string :=
  default "" (kpsewhich_stdout run names).

(** What the call of kpsewhich in [biboutofdate] raises: the program is
    started, and its output decoded, when there are names to resolve. *)
Definition kpsewhich_raises (opts : Options) (run : Run)
    (auxinfo : gmap string AuxFile) : option exn :=
  let bib := bibnames auxinfo (check_blx_timestamps opts) in
  if (length bib =? 0)%nat then None
  else if cannot_start run "kpsewhich" then Some OSError
  else match kpsewhich_stdout run bib with
       | Some _ => None
       | None => Some UnicodeDecodeError
       end.

(** The checks of the first pass, and of every pass with the option
    recheck_aux: the bibliography and the number of slides.  The result is
    [keepgoing] and [beamer_numslides]. *)
Definition aux_recheck (os : OsPath) (opts : Options) (job : Job) (run : Run)
    (runcount : Z) (st : State) (auxinfo : gmap string AuxFile)
    (keepgoing : bool) : exn + (bool * option Z) :=
  if (runcount =? 1) || recheck_aux opts then
    match kpsewhich_raises opts run auxinfo with
    | Some e => inl e
    | None =>
      let outofdate :=
        (biboutofdate os (fs_after run) (kpsewhich_text run) auxinfo
           (fullbuilddir job) (check_blx_timestamps opts)).1 in
      let keepgoing := if outofdate then true else keepgoing in
      if bool_decide (beamer_numslides st ≠ None) || recheck_aux opts then
        match checktotalslides (fs_after run) (extrafile job "aux") with
        | None => inl ValueError
        | Some new_beamer_numslides =>
            if bool_decide (new_beamer_numslides ≠ beamer_numslides st)
            then inr (true, new_beamer_numslides)
            else inr (keepgoing, beamer_numslides st)
        end
      else inr (keepgoing, beamer_numslides st)
    end
  else inr (keepgoing, beamer_numslides st).

(** One pass of the loop, up to the test on the minimum number of runs:
    the error it raises, or the next state and the value of [keepgoing]. *)
Definition iteration (re : string -> string -> bool) (os : OsPath)
    (opts : Options) (job : Job) (run : Run) (maxruns runcount : Z)
    (st : State) : exn + (State * bool) :=
  match bibtex_step opts run (auxinfo st) with
  | Some e => inl e
  | None =>
  match index_raises job run (indexfiles st) with
  | Some e => inl e
  | None =>
      let oldauxinfo := oldauxinfo_of os opts job run runcount st in
      if cannot_start run (pdflatex opts) then inl OSError else
      let keepgoing := negb (returncode run =? 0) in
      match pass_checker opts maxruns runcount st with
      | None => inl UnknownCheck
      | Some ec =>
          match fs_after run !! extrafile job "log" with
          | None => inl LogMissing
          | Some logfile =>
              let logmessages := search re ec (f_lines logfile) in
              let keepgoing := if any_messages logmessages then true else keepgoing in
              let auxinfo := changed_aux os opts job run runcount st in
              let auxkeys := changed_keys os opts job run runcount st in
              match aux_recheck os opts job run runcount st auxinfo keepgoing with
              | inl e => inl e
              | inr (keepgoing, numslides) =>
                  let indexfiles := getindexfiles (f_lines logfile) in
                  let keepgoing :=
                    fold_left (aux_check opts oldauxinfo) (items_of auxkeys auxinfo)
                              keepgoing in
                  let keepgoing :=
                    fold_left (index_check job (fs_after run)) indexfiles keepgoing in
                  inr (mkState auxinfo auxkeys indexfiles numslides ec, keepgoing)
              end
          end
      end
  end
  end.

(** The test on the minimum number of runs. *)
Definition floor (opts : Options) (runcount : Z) (keepgoing : bool) : bool :=
  if runcount <? min_runs opts then true else keepgoing.

(** [for runcount in range(1, maxruns + 1)], with [n] passes left. *)
Fixpoint loop (re : string -> string -> bool) (os : OsPath) (opts : Options)
    (job : Job) (world : Z -> Run) (maxruns : Z) (n : nat) (runcount : Z)
    (st : State) : result :=
  match n with
  | O => ErrorsPersist (runcount - 1)
  | S n' =>
      match iteration re os opts job (world runcount) maxruns runcount st with
      | inl e => Raised runcount e
      | inr (st', keepgoing) =>
          if floor opts runcount keepgoing
          then loop re os opts job world maxruns n' (runcount + 1) st'
          else Success runcount
      end
  end.

(** [maxruns = options.max_runs + options.paranoid] *)
Definition maxruns_of (opts : Options) : Z :=
  max_runs opts + (if paranoid opts then 1 else 0).

(** The call of [logchecker.change] at the start of [main]. *)
Definition initial_checker (opts : Options) : option ErrorChecker :=
  change logchecker (Named "undefcite")
    (Some (if show_cite_errors opts then "error" else "warning")) None.

(** The variables before the first pass; [slides] is what
    [checktotalslides] found when [main] started. *)
Definition initial_state (opts : Options) (slides : option Z) : State :=
  mkState ∅ [] [] slides (default logchecker (initial_checker opts)).

(** [main]: [fs] is the file system when it starts and [world r] is what
    the script meets in pass [r]. *)
Definition main (re : string -> string -> bool) (os : OsPath) (opts : Options)
    (job : Job) (fs : FS) (world : Z -> Run) : result :=
  match initial_checker opts with
  | None => Raised 0 UnknownCheck
  | Some _ =>
      let maxruns := maxruns_of opts in
      match checktotalslides fs (extrafile job "aux") with
      | None => Raised 0 ValueError
      | Some slides =>
          if maxruns <=? 0 then Raised 0 NameError
          else loop re os opts job world maxruns (Z.to_nat maxruns) 1
                    (initial_state opts slides)
      end
  end.

(** The state that a pass leaves, or the state it started from when it
    raises. *)
Definition state_after (re : string -> string -> bool) (os : OsPath)
    (opts : Options) (job : Job) (run : Run) (maxruns runcount : Z)
    (st : State) : State :=
  match iteration re os opts job run maxruns runcount st with
  | inr (st', _) => st'
  | inl _ => st
  end.

(** The signals of one pass, each as the loop computes it.  The log: a
    message at one of the three levels. *)
Definition log_signal (re : string -> string -> bool) (opts : Options) (job : Job)
    (run : Run) (maxruns runcount : Z) (st : State) : bool :=
  match pass_checker opts maxruns runcount st,
        fs_after run !! extrafile job "log" with
  | Some ec, Some logfile => any_messages (search re ec (f_lines logfile))
  | _, _ => false
  end.

(** The bibliography is out of date. *)
Definition bib_signal (os : OsPath) (opts : Options) (job : Job) (run : Run)
    (runcount : Z) (st : State) : bool :=
  ((runcount =? 1) || recheck_aux opts)
  && (biboutofdate os (fs_after run) (kpsewhich_text run)
        (changed_aux os opts job run runcount st) (fullbuilddir job)
        (check_blx_timestamps opts)).1.

(** The number of slides has changed. *)
Definition slides_signal (opts : Options) (job : Job) (run : Run)
    (runcount : Z) (st : State) : bool :=
  ((runcount =? 1) || recheck_aux opts)
  && (bool_decide (beamer_numslides st ≠ None) || recheck_aux opts)
  && match checktotalslides (fs_after run) (extrafile job "aux") with
     | Some new_beamer_numslides =>
         bool_decide (new_beamer_numslides ≠ beamer_numslides st)
     | None => false
     end.

(** A changed aux file has another list of bibliography files or, with
    the option paranoid, is new or has another digest. *)
Definition aux_signal (os : OsPath) (opts : Options) (job : Job) (run : Run)
    (runcount : Z) (st : State) : bool :=
  fold_left (aux_check opts (oldauxinfo_of os opts job run runcount st))
            (items_of (changed_keys os opts job run runcount st)
                      (changed_aux os opts job run runcount st))
            false.

(** An index named in the log is out of date. *)
Definition index_signal (job : Job) (run : Run) : bool :=
  match fs_after run !! extrafile job "log" with
  | Some logfile =>
      fold_left (index_check job (fs_after run)) (getindexfiles (f_lines logfile)) false
  | None => false
  end.

(** A pass in which pdflatex exits with zero, the log gives no warning,
    error or fatal message, and no check of the files asks for another
    run. *)
Definition quiet (re : string -> string -> bool) (os : OsPath) (opts : Options)
    (job : Job) (run : Run) (maxruns runcount : Z) (st : State) : Prop :=
  returncode run = 0
  /\ log_signal re opts job run maxruns runcount st = false
  /\ bib_signal os opts job run runcount st = false
  /\ slides_signal opts job run runcount st = false
  /\ aux_signal os opts job run runcount st = false
  /\ index_signal job run = false.

(** ** Predicates used in the statements *)

(** An entry for [p], when [p] is a file, that records the file as
    existing but carries no digest. *)
Definition digest_lost (fs : FS) (acc : gmap string AuxFile) (p : string) : Prop :=
  is_Some (fs !! p) ->
  exists a, acc !! p = Some a /\ aux_exists a = true /\ aux_md5 a = None.

(** The messages [ms] after the (level, block) pairs of [l] were appended
    in order. *)
Definition append_all (ms : gmap string (list string))
    (l : list (string * string)) : gmap string (list string) :=
  fold_left (fun m p => bucket_append m p.1 p.2) l ms.

(** [out] is the line that [clean] writes for the entry found in [line]:
    the purified key, and then the author, year and page as they were
    read. *)
Definition emitted (line out : string) : Prop :=
  exists name year page nicekey,
    CitationIndex.entryre_search line = Some (name, year, page)
    /\ out = "\indexentry{" ++ nicekey ++ "@{" ++ name ++ "}\ " ++ year
             ++ "}{" ++ page ++ "}" ++ String PyStr.newline EmptyString.

(** The file that [clean] is to leave with the clean index. *)
Definition destination (infilename : string) (outfilename : option string) : string :=
  match outfilename with
  | Some o => o
  | None => infilename
  end.

(** What the entry for the path [f] in a snapshot says about [f]: all the
    fields but the digest. *)
Definition describes (os : OsPath) (fs : FS) (pdir : string) (f : string)
    (a : AuxFile) : Prop :=
  aux_relpath a = relpath os f pdir
  /\ aux_exists a = isfile fs f
  /\ aux_timestamp a = getmtime fs f NegInf
  /\ aux_bibdata a = match fs !! f with
                     | Some file => getbibdata (f_lines file)
                     | None => []
                     end
  /\ (fs !! f = None -> aux_md5 a = None).

(** The names of the checks, in the order of registration. *)
Definition names (ec : ErrorChecker) : list checkname := map fst (checks ec).

(** A checker as [add] and [change] keep it: no name is used twice, and a
    number used as a name is below the count of the checks. *)
Definition well_formed (ec : ErrorChecker) : Prop :=
  NoDup (names ec)
  /\ forall n, In (Auto n) (names ec) -> (n < length (checks ec))%nat.

(** The three names whose level [main] changes on the final run. *)
Definition cite_names_known (ec : ErrorChecker) : Prop :=
  In (Named "undef") (names ec) /\ In (Named "undefref") (names ec)
  /\ In (Named "undefcite") (names ec).

(** ** [getauxfromlog] *)

(** The lazy part of the expression of [getauxfromlog] and the extension
    after it: the fewest characters of the line after which [.aux]
    follows, with that extension, and the text after the match. *)
Fixpoint lazy_aux (s : string) : option (string * string) :=
  if PyStr.startswith ".aux" s then Some (".aux", PyStr.drop 4 s)
  else
    match s with
    | EmptyString => None
    | String c s' =>
        if Ascii.eqb c PyStr.newline then None
        else option_map (fun gr => (String c gr.1, gr.2)) (lazy_aux s')
    end.

(** The expression matched at the start of [s]: an opening parenthesis,
    then group 1, which is a dot if there is one, a slash, and the lazy
    part up to the extension. *)
Definition auxre_at (s : string) : option (string * string) :=
  match s with
  | String "(" (String "." (String "/" r)) =>
      option_map (fun gr => ("./" ++ gr.1, gr.2)) (lazy_aux r)
  | String "(" (String "/" r) =>
      option_map (fun gr => ("/" ++ gr.1, gr.2)) (lazy_aux r)
  | _ => None
  end.

(** [auxre.findall(line)]: the matches from left to right, each search
    starting where the match before it ended. *)
Fixpoint auxre_findall_fuel (fuel : nat) (s : string) : list string :=
  match fuel with
  | O => []
  | S fuel' =>
      match s with
      | EmptyString => []
      | String _ s' =>
          match auxre_at s with
          | Some (g, rest) => g :: auxre_findall_fuel fuel' rest
          | None => auxre_findall_fuel fuel' s'
          end
      end
  end.

Definition auxre_findall (line : string) : list string :=
  auxre_findall_fuel (String.length line) line.

(** [getauxfromlog(log, pdir)] on the lines of the log.  The function
    returns the elements of a set as a list, in no fixed order; the
    result here is the set. *)
Definition getauxfromlog (os : OsPath) (fs : FS) (log : list string)
    (pdir : string) : gset string :=
  fold_left (fun aux line =>
               fold_left (fun aux a =>
                            let a := normjoin os pdir a in
                            if isfile fs a then aux ∪ {[ a ]} else aux)
                         (auxre_findall line) aux)
            log ∅.

(** ** Printing: class [StatusConsole] *)

(** The console: its four switches.  What it prints is given as the list
    of the lines printed, in order. *)
Record StatusConsole : Type := mkConsole {
  show_status : bool;
  show_errors : bool;
  show_debug : bool;
  show_critical : bool
}.

(** [formats[fmt]]: the four formats, and the bare field for any other
    key. *)
Definition formats (fmt : string) : string :=
  if String.eqb fmt "debug" then " |  {}"
  else if String.eqb fmt "error" then " !! {}"
  else if String.eqb fmt "status" then "*** {} ***"
  else if String.eqb fmt "critical" then ">>> {}"
  else "{}".

(** [message.format] with its arguments, for a message whose only braces are empty
    fields: the fields take the arguments in order; [None] is the
    [IndexError] for a field without argument. *)
Fixpoint format (message : string) (args : list string) : option string :=
  match message with
  | EmptyString => Some EmptyString
  | String "{" (String "}" rest) =>
      match args with
      | a :: args' => option_map (String.append a) (format rest args')
      | [] => None
      end
  | String c rest => option_map (String c) (format rest args)
  end.

(** [_printlines(lines, fmt)]: one call of [print] for each line. *)
Definition printlines (lines : list string) (fmt : string) : option (list string) :=
  mapM (fun line => format (formats fmt) [line]) lines.

Definition spaces (n : nat) : string := String.concat "" (replicate n " ").

(** [_printbulleted(errors, bullet, fmt)] *)
Definition printbulleted (errors : list string) (bullet fmt : string)
  : option (list string) :=
  let nl := String PyStr.newline EmptyString in
  let lines :=
    flat_map (fun err =>
                let err := PyStr.replace nl (nl ++ spaces (String.length bullet))
                                         (bullet ++ err) in
                PyStr.split PyStr.newline err) errors in
  printlines lines fmt.

(** A message printed when [shown] holds: [status], [debug], [error] and
    [critical] differ in the switches they read and in the format. *)
Definition printmessage (shown : bool) (fmt message : string) (args : list string)
  : option (list string) :=
  if shown then
    match format message args with
    | Some m => printlines (PyStr.split PyStr.newline m) fmt
    | None => None
    end
  else Some [].

Definition status (c : StatusConsole) (message : string) (args : list string) :=
  printmessage (show_status c || show_debug c) "status" message args.

Definition debug (c : StatusConsole) (message : string) (args : list string) :=
  printmessage (show_debug c) "debug" message args.

Definition debugstatus (c : StatusConsole) (message : string) (args : list string) :=
  printmessage (show_debug c) "status" message args.

Definition error (c : StatusConsole) (message : string) (args : list string) :=
  printmessage (show_errors c || show_debug c) "error" message args.

Definition critical (c : StatusConsole) (message : string) (args : list string) :=
  printmessage (show_critical c || show_debug c) "critical" message args.

(** Two printing steps, one after the other. *)
Definition and_then (a b : option (list string)) : option (list string) :=
  match a with
  | Some x => option_map (app x) b
  | None => None
  end.

(** [multierror(errors, etype)] *)
Definition multierror (c : StatusConsole) (errors : list string) (etype : string)
  : option (list string) :=
  if (show_errors c || show_debug c) && negb (length errors =? 0)%nat then
    and_then (error c "Found the following {}:" [etype])
             (printbulleted errors "  > " "error")
  else Some [].

(** [multidebug(debugs)] *)
Definition multidebug (c : StatusConsole) (debugs : list string)
  : option (list string) :=
  if show_debug c && negb (length debugs =? 0)%nat then
    and_then (debug c "Found the following warnings:" [])
             (printbulleted debugs "  > " "debug")
  else Some [].

(** [multiignore(ignores)] *)
Definition multiignore (c : StatusConsole) (ignores : list string)
  : option (list string) :=
  if show_debug c && negb (length ignores =? 0)%nat then
    and_then (debug c "Ignoring the following messages:" [])
             (printbulleted ignores "  > " "debug")
  else Some [].

(** [multiprint(messages)] *)
Definition multiprint (c : StatusConsole) (messages : gmap string (list string))
  : option (list string) :=
  and_then (multiignore c (bucket messages "ignore"))
    (and_then (multidebug c (bucket messages "warning"))
       (and_then
          (if show_debug c || (length (bucket messages "fatal") =? 0)%nat
           then multierror c (bucket messages "error") "errors"
           else Some [])
          (multierror c (bucket messages "fatal") "fatal errors"))).

(** * Concrete inputs

    Small documents, logs and file systems on which the definitions above
    are run. *)

Module Ex.

Definition nl : string := String PyStr.newline EmptyString.

(** Paths that are absolute and normal already: joining and normalising
    leaves them as they are. *)
Definition os_abs : OsPath := mkOsPath (fun _ f => f) (fun f _ => f).

(** Paths without dots or doubled slashes: a relative name is put after
    the directory, and a path inside the directory is taken relative to
    it. *)
Definition os_posix : OsPath :=
  mkOsPath
    (fun pdir f => if PyStr.startswith "/" f then f else pdir ++ "/" ++ f)
    (fun f pdir =>
       if PyStr.startswith (pdir ++ "/") f
       then PyStr.drop (String.length pdir + 1) f else f).

End Ex.

Module Ex1.
Import Ex.

(** One aux file that names a bibliography, whose source exists and whose
    compiled bibliography does not. *)
Definition auxinfo_one : gmap string AuxFile :=
  {[ "/d/main.aux" := mkAuxFile "main.aux" true (At 10) ["refs.bib"] None ]}.

Definition fs_nobbl : gmap string File :=
  {[ "/d/refs.bib" := mkFile 5 [] "0cc175b9c0f1b6a831c399e269772661" ]}.

Definition kpse (names : list string) : string := "/d/refs.bib" ++ nl.

(** A source file and no compiled index. *)
Definition fs_tex : gmap string File :=
  {[ "/d/main.tex" := mkFile 5 [] "92eb5ffee6ae2fec3ad71c777531578f" ]}.

(** A directory where [a.aux] is named but absent and [b.aux] is a file. *)
Definition file_b : File :=
  mkFile 7 ["\relax" ++ nl] "4a8a08f09d37b73795649038408b5f33".

Definition fs_b : gmap string File := {[ "/d/b.aux" := file_b ]}.

End Ex1.

Module Ex3.
Import Ex.

(** A matcher for patterns without special characters: the pattern is
    found as it stands. *)
Definition literal (pattern line : string) : bool := PyStr.contains pattern line.

(** One rule that captures the matched line and the next one. *)
Definition two_lines : ErrorChecker :=
  mkErrorChecker [(Auto 0, mkCheck "Error" "error" 2)] "error".

Definition log_two : list string := ["Error one" ++ nl; "Error two" ++ nl].

(** A compiler of patterns that rejects a pattern starting with a star,
    as [re.compile] does: there is nothing to repeat. *)
Definition no_leading_star (p : string) : bool := negb (PyStr.startswith "*" p).

End Ex3.

Module Ex5.
Import Ex.

(** Addresses of the filter objects, one for each call of [purify]. *)
Definition address (n : nat) : string :=
  if Nat.even n then "7f3a5c0d2e10" else "7f3a5c0d2f40".

Definition tmp : string := "/d/authorindex_k3x9".

Definition raw_entry : string := "\indexentry {{Smith}\ 2000}{12}" ++ nl.

(** A citation index with one entry, and one whose second line is not an
    entry. *)
Definition files_one : gmap string (list string) :=
  {[ "/d/doc.ctx" := [raw_entry] ]}.

Definition files_bad : gmap string (list string) :=
  {[ "/d/doc.ctx" := [raw_entry; "corrupt" ++ nl] ]}.

Definition files_once : gmap string (list string) :=
  (CitationIndex.clean address tmp files_one "/d/doc.ctx" None).2.

End Ex5.

Module Ex4.
Import Ex.

Definition job : Job := mkJob "/d" (fun ext => "/d/main." ++ ext).

(** Two runs at least, four at most, every switch off. *)
Definition opts : Options := mkOptions 4 2 false false false false false false true "pdflatex".

(** The same with one run at least. *)
Definition opts_min1 : Options := mkOptions 4 1 false false false false false false true "pdflatex".

Definition empty_log : File := mkFile 6 [] "d41d8cd98f00b204e9800998ecf8427e".

(** A pass in which pdflatex exits with zero, writes an empty log and
    rewrites [main.aux], which names no bibliography. *)
Definition quiet_run (r : Z) : Run :=
  mkRun (fun _ => false) (fun _ => 0) (fun _ => None) (fun _ => None) Ex5.address Ex5.tmp
    [] []
    {[ "/d/main.aux" := mkFile (10 * r) ["\relax" ++ nl] "4a8a08f09d37b73795649038408b5f33" ]}
    0
    {[ "/d/main.aux" := mkFile (10 * r + 5) ["\relax" ++ nl] "4a8a08f09d37b73795649038408b5f33";
       "/d/main.log" := empty_log ]}
    [] [] (fun _ => Some "").

(** The state that a pass leaves, or the state it started from when it
    raises. *)
Definition next_state (opts : Options) (run : Run) (runcount : Z) (st : State) : State :=
  match iteration Ex3.literal os_abs opts job run (maxruns_of opts) runcount st with
  | inr (st', _) => st'
  | inl _ => st
  end.

Definition st1 : State :=
  next_state opts (quiet_run 1) 1 (initial_state opts None).
Definition st2 : State := next_state opts (quiet_run 2) 2 st1.

(** A pass in which pdflatex rewrites [main.aux] with another
    bibliography and the modification time stays what it was. *)
Definition same_time_run : Run :=
  mkRun (fun _ => false) (fun _ => 0) (fun _ => None) (fun _ => None) Ex5.address Ex5.tmp
    [] []
    {[ "/d/main.aux" := mkFile 5 ["\relax" ++ nl; "\bibdata{refs}" ++ nl]
                               "0cc175b9c0f1b6a831c399e269772661" ]}
    0
    {[ "/d/main.aux" := mkFile 5 ["\relax" ++ nl; "\bibdata{other}" ++ nl]
                               "92eb5ffee6ae2fec3ad71c777531578f";
       "/d/main.log" := empty_log ]}
    [] [] (fun _ => Some "").

(** A pass in which the new bibliography comes with a later time. *)
Definition later_time_run : Run :=
  mkRun (fun _ => false) (fun _ => 0) (fun _ => None) (fun _ => None) Ex5.address Ex5.tmp
    [] []
    {[ "/d/main.aux" := mkFile 5 ["\relax" ++ nl; "\bibdata{refs}" ++ nl]
                               "0cc175b9c0f1b6a831c399e269772661" ]}
    0
    {[ "/d/main.aux" := mkFile 9 ["\relax" ++ nl; "\bibdata{other}" ++ nl]
                               "92eb5ffee6ae2fec3ad71c777531578f";
       "/d/main.log" := empty_log ]}
    [] [] (fun _ => Some "").

(** A pass in a directory that holds the source and [main.aux], which
    names the bibliography [refs], found elsewhere; no bibliography was
    compiled so far.  pdflatex exits with zero, writes an empty log and
    rewrites [main.aux] as it was; bibtex fails and leaves no log. *)
Definition main_aux_refs (t : Z) : File :=
  mkFile t ["\relax" ++ nl; "\bibdata{refs}" ++ nl] "0cc175b9c0f1b6a831c399e269772661".

Definition main_tex : File := mkFile 1 [] "d41d8cd98f00b204e9800998ecf8427e".

Definition refs_bib : File := mkFile 1 [] "d41d8cd98f00b204e9800998ecf8427e".

Definition nolog_bibtex_run (r : Z) : Run :=
  mkRun (fun _ => false) (fun _ => 1) (fun _ => None) (fun _ => None) Ex5.address Ex5.tmp
    ["main.aux"; "main.tex"] []
    {[ "/d/main.aux" := main_aux_refs (10 * r);
       "/d/main.tex" := main_tex;
       "/texmf/refs.bib" := refs_bib ]}
    0
    {[ "/d/main.aux" := main_aux_refs (10 * r + 5);
       "/d/main.tex" := main_tex;
       "/d/main.log" := empty_log;
       "/texmf/refs.bib" := refs_bib ]}
    [] ["main.aux"; "main.tex"; "main.log"] (fun _ => Some ("/texmf/refs.bib" ++ nl)).

(** The files when [main] starts in that directory. *)
Definition fs_refs : gmap string File := fs_before (nolog_bibtex_run 1).

(** A pass in a directory that holds the source and [main.aux], which
    names no bibliography: pdflatex exits with zero, writes an empty log
    and rewrites [main.aux]. *)
Definition main_aux_plain (t : Z) : File :=
  mkFile t ["\relax" ++ nl] "4a8a08f09d37b73795649038408b5f33".

Definition calm_run (r : Z) : Run :=
  mkRun (fun _ => false) (fun _ => 0) (fun _ => None) (fun _ => None) Ex5.address Ex5.tmp
    ["main.aux"; "main.tex"] []
    {[ "/d/main.aux" := main_aux_plain (10 * r); "/d/main.tex" := main_tex ]}
    0
    {[ "/d/main.aux" := main_aux_plain (10 * r + 5); "/d/main.tex" := main_tex;
       "/d/main.log" := empty_log ]}
    [] ["main.aux"; "main.tex"; "main.log"] (fun _ => Some "").

Definition fs_plain : gmap string File := fs_before (calm_run 1).

End Ex4.

Module ExA.
Import Ex.

Definition file_a : File :=
  mkFile 3 ["\relax" ++ nl; "\bibdata{refs}" ++ nl] "900150983cd24fb0d6963f7d28e17f72".

(** A directory with two aux files and a source. *)
Definition fs_two : gmap string File :=
  {[ "/d/a.aux" := file_a; "/d/b.aux" := Ex1.file_b;
     "/d/main.tex" := mkFile 1 [] "d41d8cd98f00b204e9800998ecf8427e" ]}.

Definition listing : list string := ["/d/a.aux"; "/d/main.tex"; "/d/b.aux"; ""].

End ExA.

Module ExB.
Import Ex.

(** A log in which no line has the word of the rule of [Ex3.two_lines]. *)
Definition calm_log : list string := ["This is pdfTeX" ++ nl; "Output written" ++ nl].

End ExB.

Module ExF.
Import Ex.

(** A snapshot whose only bibliography is the control file of biblatex. *)
Definition auxinfo_blx : gmap string AuxFile :=
  {[ "/d/main.aux" := mkAuxFile "main.aux" true (At 10) ["main-blx.bib"] None ]}.

(** A pass that meets a citation index whose second line is corrupt. *)
Definition corrupt_run : Run :=
  mkRun (fun _ => false) (fun _ => 0) (fun _ => None)
    (fun _ => Some (Text [Ex5.raw_entry; "corrupt" ++ nl])) Ex5.address Ex5.tmp
    [] [] ∅ 0 ∅ [] [] (fun _ => Some "").

(** The options of [Ex4.opts_min1] with the option paranoid. *)
Definition opts_paranoid : Options :=
  mkOptions 4 1 true false false false false false true "pdflatex".

(** An aux file whose number of frames has more digits than [int]
    converts. *)
Definition long_number : string :=
  String.concat "" (repeat "1234567890" 431).

Definition fs_long_number : gmap string File :=
  {[ "/d/main.aux" := mkFile 1 ["\inserttotalframenumber {" ++ long_number ++ "}" ++ nl]
                             "0cc175b9c0f1b6a831c399e269772661" ]}.

(** A pass that meets a citation index with one entry. *)
Definition index_run : Run :=
  mkRun (fun _ => false) (fun _ => 0) (fun _ => None)
    (fun _ => Some (Text [Ex5.raw_entry])) Ex5.address Ex5.tmp
    [] [] ∅ 0 ∅ [] [] (fun _ => Some "").

(** A pass that meets a citation index that cannot be decoded after its
    first line. *)
Definition garbled_run : Run :=
  mkRun (fun _ => false) (fun _ => 0) (fun _ => None)
    (fun _ => Some (Garbled [Ex5.raw_entry])) Ex5.address Ex5.tmp
    [] [] ∅ 0 ∅ [] [] (fun _ => Some "").

(** A pass on a machine without makeindex. *)
Definition no_makeindex_run : Run :=
  mkRun (fun p => String.eqb p "makeindex") (fun _ => 0) (fun _ => None)
    (fun _ => Some (Text [])) Ex5.address Ex5.tmp
    [] [] ∅ 0 ∅ [] [] (fun _ => Some "").

(** A first pass in an empty directory: pdflatex writes [main.aux] and
    [o.aux], which names a bibliography, and the log names [o.aux]. *)
Definition first_run : Run :=
  mkRun (fun _ => false) (fun _ => 0) (fun _ => None) (fun _ => None) Ex5.address Ex5.tmp
    [] [] ∅ 0
    {[ "/d/main.aux" := mkFile 1 ["\relax" ++ nl] "4a8a08f09d37b73795649038408b5f33";
       "/d/o.aux" := mkFile 1 ["\bibdata{refs}" ++ nl] "0cc175b9c0f1b6a831c399e269772661";
       "/d/main.log" := Ex4.empty_log ]}
    ["/d/o.aux"] [] (fun _ => Some "").

(** The state after that pass: [auxinfo] has the keys [main.aux] and
    [o.aux], in that order. *)
Definition st_two : State :=
  Ex4.next_state opts_paranoid first_run 1 (initial_state opts_paranoid None).

(** A second pass in which pdflatex rewrites [main.aux] with another
    bibliography and the modification time stays what it was. *)
Definition digest_run : Run :=
  mkRun (fun _ => false) (fun _ => 0) (fun _ => None) (fun _ => None) Ex5.address Ex5.tmp
    [] []
    {[ "/d/main.aux" := mkFile 5 ["\relax" ++ nl; "\bibdata{refs}" ++ nl]
                               "0cc175b9c0f1b6a831c399e269772661" ]}
    0
    {[ "/d/main.aux" := mkFile 5 ["\relax" ++ nl; "\bibdata{other}" ++ nl]
                               "92eb5ffee6ae2fec3ad71c777531578f";
       "/d/main.log" := Ex4.empty_log ]}
    [] [] (fun _ => Some "").

(** A second pass in which [main.aux] is gone and pdflatex rewrites
    [o.aux] with another bibliography and the same modification time. *)
Definition lost_digest_run : Run :=
  mkRun (fun _ => false) (fun _ => 0) (fun _ => None) (fun _ => None) Ex5.address Ex5.tmp
    [] []
    {[ "/d/o.aux" := mkFile 5 ["\bibdata{refs}" ++ nl]
                            "0cc175b9c0f1b6a831c399e269772661" ]}
    0
    {[ "/d/o.aux" := mkFile 5 ["\bibdata{other}" ++ nl]
                            "92eb5ffee6ae2fec3ad71c777531578f";
       "/d/main.log" := Ex4.empty_log ]}
    ["/d/o.aux"] [] (fun _ => Some "").

(** A second pass in which [main.aux] is gone and pdflatex rewrites
    [o.aux] as it was, at a later time. *)
Definition later_lost_run : Run :=
  mkRun (fun _ => false) (fun _ => 0) (fun _ => None) (fun _ => None) Ex5.address Ex5.tmp
    [] []
    {[ "/d/o.aux" := mkFile 5 ["\relax" ++ nl]
                            "4a8a08f09d37b73795649038408b5f33" ]}
    0
    {[ "/d/o.aux" := mkFile 9 ["\relax" ++ nl]
                            "4a8a08f09d37b73795649038408b5f33";
       "/d/main.log" := Ex4.empty_log ]}
    ["/d/o.aux"] [] (fun _ => Some "").

End ExF.

(** * Properties *)

(** ** Order on modification times *)

Lemma leb_refl a : Time.leb a a = true.
Proof. destruct a; simpl; auto. apply Z.leb_refl. Qed.

Lemma leb_trans a b c : Time.leb a b = true -> Time.leb b c = true -> Time.leb a c = true.
Proof. destruct a, b, c; simpl; auto; try discriminate. rewrite !Z.leb_le. lia. Qed.

Lemma leb_total a b : Time.leb a b = true \/ Time.leb b a = true.
Proof. destruct a, b; simpl; auto. rewrite !Z.leb_le. lia. Qed.

Lemma fold_max_spec xs a :
  Time.leb a (fold_left Time.max xs a) = true
  /\ (forall x, x ∈ xs -> Time.leb x (fold_left Time.max xs a) = true)
  /\ fold_left Time.max xs a ∈ a :: xs.
Proof.
  revert a. induction xs as [|x xs IH]; intros a; simpl.
  - split; [apply leb_refl|]. split; [intros x Hx; inversion Hx|]. left.
  - destruct (IH (Time.max a x)) as (H1 & H2 & H3).
    assert (Ha : Time.leb a (Time.max a x) = true).
    { unfold Time.max. destruct (Time.leb a x) eqn:E; [done|apply leb_refl]. }
    assert (Hx : Time.leb x (Time.max a x) = true).
    { unfold Time.max. destruct (Time.leb a x) eqn:E; [apply leb_refl|].
      destruct (leb_total a x); congruence. }
    split; [eapply leb_trans; eauto|]. split.
    + intros y Hy. apply elem_of_cons in Hy as [->|Hy]; [eapply leb_trans; eauto|auto].
    + apply elem_of_cons in H3 as [H3|H3].
      * rewrite H3. unfold Time.max. destruct (Time.leb a x); [right; left|left].
      * right. right. done.
Qed.

Lemma fold_min_spec xs a :
  Time.leb (fold_left Time.min xs a) a = true
  /\ (forall x, x ∈ xs -> Time.leb (fold_left Time.min xs a) x = true)
  /\ fold_left Time.min xs a ∈ a :: xs.
Proof.
  revert a. induction xs as [|x xs IH]; intros a; simpl.
  - split; [apply leb_refl|]. split; [intros x Hx; inversion Hx|]. left.
  - destruct (IH (Time.min a x)) as (H1 & H2 & H3).
    assert (Ha : Time.leb (Time.min a x) a = true).
    { unfold Time.min. destruct (Time.leb a x) eqn:E; [apply leb_refl|].
      destruct (leb_total a x); congruence. }
    assert (Hx : Time.leb (Time.min a x) x = true).
    { unfold Time.min. destruct (Time.leb a x) eqn:E; [done|apply leb_refl]. }
    split; [eapply leb_trans; eauto|]. split.
    + intros y Hy. apply elem_of_cons in Hy as [->|Hy]; [eapply leb_trans; eauto|auto].
    + apply elem_of_cons in H3 as [H3|H3].
      * rewrite H3. unfold Time.min. destruct (Time.leb a x); [left|right; left].
      * right. right. done.
Qed.

Lemma safemax_spec xs :
  (forall x, x ∈ NegInf :: xs -> Time.leb x (safemax xs) = true)
  /\ safemax xs ∈ NegInf :: xs.
Proof.
  destruct xs as [|a xs]; simpl.
  - split; [|left]. intros x Hx. apply list_elem_of_singleton in Hx as ->. done.
  - destruct (fold_max_spec xs a) as (H1 & H2 & H3). split; [|by right].
    intros x Hx. apply elem_of_cons in Hx as [->|Hx]; [done|].
    apply elem_of_cons in Hx as [->|Hx]; auto.
Qed.

Lemma safemin_spec xs :
  (forall x, x ∈ PosInf :: xs -> Time.leb (safemin xs) x = true)
  /\ safemin xs ∈ PosInf :: xs.
Proof.
  destruct xs as [|a xs]; simpl.
  - split; [|left]. intros x Hx. apply list_elem_of_singleton in Hx as ->. done.
  - destruct (fold_min_spec xs a) as (H1 & H2 & H3). split; [|by right].
    intros x Hx. apply elem_of_cons in Hx as [->|Hx]; [by destruct (fold_left _ _ _)|].
    apply elem_of_cons in Hx as [->|Hx]; auto.
Qed.

Lemma newest_geb_oldest xs ys :
  Time.geb (safemax xs) (safemin ys) = true <->
  exists x y, x ∈ NegInf :: xs /\ y ∈ PosInf :: ys /\ Time.leb y x = true.
Proof.
  destruct (safemax_spec xs) as [Hmax Hin], (safemin_spec ys) as [Hmin Hin'].
  unfold Time.geb. split.
  - intros H. eauto.
  - intros (x & y & Hx & Hy & Hle).
    eapply leb_trans; [apply Hmin, Hy|]. eapply leb_trans; [apply Hle|]. auto.
Qed.

(** ** Snapshots *)

Lemma getmodifiedaux_lookup old new md5 f aux :
  getmodifiedaux old new md5 !! f = Some aux <->
  new !! f = Some aux /\ ischanged old md5 f aux = true.
Proof. unfold getmodifiedaux. rewrite map_lookup_filter_Some. done. Qed.

(** C10.  Comparing a snapshot set with itself reports no change, with or
    without the digest check: [getmodifiedaux A A md5] is empty.  More
    generally an entry of the new set is reported exactly when its path
    is absent from the old set, or its modification time is strictly
    later than the old one, or the digest check is on and the digests
    differ. *)
Theorem getmodifiedaux_self :
  (forall (A : gmap string AuxFile) (md5 : bool), getmodifiedaux A A md5 = ∅)
  /\ (forall (old new : gmap string AuxFile) (md5 : bool) f aux,
        getmodifiedaux old new md5 !! f = Some aux <->
        new !! f = Some aux
        /\ (old !! f = None
            \/ exists o, old !! f = Some o
                 /\ (Time.gtb (aux_timestamp aux) (aux_timestamp o) = true
                     \/ (md5 = true /\ aux_md5 aux ≠ aux_md5 o)))).
Proof.
  split.
  - intros A md5. apply map_empty. intros f.
    destruct (getmodifiedaux A A md5 !! f) as [aux|] eqn:E; [|done].
    apply getmodifiedaux_lookup in E as [Hf Hc]. unfold ischanged in Hc.
    rewrite Hf in Hc. unfold Time.gtb in Hc. rewrite leb_refl in Hc. simpl in Hc.
    rewrite bool_decide_eq_false_2 in Hc by auto. by destruct md5.
  - intros old new md5 f aux. rewrite getmodifiedaux_lookup. unfold ischanged.
    split; intros [Hn H]; (split; [done|]).
    + destruct (old !! f) as [o|]; [right|by left]. exists o. split; [done|].
      apply orb_true_iff in H as [H|H]; [by left|right].
      apply andb_true_iff in H as [-> H]. by apply bool_decide_eq_true in H.
    + destruct H as [->|(o & -> & [H|[-> H]])]; [done|by rewrite H|].
      rewrite bool_decide_eq_true_2 by done. apply orb_true_r.
Qed.

(** ** Staleness checks *)

Lemma getmtime_neg fs f :
  (forall t, getmtime fs f NegInf = At t <-> f_mtime <$> fs !! f = Some t)
  /\ getmtime fs f NegInf ≠ PosInf.
Proof.
  unfold getmtime. destruct (fs !! f) as [file|]; simpl; split; try done.
  - intros t. split; congruence.
Qed.

Lemma getmtime_pos fs f :
  (forall t, getmtime fs f PosInf = At t <-> f_mtime <$> fs !! f = Some t)
  /\ getmtime fs f PosInf ≠ NegInf.
Proof.
  unfold getmtime. destruct (fs !! f) as [file|]; simpl; split; try done.
  - intros t. split; congruence.
Qed.

Lemma geb_getmtime fs b f :
  Time.leb (getmtime fs f PosInf) (getmtime fs b NegInf) = true <->
  exists tb tf, f_mtime <$> fs !! b = Some tb /\ f_mtime <$> fs !! f = Some tf /\ tf <= tb.
Proof.
  unfold getmtime. destruct (fs !! b) as [fb|], (fs !! f) as [ff|]; simpl.
  - rewrite Z.leb_le. split; [intros H; eauto|]. intros (tb & tf & [= <-] & [= <-] & H). done.
  - split; [done|]. intros (tb & tf & _ & [=] & _).
  - split; [done|]. intros (tb & tf & [=] & _).
  - split; [done|]. intros (tb & tf & [=] & _).
Qed.

(** C1, as the code has it.  [biboutofdate] answers true exactly when some
    bibliography source is named and some resolved source file that
    exists is at least as new as some compiled bibliography that exists.
    A compiled bibliography that does not exist counts as infinitely new:
    it never makes the answer true, and when none of them exists the
    answer is false.  When no source is named the answer is false. *)
Theorem biboutofdate_spec os fs stdout (auxinfo : gmap string AuxFile) pdir includeblx :
  let bib := bibnames auxinfo includeblx in
  let outofdate := (biboutofdate os fs stdout auxinfo pdir includeblx).1 in
  (outofdate = true <->
     bib ≠ [] /\
     exists b f tb tf,
       In b (kpsewhich os stdout bib pdir) /\ is_Some (auxinfo !! f)
       /\ f_mtime <$> fs !! b = Some tb
       /\ f_mtime <$> fs !! sub_aux_bbl f = Some tf
       /\ tf <= tb)
  /\ ((forall f, is_Some (auxinfo !! f) -> fs !! sub_aux_bbl f = None) ->
      outofdate = false)
  /\ (bib = [] -> outofdate = false).
Proof.
  intros bib outofdate.
  assert (Hiff : outofdate = true <->
     bib ≠ [] /\
     exists b f tb tf,
       In b (kpsewhich os stdout bib pdir) /\ is_Some (auxinfo !! f)
       /\ f_mtime <$> fs !! b = Some tb
       /\ f_mtime <$> fs !! sub_aux_bbl f = Some tf
       /\ tf <= tb).
  { unfold outofdate, biboutofdate. fold bib.
    destruct bib as [|b0 bib'] eqn:Ebib; simpl length; cbn [Nat.eqb fst].
    { split; [done|]. intros [H _]. done. }
    cbn [fst]. rewrite newest_geb_oldest. split.
    - intros (x & y & Hx & Hy & Hle). split; [done|].
      apply elem_of_cons in Hx as [->|Hx].
      { apply elem_of_cons in Hy as [->|Hy]; [done|].
        apply list_elem_of_In, in_map_iff in Hy as (f & <- & _).
        destruct (getmtime_pos fs f) as [_ Hn].
        by destruct (getmtime fs f PosInf). }
      apply list_elem_of_In, in_map_iff in Hx as (b & <- & Hb).
      apply elem_of_cons in Hy as [->|Hy].
      { destruct (getmtime_neg fs b) as [_ Hn].
        by destruct (getmtime fs b NegInf). }
      apply list_elem_of_In, in_map_iff in Hy as (f' & <- & Hf').
      apply in_map_iff in Hf' as ([f a] & <- & Hfa). simpl in Hle.
      apply geb_getmtime in Hle as (tb & tf & H1 & H2 & H3).
      exists b, f, tb, tf. split; [done|]. split; [|done].
      apply list_elem_of_In, elem_of_map_to_list in Hfa. by exists a.
    - intros (_ & b & f & tb & tf & Hb & [a Hf] & H1 & H2 & H3).
      exists (getmtime fs b NegInf), (getmtime fs (sub_aux_bbl f) PosInf).
      split; [right; apply list_elem_of_In, in_map_iff; eauto|].
      split.
      + right. apply list_elem_of_In, in_map_iff. exists (sub_aux_bbl f). split; [done|].
        apply in_map_iff. exists (f, a). split; [done|].
        by apply list_elem_of_In, elem_of_map_to_list.
      + apply geb_getmtime. eauto. }
  split; [exact Hiff|]. split.
  - intros Hmissing. apply not_true_is_false. intros E.
    apply Hiff in E as (_ & b & f & tb & tf & _ & Hf & _ & H2 & _).
    rewrite (Hmissing f Hf) in H2. done.
  - intros Hnil. apply not_true_is_false. intros E. apply Hiff in E as [H _]. done.
Qed.

(** C2, as the code has it.  The index check of [main] is true exactly
    when the source and the compiled index both exist and the source is at
    least as new as the index; equal times give true.  A compiled index
    that does not exist counts as infinitely new: the check is then
    false. *)
Theorem index_outofdate_spec (fs : gmap string File) (tex ind : string) :
  (index_outofdate fs tex ind = true <->
     exists s i, f_mtime <$> fs !! tex = Some s /\ f_mtime <$> fs !! ind = Some i
                 /\ s >= i)
  /\ (forall t, f_mtime <$> fs !! tex = Some t -> f_mtime <$> fs !! ind = Some t ->
        index_outofdate fs tex ind = true)
  /\ (fs !! ind = None -> index_outofdate fs tex ind = false).
Proof.
  assert (Hiff : index_outofdate fs tex ind = true <->
     exists s i, f_mtime <$> fs !! tex = Some s /\ f_mtime <$> fs !! ind = Some i
                 /\ s >= i).
  { unfold index_outofdate, Time.geb. rewrite geb_getmtime.
    split; intros (s & i & H1 & H2 & H3); exists s, i; repeat split; auto; lia. }
  split; [exact Hiff|]. split.
  - intros t H1 H2. apply Hiff. exists t, t. repeat split; auto; lia.
  - intros Hnone. apply not_true_is_false. intros E.
    apply Hiff in E as (s & i & _ & H & _). rewrite Hnone in H. done.
Qed.

Lemma getauxinfo_body_falsy os (fs : gmap string File) pdir v acc f :
  truthy v = false ->
  truthy (getauxinfo_body os fs pdir (v, acc) f).1 = false
  /\ digest_lost fs (getauxinfo_body os fs pdir (v, acc) f).2 f
  /\ forall p, p ≠ f ->
       (getauxinfo_body os fs pdir (v, acc) f).2 !! p = acc !! p.
Proof.
  intros Hv. unfold getauxinfo_body, digest_lost. rewrite Hv.
  destruct (fs !! f) as [file|] eqn:E; simpl.
  - split; [done|]. split.
    + intros _. eexists. rewrite lookup_insert_eq. done.
    + intros p Hp. by rewrite lookup_insert_ne.
  - split; [done|]. split.
    + intros [x Hx]. done.
    + intros p Hp. by rewrite lookup_insert_ne.
Qed.

Lemma getauxinfo_fold_falsy os (fs : gmap string File) pdir l :
  forall v acc (S : string -> Prop),
  truthy v = false ->
  (forall p, S p -> digest_lost fs acc p) ->
  forall p, S p \/ p ∈ l ->
    digest_lost fs (fold_left (getauxinfo_body os fs pdir) l (v, acc)).2 p.
Proof.
  induction l as [|x l IH]; intros v acc S Hv HS p Hp; cbn [fold_left].
  - destruct Hp as [Hp|Hp]; [auto|inversion Hp].
  - destruct (getauxinfo_body_falsy os fs pdir v acc x Hv) as (Hv' & Hx & Hne).
    destruct (getauxinfo_body os fs pdir (v, acc) x) as [v' acc'].
    cbn [fst snd] in *.
    apply (IH v' acc' (fun q => S q \/ q = x) Hv').
    + intros q [Hq| ->]; [|done].
      destruct (decide (q = x)) as [->|Hqx]; [done|].
      unfold digest_lost. rewrite (Hne q Hqx). by apply HS.
    + destruct Hp as [Hp|Hp]; [by left; left|].
      apply elem_of_cons in Hp as [->|Hp]; [left; by right|by right].
Qed.

(** C9, where the code departs from it.  [getauxinfo] assigns the result
    of each file to the variable that holds the flag [md5].  Once a file
    that does not exist has been visited the variable is [None], and
    every file visited after it, though it exists and the digests were
    asked for, is recorded without a digest. *)
Theorem getauxinfo_digest_lost os (fs : gmap string File) files pdir ext
    (pre post : list string) (m p : string) :
  List.filter (PyStr.endswith ext) (getfullpaths os files pdir) = (pre ++ m :: post)%list ->
  fs !! m = None ->
  p ∈ post ->
  is_Some (fs !! p) ->
  exists a, getauxinfo os fs files pdir true ext !! p = Some a
            /\ aux_exists a = true /\ aux_md5 a = None.
Proof.
  intros Hfiles Hm Hp Hfile. unfold getauxinfo. rewrite Hfiles, fold_left_app.
  destruct (fold_left _ pre _) as [v acc]. cbn [fold_left].
  unfold getauxinfo_body at 2. rewrite Hm.
  refine (getauxinfo_fold_falsy os fs pdir post _ _ (fun _ => False) _ _ p _ Hfile);
    [done|tauto|by right].
Qed.

Lemma getauxinfo_digest_lost_witness :
  exists a,
    getauxinfo Ex.os_abs Ex1.fs_b ["/d/a.aux"; "/d/b.aux"] "/d" true ".aux"
      !! "/d/b.aux" = Some a
    /\ aux_exists a = true /\ aux_md5 a = None.
Proof.
  apply (getauxinfo_digest_lost Ex.os_abs Ex1.fs_b ["/d/a.aux"; "/d/b.aux"]
           "/d" ".aux" [] ["/d/b.aux"] "/d/a.aux" "/d/b.aux").
  - vm_compute. reflexivity.
  - vm_compute. reflexivity.
  - left.
  - exists Ex1.file_b. vm_compute. reflexivity.
Defined.

(** With the two files in the other order the digest is there. *)
Example getauxinfo_digest_kept :
  aux_md5 <$> (getauxinfo Ex.os_abs Ex1.fs_b ["/d/b.aux"; "/d/a.aux"] "/d" true ".aux"
                 !! "/d/b.aux")
  = Some (Some "4a8a08f09d37b73795649038408b5f33").
Proof. vm_compute. reflexivity. Qed.

(** C1 fails as stated: a source is named, the compiled bibliography does
    not exist, and the answer is false. *)
Lemma biboutofdate_missing_bbl_not_stale :
  ~ (forall os (fs : gmap string File) stdout (auxinfo : gmap string AuxFile)
            pdir includeblx,
       bibnames auxinfo includeblx ≠ [] ->
       (exists f, is_Some (auxinfo !! f) /\ fs !! sub_aux_bbl f = None) ->
       (biboutofdate os fs stdout auxinfo pdir includeblx).1 = true).
Proof.
  intros H.
  specialize (H Ex.os_abs Ex1.fs_nobbl Ex1.kpse Ex1.auxinfo_one "/d" true).
  assert (E : (biboutofdate Ex.os_abs Ex1.fs_nobbl Ex1.kpse Ex1.auxinfo_one
                 "/d" true).1 = false) by (vm_compute; reflexivity).
  assert (Hbib : bibnames Ex1.auxinfo_one true ≠ [])
    by (vm_compute; discriminate).
  assert (Hbbl : exists f, is_Some (Ex1.auxinfo_one !! f)
                           /\ Ex1.fs_nobbl !! sub_aux_bbl f = None).
  { exists "/d/main.aux". split.
    - exists (mkAuxFile "main.aux" true (At 10) ["refs.bib"] None).
      vm_compute. reflexivity.
    - vm_compute. reflexivity. }
  rewrite (H Hbib Hbbl) in E. discriminate E.
Qed.

(** C2 fails as stated: the compiled index does not exist and the check
    is false. *)
Lemma index_missing_not_stale :
  ~ (forall (fs : gmap string File) tex ind,
       fs !! ind = None -> index_outofdate fs tex ind = true).
Proof.
  intros H. specialize (H Ex1.fs_tex "/d/main.tex" "/d/main.ind").
  assert (E : index_outofdate Ex1.fs_tex "/d/main.tex" "/d/main.ind" = false)
    by (vm_compute; reflexivity).
  assert (Hind : Ex1.fs_tex !! "/d/main.ind" = None)
    by (vm_compute; reflexivity).
  rewrite (H Hind) in E. discriminate E.
Qed.

(** ** The log scanner *)

Lemma take_next_spec n : forall log,
  take_next n log =
  ((map PyStr.strip_nl (take n log) ++ replicate (n - length log) EmptyString)%list,
   drop n log).
Proof.
  induction n as [|n IH]; intros log; simpl.
  - by destruct log.
  - destruct log as [|l log]; rewrite IH.
    + rewrite !take_nil, !drop_nil. simpl. by rewrite Nat.sub_0_r.
    + done.
Qed.

Lemma bucket_empty lvl : bucket ∅ lvl = [].
Proof. unfold bucket. by rewrite lookup_empty. Qed.

Lemma bucket_append_lookup ms l m lvl :
  bucket (bucket_append ms l m) lvl =
  if String.eqb l lvl then (bucket ms lvl ++ [m])%list else bucket ms lvl.
Proof.
  unfold bucket_append, bucket at 1.
  destruct (String.eqb_spec l lvl) as [->|Hne].
  - by rewrite lookup_insert_eq.
  - by rewrite lookup_insert_ne.
Qed.

Lemma bucket_append_all l : forall ms lvl,
  bucket (append_all ms l) lvl = (bucket ms lvl ++ at_level lvl l)%list.
Proof.
  unfold append_all, at_level.
  induction l as [|[l0 m] l IH]; intros ms lvl; simpl.
  - by rewrite app_nil_r.
  - rewrite IH, bucket_append_lookup.
    destruct (String.eqb l0 lvl); simpl; [by rewrite <- app_assoc|done].
Qed.

Lemma search_line_spec re line cs : forall rest ms,
  fold_left (search_check re line) cs (rest, ms) =
  (drop (consumed re cs line) rest, append_all ms (found re cs line rest)).
Proof.
  unfold consumed.
  induction cs as [|c cs IH]; intros rest ms; simpl.
  - done.
  - destruct (re (regex c) line); simpl.
    + rewrite take_next_spec, IH. by rewrite drop_drop.
    + by rewrite IH.
Qed.

Lemma search_loop_spec re cs lvl n : forall log fuel1 fuel2 ms,
  (length log <= n)%nat -> (length log <= fuel1)%nat -> (length log <= fuel2)%nat ->
  bucket (search_loop re cs fuel1 log ms) lvl =
  (bucket ms lvl ++ bucket (search_loop re cs fuel2 log ∅) lvl)%list.
Proof.
  induction n as [|n IH]; intros log fuel1 fuel2 ms Hn H1 H2.
  - destruct log; [|simpl in Hn; lia].
    destruct fuel1, fuel2; simpl; by rewrite bucket_empty, app_nil_r.
  - destruct log as [|line rest].
    { destruct fuel1, fuel2; simpl; by rewrite bucket_empty, app_nil_r. }
    destruct fuel1 as [|fuel1]; [simpl in H1; lia|].
    destruct fuel2 as [|fuel2]; [simpl in H2; lia|].
    simpl in *. rewrite !search_line_spec.
    assert (Hlen : (length (drop (consumed re cs line) rest) <= length rest)%nat)
      by (rewrite length_drop; lia).
    rewrite (IH _ fuel1 fuel2 (append_all ms _)) by lia.
    rewrite (IH _ fuel2 fuel2 (append_all ∅ _)) by lia.
    rewrite !bucket_append_all, bucket_empty. simpl.
    by rewrite app_assoc.
Qed.

(** C3, as the code has it.  [search] tests the line it reads against every
    check, in the order of registration.  A match forms one block: the
    matched line and the next [lines - 1] lines read from the same open
    log, with an empty line for each one missing at the end of the log,
    appended to the bucket of the level of the check.  The lines taken as
    context are consumed: the scan resumes after them and they are not
    tested against any pattern. *)
Theorem search_spec re ec :
  let cs := Dict.values (checks ec) in
  (forall lvl, bucket (search re ec []) lvl = [])
  /\ (forall line rest lvl,
        bucket (search re ec (line :: rest)) lvl =
        (at_level lvl (found re cs line rest)
         ++ bucket (search re ec (drop (consumed re cs line) rest)) lvl)%list).
Proof.
  intros cs. split; [done|]. intros line rest lvl.
  unfold search. fold cs. cbn [length search_loop].
  rewrite search_line_spec.
  assert (Hlen : (length (drop (consumed re cs line) rest) <= length rest)%nat)
    by (rewrite length_drop; lia).
  rewrite (search_loop_spec re cs lvl (length rest) _ _
             (length (drop (consumed re cs line) rest))) by lia.
  by rewrite bucket_append_all, bucket_empty.
Qed.

(** C3 fails as stated: the second line of the log matches the pattern,
    yet it is taken as the context of the first match and yields no block
    of its own. *)
Lemma search_skips_captured_lines :
  ~ (forall re ec log lvl, bucket (search re ec log) lvl = bucket (Spec.scan re ec log) lvl).
Proof.
  intros H. specialize (H Ex3.literal Ex3.two_lines Ex3.log_two "error").
  vm_compute in H. discriminate H.
Qed.

Example search_two_lines :
  bucket (search Ex3.literal Ex3.two_lines Ex3.log_two) "error"
  = ["Error one" ++ Ex.nl ++ "Error two"].
Proof. vm_compute. reflexivity. Qed.

(** ** The citation index cleaner *)

Lemma append_assoc (s t u : string) : (s ++ t) ++ u = s ++ (t ++ u).
Proof.
  induction s as [|c s IH]; [done|].
  change (String c ((s ++ t) ++ u) = String c (s ++ (t ++ u))). by rewrite IH.
Qed.

Lemma upper_app s t : PyStr.upper (s ++ t) = PyStr.upper s ++ PyStr.upper t.
Proof.
  induction s as [|c s IH]; [done|].
  change (String (PyStr.upper_char c) (PyStr.upper (s ++ t))
          = String (PyStr.upper_char c) (PyStr.upper s ++ PyStr.upper t)).
  by rewrite IH.
Qed.

(** C5, where the code departs from it.  [purify] passes the text through
    the substitutions and then calls [str] on the filter object itself,
    not on the characters it would yield.  Whatever the field, the key is
    the upper-cased default text of that object: it starts with a
    character that [keep] rejects, and nothing of the field is in it. *)
Theorem purify_is_filter_text address name :
  CitationIndex.purify address name
  = "<FILTER OBJECT AT 0X" ++ PyStr.upper address ++ ">"
  /\ PyStr.startswith "<" (CitationIndex.purify address name) = true
  /\ CitationIndex.keep "<" = false.
Proof.
  assert (E : CitationIndex.purify address name
              = "<FILTER OBJECT AT 0X" ++ PyStr.upper address ++ ">").
  { unfold CitationIndex.purify, CitationIndex.str_filter. cbn [CitationIndex.fo_address].
    rewrite upper_app, upper_app. reflexivity. }
  split; [exact E|]. split; [by rewrite E|]. vm_compute. reflexivity.
Qed.

Example purify_smith :
  CitationIndex.purify "7f3a5c0d2e10" "Smith" = "<FILTER OBJECT AT 0X7F3A5C0D2E10>".
Proof. vm_compute. reflexivity. Qed.

Lemma entryre_search_unfold line :
  CitationIndex.entryre_search line =
  match (if PyStr.startswith CitationIndex.entry_prefix line
         then CitationIndex.match_author (PyStr.drop 14 line) else None) with
  | Some g => Some g
  | None =>
      match line with
      | EmptyString => None
      | String _ line' => CitationIndex.entryre_search line'
      end
  end.
Proof. by destruct line. Qed.

Lemma contains_unfold p s :
  PyStr.contains p s =
  PyStr.startswith p s
  || match s with EmptyString => false | String _ s' => PyStr.contains p s' end.
Proof. by destruct s. Qed.

Lemma entryre_search_contains line g :
  CitationIndex.entryre_search line = Some g ->
  PyStr.contains CitationIndex.entry_prefix line = true.
Proof.
  induction line as [|c line IH]; rewrite entryre_search_unfold, contains_unfold.
  - destruct (PyStr.startswith _ _); [done|]. discriminate.
  - destruct (PyStr.startswith _ _); [done|]. simpl. exact IH.
Qed.

Lemma entry_emitted line nicename niceyear name year page :
  CitationIndex.entryre_search line = Some (name, year, page) ->
  emitted line (CitationIndex.entry nicename niceyear name year page
                ++ String PyStr.newline EmptyString).
Proof.
  intros E. exists name, year, page, (PyStr.join " " [nicename; niceyear]).
  split; [exact E|]. unfold CitationIndex.entry.
  rewrite !append_assoc. reflexivity.
Qed.

Lemma clean_loop_done address lines : forall i acc out,
  CitationIndex.clean_loop address i lines acc = (CitationIndex.Done, out) ->
  exists new, out = (acc ++ new)%list /\ Forall2 emitted lines new.
Proof.
  induction lines as [|line lines IH]; intros i acc out H; simpl in H.
  - injection H as <-. exists []. by rewrite app_nil_r.
  - destruct (CitationIndex.entryre_search line) as [[[name year] page]|] eqn:E;
      [|discriminate].
    apply IH in H as (new & -> & Hnew).
    eexists (_ :: new). rewrite <- app_assoc. split; [reflexivity|].
    constructor; [|done]. by apply entry_emitted.
Qed.

Lemma clean_loop_good address good : forall i acc tail,
  Forall (fun l => CitationIndex.entryre_search l ≠ None) good ->
  exists new,
    Forall2 emitted good new
    /\ CitationIndex.clean_loop address i (good ++ tail) acc
       = CitationIndex.clean_loop address (i + length good) tail (acc ++ new)%list.
Proof.
  induction good as [|line good IH]; intros i acc tail Hgood.
  - exists []. rewrite app_nil_r, Nat.add_0_r. done.
  - apply Forall_cons in Hgood as [Hline Hgood]. simpl.
    destruct (CitationIndex.entryre_search line) as [[[name year] page]|] eqn:E; [|done].
    destruct (IH (S i)
                (app acc [String.append
                            (CitationIndex.entry
                               (CitationIndex.purify (address (2 * i)%nat) name)
                               (CitationIndex.purify (address (2 * i + 1)%nat) year)
                               name year page)
                            (String PyStr.newline EmptyString)])
                tail Hgood) as (new & Hnew & Heq).
    eexists (_ :: new). split.
    + constructor; [|exact Hnew]. by apply entry_emitted.
    + simpl in Heq. rewrite Heq. rewrite <- app_assoc. simpl.
      by replace (S (i + length good)) with (i + S (length good))%nat by lia.
Qed.
Lemma clean_default_unfold address tmp (files : gmap string (list string))
    infilename lines :
  files !! infilename = Some lines -> tmp ≠ infilename ->
  CitationIndex.clean address tmp files infilename None =
  let '(r, out) := CitationIndex.clean_loop address O lines [] in
  match r with
  | CitationIndex.Done => (CitationIndex.Done, <[infilename := out]> (delete tmp files))
  | _ => (r, <[tmp := out]> files)
  end.
Proof.
  intros Hin Hne. unfold CitationIndex.clean. rewrite Hin. cbn zeta.
  rewrite lookup_insert_ne by done. rewrite Hin. cbn [from_option id].
  destruct (CitationIndex.clean_loop address 0 lines []) as [r out].
  cbn beta iota zeta. rewrite insert_insert_eq.
  destruct r; try done.
  by rewrite delete_insert_eq.
Qed.

Lemma clean_explicit_unfold address tmp (files : gmap string (list string))
    infilename lines out :
  files !! infilename = Some lines -> out ≠ infilename ->
  CitationIndex.clean address tmp files infilename (Some out) =
  let '(r, text) := CitationIndex.clean_loop address O lines [] in
  (r, <[out := text]> files).
Proof.
  intros Hin Hne. unfold CitationIndex.clean. rewrite Hin. cbn zeta.
  rewrite lookup_insert_ne by done. rewrite Hin. cbn [from_option id].
  destruct (CitationIndex.clean_loop address 0 lines []) as [r text].
  cbn beta iota zeta. rewrite insert_insert_eq. by destruct r.
Qed.

(** C6, as the code has it.  A successful run of [clean] in place leaves
    one line for each line of the input, and the line holds the author,
    the year and the page exactly as they were read, after the key.  The
    line written is not of the shape that [clean] reads: where it does
    not contain the opening of a raw entry, a second run stops on its
    first line with the error for a corrupt index, so [clean] is not
    idempotent. *)
Theorem clean_display_payload address tmp (files files' : gmap string (list string))
    infilename lines :
  files !! infilename = Some lines ->
  tmp ≠ infilename ->
  CitationIndex.clean address tmp files infilename None = (CitationIndex.Done, files') ->
  exists out,
    files' !! infilename = Some out
    /\ Forall2 emitted lines out
    /\ (forall o rest address',
          out = o :: rest ->
          PyStr.contains CitationIndex.entry_prefix o = false ->
          (CitationIndex.clean address' tmp files' infilename None).1
          = CitationIndex.RuntimeError 0).
Proof.
  intros Hin Hne Hclean. rewrite (clean_default_unfold _ _ _ _ lines) in Hclean by done.
  destruct (CitationIndex.clean_loop address 0 lines []) as [r out] eqn:Eloop.
  destruct r; try discriminate. injection Hclean as <-.
  apply clean_loop_done in Eloop as (new & -> & Hnew). simpl.
  exists new. split; [by rewrite lookup_insert_eq|]. split; [done|].
  intros o rest address' -> Ho.
  rewrite (clean_default_unfold _ _ _ _ (o :: rest)); [|by rewrite lookup_insert_eq|done].
  cbn [CitationIndex.clean_loop].
  destruct (CitationIndex.entryre_search o) as [g|] eqn:E; [|done].
  apply entryre_search_contains in E. congruence.
Qed.

Lemma clean_display_payload_witness :
  exists out,
    Ex5.files_once !! "/d/doc.ctx" = Some out
    /\ Forall2 emitted [Ex5.raw_entry] out
    /\ (forall o rest address',
          out = o :: rest ->
          PyStr.contains CitationIndex.entry_prefix o = false ->
          (CitationIndex.clean address' Ex5.tmp Ex5.files_once "/d/doc.ctx" None).1
          = CitationIndex.RuntimeError 0).
Proof.
  apply (clean_display_payload Ex5.address Ex5.tmp Ex5.files_one Ex5.files_once
           "/d/doc.ctx" [Ex5.raw_entry]).
  - vm_compute. reflexivity.
  - vm_compute. intros H. discriminate H.
  - vm_compute. reflexivity.
Defined.

(** C6 fails as stated: a second run of [clean] on its own output does not
    succeed. *)
Lemma clean_twice_fails :
  ~ (forall address tmp (files files' : gmap string (list string)) infilename,
       CitationIndex.clean address tmp files infilename None = (CitationIndex.Done, files') ->
       (CitationIndex.clean address tmp files' infilename None).1 = CitationIndex.Done).
Proof.
  intros H.
  specialize (H Ex5.address Ex5.tmp Ex5.files_one Ex5.files_once "/d/doc.ctx").
  assert (E1 : CitationIndex.clean Ex5.address Ex5.tmp Ex5.files_one "/d/doc.ctx" None
               = (CitationIndex.Done, Ex5.files_once)) by (vm_compute; reflexivity).
  assert (E2 : (CitationIndex.clean Ex5.address Ex5.tmp Ex5.files_once "/d/doc.ctx" None).1
               = CitationIndex.RuntimeError 0) by (vm_compute; reflexivity).
  rewrite (H E1) in E2. discriminate E2.
Qed.

Example clean_once_output :
  Ex5.files_once !! "/d/doc.ctx"
  = Some ["\indexentry{<FILTER OBJECT AT 0X7F3A5C0D2E10> <FILTER OBJECT AT 0X7F3A5C0D2F40>@{Smith}\ 2000}{12}"
          ++ Ex.nl].
Proof. vm_compute. reflexivity. Qed.
(** C7, as the code has it.  When a line of the input is not an entry,
    [clean] raises the error for that line at once.  In place, the
    entries of the lines before it are in the temporary file only and the
    input file is as it was; when every line is an entry the temporary
    file is renamed over the input.  With an output file named by the
    caller that file is written directly: at the error it holds the
    entries of the lines before the corrupt one. *)
Theorem clean_corrupt_line address tmp (files : gmap string (list string))
    infilename lines :
  files !! infilename = Some lines ->
  (forall good bad rest,
      lines = (good ++ bad :: rest)%list ->
      Forall (fun l => CitationIndex.entryre_search l ≠ None) good ->
      CitationIndex.entryre_search bad = None ->
      (tmp ≠ infilename ->
       exists partial,
         Forall2 emitted good partial
         /\ CitationIndex.clean address tmp files infilename None
            = (CitationIndex.RuntimeError (length good), <[tmp := partial]> files))
      /\ (forall out, out ≠ infilename ->
          exists partial,
            Forall2 emitted good partial
            /\ CitationIndex.clean address tmp files infilename (Some out)
               = (CitationIndex.RuntimeError (length good), <[out := partial]> files)))
  /\ (Forall (fun l => CitationIndex.entryre_search l ≠ None) lines ->
      tmp ≠ infilename ->
      exists out,
        Forall2 emitted lines out
        /\ CitationIndex.clean address tmp files infilename None
           = (CitationIndex.Done, <[infilename := out]> (delete tmp files))).
Proof.
  intros Hin. split.
  - intros good bad rest -> Hgood Hbad.
    destruct (clean_loop_good address good O [] (bad :: rest) Hgood)
      as (partial & Hpartial & Hloop).
    cbn [CitationIndex.clean_loop] in Hloop. rewrite Hbad in Hloop.
    simpl in Hloop. split.
    + intros Hne. exists partial. split; [done|].
      rewrite (clean_default_unfold _ _ _ _ _ Hin Hne), Hloop. done.
    + intros out Hne. exists partial. split; [done|].
      rewrite (clean_explicit_unfold _ _ _ _ _ _ Hin Hne), Hloop. done.
  - intros Hgood Hne.
    destruct (clean_loop_good address lines O [] [] Hgood) as (out & Hout & Hloop).
    rewrite app_nil_r in Hloop. cbn [CitationIndex.clean_loop] in Hloop.
    simpl in Hloop. exists out. split; [done|].
    rewrite (clean_default_unfold _ _ _ _ _ Hin Hne), Hloop. done.
Qed.

Lemma clean_corrupt_line_witness :
  (exists partial,
      Forall2 emitted [Ex5.raw_entry] partial
      /\ CitationIndex.clean Ex5.address Ex5.tmp Ex5.files_bad "/d/doc.ctx" None
         = (CitationIndex.RuntimeError 1, <[Ex5.tmp := partial]> Ex5.files_bad))
  /\ (exists partial,
        Forall2 emitted [Ex5.raw_entry] partial
        /\ CitationIndex.clean Ex5.address Ex5.tmp Ex5.files_bad "/d/doc.ctx"
             (Some "/d/clean.ctx")
           = (CitationIndex.RuntimeError 1, <[ "/d/clean.ctx" := partial]> Ex5.files_bad))
  /\ (exists out,
        Forall2 emitted [Ex5.raw_entry] out
        /\ CitationIndex.clean Ex5.address Ex5.tmp Ex5.files_one "/d/doc.ctx" None
           = (CitationIndex.Done, <[ "/d/doc.ctx" := out]> (delete Ex5.tmp Ex5.files_one))).
Proof.
  assert (Hbad : Ex5.files_bad !! "/d/doc.ctx" = Some [Ex5.raw_entry; "corrupt" ++ Ex.nl])
    by (vm_compute; reflexivity).
  assert (Hone : Ex5.files_one !! "/d/doc.ctx" = Some [Ex5.raw_entry])
    by (vm_compute; reflexivity).
  assert (Hgood : Forall (fun l => CitationIndex.entryre_search l ≠ None) [Ex5.raw_entry]).
  { constructor; [|constructor]. vm_compute. discriminate. }
  assert (Hne : Ex5.tmp ≠ "/d/doc.ctx") by (vm_compute; discriminate).
  destruct (clean_corrupt_line Ex5.address Ex5.tmp Ex5.files_bad "/d/doc.ctx" _ Hbad)
    as [Herr _].
  destruct (Herr [Ex5.raw_entry] ("corrupt" ++ Ex.nl) [] eq_refl Hgood)
    as [Hplace Hnamed]; [vm_compute; reflexivity|].
  destruct (clean_corrupt_line Ex5.address Ex5.tmp Ex5.files_one "/d/doc.ctx" _ Hone)
    as [_ Hok].
  split; [exact (Hplace Hne)|]. split; [|exact (Hok Hgood Hne)].
  apply Hnamed. vm_compute. discriminate.
Defined.

(** C7 fails as stated: with an output file named by the caller, the
    error leaves that file with the entry of the line before the corrupt
    one. *)
Lemma clean_partial_write :
  ~ (forall address tmp (files : gmap string (list string)) infilename outfilename i,
       (CitationIndex.clean address tmp files infilename outfilename).1
       = CitationIndex.RuntimeError i ->
       (CitationIndex.clean address tmp files infilename outfilename).2
         !! destination infilename outfilename
       = files !! destination infilename outfilename).
Proof.
  intros H.
  specialize (H Ex5.address Ex5.tmp Ex5.files_bad "/d/doc.ctx" (Some "/d/clean.ctx") 1%nat).
  assert (E : (CitationIndex.clean Ex5.address Ex5.tmp Ex5.files_bad "/d/doc.ctx"
                 (Some "/d/clean.ctx")).1 = CitationIndex.RuntimeError 1)
    by (vm_compute; reflexivity).
  specialize (H E). vm_compute in H. discriminate H.
Qed.

Example clean_partial_output :
  (CitationIndex.clean Ex5.address Ex5.tmp Ex5.files_bad "/d/doc.ctx"
     (Some "/d/clean.ctx")).2 !! "/d/clean.ctx"
  = Some ["\indexentry{<FILTER OBJECT AT 0X7F3A5C0D2E10> <FILTER OBJECT AT 0X7F3A5C0D2F40>@{Smith}\ 2000}{12}"
          ++ Ex.nl].
Proof. vm_compute. reflexivity. Qed.

(** ** The loop of [main] *)

Lemma initial_checker_some opts :
  initial_checker opts = Some (default logchecker (initial_checker opts)).
Proof. unfold initial_checker. destruct (show_cite_errors opts); vm_compute; reflexivity. Qed.

Lemma aux_check_true opts old p : aux_check opts old true p = true.
Proof.
  unfold aux_check. destruct p as [f a].
  destruct (negb (length (aux_bibdata a) =? 0)%nat), (old !! f) as [o|];
    try destruct (bool_decide (aux_bibdata o ≠ aux_bibdata a)); reflexivity.
Qed.

Lemma fold_aux_check_true opts old l :
  fold_left (aux_check opts old) l true = true.
Proof. induction l as [|p l IH]; simpl; [done|]. by rewrite aux_check_true. Qed.

Lemma fold_aux_check_hit opts old l f a o : forall keepgoing,
  (f, a) ∈ l ->
  old !! f = Some o ->
  aux_bibdata a ≠ [] ->
  aux_bibdata o ≠ aux_bibdata a ->
  fold_left (aux_check opts old) l keepgoing = true.
Proof.
  induction l as [|p l IH]; intros keepgoing Hin Hold Hbib Hdiff; [inversion Hin|].
  apply elem_of_cons in Hin as [<-|Hin]; [|by eapply IH].
  cbn [fold_left]. replace (aux_check opts old keepgoing (f, a)) with true.
  { apply fold_aux_check_true. }
  unfold aux_check. rewrite Hold.
  destruct (aux_bibdata a) as [|b bs] eqn:E; [done|]. cbn [length Nat.eqb negb].
  rewrite bool_decide_eq_true_2 by done. done.
Qed.

Lemma index_check_true job fs v : index_check job fs true v = true.
Proof. unfold index_check. by destruct (index_outofdate _ _ _). Qed.

Lemma fold_index_check_true job fs l :
  fold_left (index_check job fs) l true = true.
Proof. induction l as [|v l IH]; simpl; [done|]. by rewrite index_check_true. Qed.

Lemma fold_aux_check_or opts old l keepgoing :
  fold_left (aux_check opts old) l keepgoing
  = keepgoing || fold_left (aux_check opts old) l false.
Proof. destruct keepgoing; [apply fold_aux_check_true|done]. Qed.

Lemma fold_index_check_or job fs l keepgoing :
  fold_left (index_check job fs) l keepgoing
  = keepgoing || fold_left (index_check job fs) l false.
Proof. destruct keepgoing; [apply fold_index_check_true|done]. Qed.

(** The keys in order are the keys of the map. *)
Lemma assigned_In l x : In x (assigned l) <-> In x l.
Proof.
  induction l as [|k l IH]; [done|]. cbn [assigned In].
  rewrite filter_In, IH, negb_true_iff.
  destruct (String.eqb_spec x k) as [->|Hne]; [tauto|].
  split; [intros [->|[H _]]; [done|by right]|intros [->|H]; [done|by right]].
Qed.

Lemma assigned_NoDup l : NoDup (assigned l).
Proof.
  induction l as [|k l IH]; cbn [assigned]; [apply NoDup_nil_2|].
  apply NoDup_cons. split.
  - intros H. apply list_elem_of_In, filter_In in H as [_ H].
    by rewrite String.eqb_refl in H.
  - apply NoDup_ListNoDup, List.NoDup_filter, NoDup_ListNoDup, IH.
Qed.

Lemma getauxinfo_body_lookup os (fs : gmap string File) pdir v acc f p :
  (getauxinfo_body os fs pdir (v, acc) f).2 !! p =
  if decide (f = p)
  then Some (match fs !! f with
             | Some file =>
                 mkAuxFile (relpath os f pdir) true (At (f_mtime file))
                   (getbibdata (f_lines file))
                   (if truthy v then Some (f_md5 file) else None)
             | None => mkAuxFile (relpath os f pdir) false NegInf [] None
             end)
  else acc !! p.
Proof.
  unfold getauxinfo_body. destruct (fs !! f) as [file|]; simpl;
    rewrite lookup_insert; by destruct (decide (f = p)).
Qed.

Lemma getauxinfo_fold_dom os (fs : gmap string File) pdir l : forall st p,
  is_Some ((fold_left (getauxinfo_body os fs pdir) l st).2 !! p)
  <-> is_Some (st.2 !! p) \/ In p l.
Proof.
  induction l as [|f l IH]; intros [v acc] p; cbn [fold_left].
  - simpl. tauto.
  - rewrite IH. destruct (getauxinfo_body os fs pdir (v, acc) f) as [v' acc'] eqn:E.
    assert (Hl := getauxinfo_body_lookup os fs pdir v acc f p).
    rewrite E in Hl. cbn [snd] in *. rewrite Hl. simpl.
    destruct (decide (f = p)) as [->|Hne].
    + split; [intros _; right; by left|]. intros _. left. by eexists.
    + split; [intros [H|H]; [by left|by right; right]|].
      intros [H|[H|H]]; [by left|done|by right].
Qed.

Lemma getauxinfo_keys_spec os (fs : gmap string File) files pdir md5 ext f :
  In f (getauxinfo_keys os files pdir ext)
  <-> is_Some (getauxinfo os fs files pdir md5 ext !! f).
Proof.
  unfold getauxinfo_keys, getauxinfo. rewrite assigned_In, getauxinfo_fold_dom.
  cbn [snd]. rewrite lookup_empty.
  split; [by right|intros [[x Hx]|H]; [done|exact H]].
Qed.

Lemma items_of_spec {V : Type} keys (m : gmap string V) k v :
  (k, v) ∈ items_of keys m <-> k ∈ keys /\ m !! k = Some v.
Proof.
  unfold items_of. rewrite list_elem_of_omap. split.
  - intros (k' & Hk' & H). destruct (m !! k') as [v'|] eqn:E; [|done].
    simpl in H. injection H as <- <-. done.
  - intros [Hk Hv]. exists k. split; [done|]. by rewrite Hv.
Qed.

Lemma changed_items os opts job run runcount st f a :
  (f, a) ∈ items_of (changed_keys os opts job run runcount st)
                    (changed_aux os opts job run runcount st)
  <-> changed_aux os opts job run runcount st !! f = Some a.
Proof.
  rewrite items_of_spec. split; [tauto|]. intros H. split; [|done].
  unfold changed_aux in H. apply getmodifiedaux_lookup in H as [Hnew Hch].
  unfold changed_keys, getmodifiedaux_keys.
  apply list_elem_of_In, filter_In. split.
  - unfold newauxinfo_of in Hnew. eapply getauxinfo_keys_spec. by eexists.
  - by rewrite Hnew.
Qed.

(** The keys that a pass hands on are the keys of its dictionary, each
    once. *)
Lemma changed_keys_spec os opts job run runcount st :
  NoDup (changed_keys os opts job run runcount st)
  /\ forall f, In f (changed_keys os opts job run runcount st)
               <-> is_Some (changed_aux os opts job run runcount st !! f).
Proof.
  split.
  - unfold changed_keys, getmodifiedaux_keys, getauxinfo_keys.
    apply NoDup_ListNoDup, List.NoDup_filter, NoDup_ListNoDup, assigned_NoDup.
  - intros f. split.
    + unfold changed_keys, getmodifiedaux_keys, changed_aux.
      rewrite filter_In. intros [_ H].
      destruct (newauxinfo_of os opts job run !! f) as [aux|] eqn:E; [|done].
      exists aux. apply getmodifiedaux_lookup. done.
    + intros [a Ha]. apply changed_items in Ha. apply items_of_spec in Ha as [Ha _].
      by apply list_elem_of_In.
Qed.

(** What a pass that raises nothing has gone through. *)
Lemma iteration_inr re os opts job run maxruns runcount st st' keepgoing :
  iteration re os opts job run maxruns runcount st = inr (st', keepgoing) ->
  exists ec logfile k0 numslides,
    pass_checker opts maxruns runcount st = Some ec
    /\ fs_after run !! extrafile job "log" = Some logfile
    /\ aux_recheck os opts job run runcount st
         (changed_aux os opts job run runcount st)
         (if any_messages (search re ec (f_lines logfile)) then true
          else negb (returncode run =? 0))
       = inr (k0, numslides)
    /\ st' = mkState (changed_aux os opts job run runcount st)
                     (changed_keys os opts job run runcount st)
                     (getindexfiles (f_lines logfile)) numslides ec
    /\ keepgoing
       = fold_left (index_check job (fs_after run)) (getindexfiles (f_lines logfile))
           (fold_left (aux_check opts (oldauxinfo_of os opts job run runcount st))
              (items_of (changed_keys os opts job run runcount st)
                        (changed_aux os opts job run runcount st)) k0).
Proof.
  unfold iteration. intros Hit.
  destruct (bibtex_step _ _ _); [discriminate|].
  destruct (index_raises _ _ _); [discriminate|].
  destruct (cannot_start run (pdflatex opts)); [discriminate|].
  destruct (pass_checker opts maxruns runcount st) as [ec|]; [|discriminate].
  destruct (fs_after run !! extrafile job "log") as [logfile|]; [|discriminate].
  destruct (aux_recheck _ _ _ _ _ _ _ _) as [e|[k0 ns]] eqn:Ek; [discriminate|].
  injection Hit as <- <-. exists ec, logfile, k0, ns. done.
Qed.

(** The value of [keepgoing] after the checks of the bibliography and of
    the slides. *)
Lemma aux_recheck_inr os opts job run runcount st keepgoing k0 numslides :
  aux_recheck os opts job run runcount st (changed_aux os opts job run runcount st)
              keepgoing = inr (k0, numslides) ->
  k0 = keepgoing || bib_signal os opts job run runcount st
       || slides_signal opts job run runcount st.
Proof.
  unfold aux_recheck, bib_signal, slides_signal.
  destruct ((runcount =? 1) || recheck_aux opts); cbn [andb];
    [|intros [= <- _]; by rewrite !orb_false_r].
  destruct (kpsewhich_raises _ _ _); [discriminate|].
  destruct (biboutofdate _ _ _ _ _ _).1;
    destruct (bool_decide (beamer_numslides st ≠ None) || recheck_aux opts);
    cbn [andb];
    try (destruct (checktotalslides _ _) as [new|]; [|discriminate];
         destruct (bool_decide (new ≠ beamer_numslides st)));
    intros [= <- _]; by rewrite ?orb_true_r, ?orb_false_r.
Qed.

(** The value of [keepgoing] at the end of a pass, before the test on the
    minimum number of runs: one of the signals. *)
Lemma iteration_keepgoing re os opts job run maxruns runcount st st' keepgoing :
  iteration re os opts job run maxruns runcount st = inr (st', keepgoing) ->
  keepgoing
  = negb (returncode run =? 0)
    || log_signal re opts job run maxruns runcount st
    || bib_signal os opts job run runcount st
    || slides_signal opts job run runcount st
    || aux_signal os opts job run runcount st
    || index_signal job run.
Proof.
  intros Hit. apply iteration_inr in Hit as (ec & logfile & k0 & ns & Hc & Hl & Hk & _ & ->).
  apply aux_recheck_inr in Hk as ->.
  rewrite fold_index_check_or, fold_aux_check_or.
  unfold log_signal, aux_signal, index_signal. rewrite Hc, Hl.
  by destruct (any_messages _), (negb _).
Qed.

Lemma iteration_quiet re os opts job run maxruns runcount st :
  (forall e, iteration re os opts job run maxruns runcount st ≠ inl e) ->
  quiet re os opts job run maxruns runcount st ->
  iteration re os opts job run maxruns runcount st
  = inr (state_after re os opts job run maxruns runcount st, false).
Proof.
  intros Hok (Hr & Hlog & Hbib & Hsl & Haux & Hidx). unfold state_after.
  destruct (iteration re os opts job run maxruns runcount st) as [e|[st' k]] eqn:Hit;
    [by destruct (Hok e)|].
  apply iteration_keepgoing in Hit as ->.
  by rewrite Hr, Hlog, Hbib, Hsl, Haux, Hidx.
Qed.

(** C4, as the code has it.  With two runs at least and four at most,
    when the first two passes raise nothing, pdflatex exits with zero in
    both, the log of each gives no warning, error or fatal message, and
    no check of the files asks for another run (the bibliography is not
    out of date, the number of slides is what it was, no changed aux file
    has another list of bibliography files or, with the option paranoid,
    another digest, and no index is out of date), then [main] makes
    exactly two passes and completes: both passes end with [keepgoing]
    false, the first goes on only because the test on the minimum number
    of runs sets [keepgoing], and the second stops. *)
Theorem main_two_runs re os opts job fs world slides :
  min_runs opts = 2 ->
  maxruns_of opts = 4 ->
  checktotalslides fs (extrafile job "aux") = Some slides ->
  (forall e, iteration re os opts job (world 1) 4 1 (initial_state opts slides) ≠ inl e) ->
  quiet re os opts job (world 1) 4 1 (initial_state opts slides) ->
  (forall e, iteration re os opts job (world 2) 4 2
               (state_after re os opts job (world 1) 4 1 (initial_state opts slides))
             ≠ inl e) ->
  quiet re os opts job (world 2) 4 2
        (state_after re os opts job (world 1) 4 1 (initial_state opts slides)) ->
  main re os opts job fs world = Success 2
  /\ (exists st1, iteration re os opts job (world 1) 4 1 (initial_state opts slides)
                  = inr (st1, false))
  /\ floor opts 1 false = true
  /\ (exists st2, iteration re os opts job (world 2) 4 2
                    (state_after re os opts job (world 1) 4 1 (initial_state opts slides))
                  = inr (st2, false))
  /\ floor opts 2 false = false.
Proof.
  intros Hmin Hmax Hslides Hok1 Hq1 Hok2 Hq2.
  assert (H1 := iteration_quiet _ _ _ _ _ _ _ _ Hok1 Hq1).
  assert (H2 := iteration_quiet _ _ _ _ _ _ _ _ Hok2 Hq2).
  split; [|split; [by eexists|split; [|split; [by eexists|]]]].
  - unfold main. rewrite initial_checker_some, Hslides, Hmax.
    change (Z.to_nat 4) with 4%nat. cbn [Z.leb Z.compare loop].
    rewrite H1. unfold floor. rewrite Hmin. cbn [Z.ltb Z.compare].
    change (1 + 1) with 2. rewrite H2.
    cbn [Z.ltb Z.compare Pos.compare Pos.compare_cont]. done.
  - unfold floor. by rewrite Hmin.
  - unfold floor. by rewrite Hmin.
Qed.

Lemma main_two_runs_witness :
  main Ex3.literal Ex.os_posix Ex4.opts Ex4.job Ex4.fs_plain Ex4.calm_run = Success 2
  /\ (exists st1, iteration Ex3.literal Ex.os_posix Ex4.opts Ex4.job (Ex4.calm_run 1) 4 1
                    (initial_state Ex4.opts None) = inr (st1, false))
  /\ floor Ex4.opts 1 false = true
  /\ (exists st2, iteration Ex3.literal Ex.os_posix Ex4.opts Ex4.job (Ex4.calm_run 2) 4 2
                    (state_after Ex3.literal Ex.os_posix Ex4.opts Ex4.job (Ex4.calm_run 1)
                       4 1 (initial_state Ex4.opts None))
                  = inr (st2, false))
  /\ floor Ex4.opts 2 false = false.
Proof.
  apply (main_two_runs Ex3.literal Ex.os_posix Ex4.opts Ex4.job Ex4.fs_plain Ex4.calm_run
           None).
  - reflexivity.
  - reflexivity.
  - vm_compute. reflexivity.
  - intros e. vm_compute. discriminate.
  - repeat split; vm_compute; reflexivity.
  - intros e. vm_compute. discriminate.
  - repeat split; vm_compute; reflexivity.
Defined.

(** C4 fails as stated: in both passes pdflatex exits with zero, the log
    is empty and no check of the files asks for another run, but the
    aux file names a bibliography, bibtex fails on it in the second pass
    and leaves no log, and [main] ends with that error. *)
Lemma main_two_runs_bibtex_raises :
  ~ (forall re os opts job fs world slides,
       min_runs opts = 2 ->
       maxruns_of opts = 4 ->
       checktotalslides fs (extrafile job "aux") = Some slides ->
       quiet re os opts job (world 1) 4 1 (initial_state opts slides) ->
       quiet re os opts job (world 2) 4 2
             (state_after re os opts job (world 1) 4 1 (initial_state opts slides)) ->
       main re os opts job fs world = Success 2).
Proof.
  intros H.
  specialize (H Ex3.literal Ex.os_posix Ex4.opts Ex4.job Ex4.fs_refs Ex4.nolog_bibtex_run
                None eq_refl eq_refl).
  assert (E : main Ex3.literal Ex.os_posix Ex4.opts Ex4.job Ex4.fs_refs Ex4.nolog_bibtex_run
              = Raised 2 BibtexLogError) by (vm_compute; reflexivity).
  rewrite E in H. discriminate H.
  - vm_compute. reflexivity.
  - repeat split; vm_compute; reflexivity.
  - repeat split; vm_compute; reflexivity.
Qed.

(** That run of [main]: the first pass ends with [keepgoing] false and
    hands on [main.aux] with its bibliography, and the second pass ends in
    the bibtex loop. *)
Example main_bibtex_raises :
  (exists st1,
     iteration Ex3.literal Ex.os_posix Ex4.opts Ex4.job (Ex4.nolog_bibtex_run 1) 4 1
       (initial_state Ex4.opts None) = inr (st1, false)
     /\ auxinfo st1
        = {[ "/d/main.aux" := mkAuxFile "main.aux" true (At 15) ["refs.bib"] None ]}
     /\ iteration Ex3.literal Ex.os_posix Ex4.opts Ex4.job (Ex4.nolog_bibtex_run 2) 4 2 st1
        = inl BibtexLogError)
  /\ main Ex3.literal Ex.os_posix Ex4.opts Ex4.job Ex4.fs_refs Ex4.nolog_bibtex_run
     = Raised 2 BibtexLogError.
Proof.
  split; [|vm_compute; reflexivity].
  eexists. split; [vm_compute; reflexivity|]. split; vm_compute; reflexivity.
Qed.

(** C8, as the code has it.  The lists of bibliography files are compared
    only for the aux files that [getmodifiedaux] reports.  When an aux
    file of the new snapshot names at least one bibliography file, is in
    the old snapshot with another list (another order is another list),
    and is reported as changed because its modification time is strictly
    later or, with the option paranoid, its digest differs, then the pass
    ends with [keepgoing] true, before and after the test on the minimum
    number of runs. *)
Theorem bibdata_change_continues re os opts job run maxruns runcount st f a o :
  (forall e, iteration re os opts job run maxruns runcount st ≠ inl e) ->
  newauxinfo_of os opts job run !! f = Some a ->
  oldauxinfo_of os opts job run runcount st !! f = Some o ->
  aux_bibdata a ≠ [] ->
  aux_bibdata o ≠ aux_bibdata a ->
  (Time.gtb (aux_timestamp a) (aux_timestamp o) = true
   \/ (paranoid opts = true /\ aux_md5 a ≠ aux_md5 o)) ->
  (exists st', iteration re os opts job run maxruns runcount st = inr (st', true))
  /\ floor opts runcount true = true.
Proof.
  intros Hok Hnew Hold Hbib Hdiff Hchanged.
  split; [|unfold floor; by destruct (runcount <? min_runs opts)].
  destruct (iteration re os opts job run maxruns runcount st) as [e|[st' keepgoing]] eqn:Hit;
    [by destruct (Hok e)|].
  exists st'. f_equal. f_equal.
  apply iteration_inr in Hit as (ec & logfile & k0 & ns & _ & _ & _ & _ & ->).
  erewrite (fold_aux_check_hit _ _ _ f a o); [apply fold_index_check_true| |done..].
  apply changed_items, getmodifiedaux_lookup. split; [done|].
  unfold ischanged. rewrite Hold. destruct Hchanged as [->|[-> H]]; [done|].
  rewrite bool_decide_eq_true_2 by done. apply orb_true_r.
Qed.

Lemma bibdata_change_continues_witness :
  (exists st',
      iteration Ex3.literal Ex.os_abs ExF.opts_paranoid Ex4.job ExF.digest_run 5 2
        ExF.st_two = inr (st', true))
  /\ floor ExF.opts_paranoid 2 true = true.
Proof.
  apply (bibdata_change_continues Ex3.literal Ex.os_abs ExF.opts_paranoid Ex4.job
           ExF.digest_run 5 2 ExF.st_two
           "/d/main.aux"
           (mkAuxFile "/d/main.aux" true (At 5) ["other.bib"]
                      (Some "92eb5ffee6ae2fec3ad71c777531578f"))
           (mkAuxFile "/d/main.aux" true (At 5) ["refs.bib"]
                      (Some "0cc175b9c0f1b6a831c399e269772661"))).
  - intros e. vm_compute. discriminate.
  - vm_compute. reflexivity.
  - vm_compute. reflexivity.
  - vm_compute. discriminate.
  - vm_compute. discriminate.
  - right. split; [reflexivity|]. vm_compute. discriminate.
Defined.

(** C8 fails as stated: the list of bibliography files of [main.aux]
    differs between the two snapshots of a pass, the modification time is
    the same, and the pass ends with [keepgoing] false. *)
Lemma bibdata_change_same_time_stops :
  ~ (forall re os opts job run maxruns runcount st st' keepgoing f a o,
       iteration re os opts job run maxruns runcount st = inr (st', keepgoing) ->
       newauxinfo_of os opts job run !! f = Some a ->
       oldauxinfo_of os opts job run runcount st !! f = Some o ->
       aux_bibdata o ≠ aux_bibdata a ->
       keepgoing = true).
Proof.
  intros H.
  specialize (H Ex3.literal Ex.os_abs Ex4.opts_min1 Ex4.job Ex4.same_time_run 4 1
                (initial_state Ex4.opts_min1 None)
                (Ex4.next_state Ex4.opts_min1 Ex4.same_time_run 1
                   (initial_state Ex4.opts_min1 None))
                false "/d/main.aux"
                (mkAuxFile "/d/main.aux" true (At 5) ["other.bib"] None)
                (mkAuxFile "/d/main.aux" true (At 5) ["refs.bib"] None)).
  assert (E : false = true); [|discriminate E].
  apply H.
  - vm_compute. reflexivity.
  - vm_compute. reflexivity.
  - vm_compute. reflexivity.
  - vm_compute. discriminate.
Qed.

Example bibdata_change_later_time_continues :
  exists st',
    iteration Ex3.literal Ex.os_abs Ex4.opts_min1 Ex4.job Ex4.later_time_run 4 1
      (initial_state Ex4.opts_min1 None) = inr (st', true).
Proof. eexists. vm_compute. reflexivity. Qed.

Example main_same_time_stops :
  main Ex3.literal Ex.os_abs Ex4.opts_min1 Ex4.job Ex1.fs_tex (fun _ => Ex4.same_time_run)
  = Success 1.
Proof. vm_compute. reflexivity. Qed.

(** In a second pass with the option paranoid, the older snapshot is
    taken for the keys of [auxinfo] in their order: when the first of
    them is gone, the files after it lose their digest in both snapshots,
    and a file rewritten with another list of bibliography files and the
    same modification time is not reported. *)
Example lost_digest_pass_stops :
  oldauxinfo_of Ex.os_abs ExF.opts_paranoid Ex4.job ExF.lost_digest_run 2 ExF.st_two
    !! "/d/o.aux"
  = Some (mkAuxFile "/d/o.aux" true (At 5) ["refs.bib"] None)
  /\ newauxinfo_of Ex.os_abs ExF.opts_paranoid Ex4.job ExF.lost_digest_run !! "/d/o.aux"
     = Some (mkAuxFile "/d/o.aux" true (At 5) ["other.bib"] None)
  /\ exists st',
       iteration Ex3.literal Ex.os_abs ExF.opts_paranoid Ex4.job ExF.lost_digest_run 5 2
         ExF.st_two = inr (st', false).
Proof. repeat split; [vm_compute; reflexivity..|]. eexists. vm_compute. reflexivity. Qed.

Lemma fold_aux_check_false opts old l : forall keepgoing,
  fold_left (aux_check opts old) l keepgoing = false -> keepgoing = false.
Proof.
  induction l as [|p l IH]; intros keepgoing H; [done|].
  destruct keepgoing; [|done]. simpl in H.
  rewrite aux_check_true, fold_aux_check_true in H. done.
Qed.

Lemma fold_index_check_false job fs l : forall keepgoing,
  fold_left (index_check job fs) l keepgoing = false ->
  keepgoing = false
  /\ forall v, v ∈ l ->
       index_outofdate fs (extrafile job "tex") (extrafile job v.2.2) = false.
Proof.
  induction l as [|v l IH]; intros keepgoing H.
  - split; [done|]. intros v Hv. inversion Hv.
  - simpl in H. apply IH in H as [Hk Hl]. unfold index_check in Hk.
    destruct (index_outofdate fs _ _) eqn:E; [done|].
    split; [done|]. intros w Hw.
    apply elem_of_cons in Hw as [->|Hw]; [done|auto].
Qed.

(** What a pass that ends with [keepgoing] false has seen: pdflatex exited
    with zero, the log gave no warning, error or fatal message, and no
    index is out of date. *)
Lemma iteration_quiet_inv re os opts job run maxruns runcount st st' :
  iteration re os opts job run maxruns runcount st = inr (st', false) ->
  returncode run = 0
  /\ (exists logfile,
        fs_after run !! extrafile job "log" = Some logfile
        /\ any_messages (search re (checker st') (f_lines logfile)) = false)
  /\ (forall logfile v,
        fs_after run !! extrafile job "log" = Some logfile ->
        v ∈ getindexfiles (f_lines logfile) ->
        index_outofdate (fs_after run) (extrafile job "tex") (extrafile job v.2.2)
        = false).
Proof.
  intros Hit.
  apply iteration_inr in Hit as (ec & logfile & k0 & ns & _ & Hl & Hk & -> & Hfold).
  symmetry in Hfold. apply fold_index_check_false in Hfold as [Hfold Hidx].
  apply fold_aux_check_false in Hfold. subst k0.
  apply aux_recheck_inr in Hk. symmetry in Hk.
  apply orb_false_iff in Hk as [Hk _]. apply orb_false_iff in Hk as [Hk _].
  cbn [checker].
  destruct (any_messages _) eqn:Emsg; [done|].
  apply negb_false_iff, Z.eqb_eq in Hk.
  split; [done|]. split; [exists logfile; split; [done|exact Emsg]|].
  intros logfile' v Hl' Hv. rewrite Hl in Hl'. injection Hl' as <-. auto.
Qed.

(** ** The functions on text, run on small inputs *)

Example getbibdata_two_names :
  getbibdata ["\relax" ++ Ex.nl; "\bibdata{refs, more}" ++ Ex.nl]
  = ["refs.bib"; "more.bib"].
Proof. vm_compute. reflexivity. Qed.

Example sub_aux_bbl_main : sub_aux_bbl "/d/main.aux" = "/d/main.bbl".
Proof. vm_compute. reflexivity. Qed.

Example nobracespace_swaps_braces : CitationIndex.nobracespace "{ a }" = "}a{".
Proof. vm_compute. reflexivity. Qed.

Example entryre_search_raw :
  CitationIndex.entryre_search Ex5.raw_entry = Some ("Smith", "2000", "12").
Proof. vm_compute. reflexivity. Qed.

Example getindexfiles_two :
  getindexfiles ["Writing index file main.idx" ++ Ex.nl;
                 "Writing index file main.ctx" ++ Ex.nl]
  = [("subject", ("idx", "ind")); ("citation", ("ctx", "cnd"))].
Proof. vm_compute. reflexivity. Qed.

Example checktotalslides_last :
  checktotalslides
    {[ "/d/main.aux" := mkFile 1 ["\inserttotalframenumber {3}" ++ Ex.nl;
                                  "\inserttotalframenumber {12}" ++ Ex.nl]
                               "0cc175b9c0f1b6a831c399e269772661" ]}
    "/d/main.aux"
  = Some (Some 12).
Proof. vm_compute. reflexivity. Qed.

Example logchecker_built :
  build_logchecker = Some logchecker /\ build_blgchecker = Some blgchecker.
Proof. split; vm_compute; reflexivity. Qed.

(** * Further properties of the code *)

(** ** [safemax], [safemin] *)

(** The largest and the smallest time of a list: each is in the list when
    the list is not empty, each bounds every time of the list, and the
    empty list gives the two infinities. *)
Theorem safemax_safemin_bounds (x : list mtime) :
  safemax [] = NegInf /\ safemin [] = PosInf
  /\ (x ≠ [] -> safemax x ∈ x /\ safemin x ∈ x)
  /\ (forall t, t ∈ x -> Time.leb t (safemax x) = true
                         /\ Time.leb (safemin x) t = true).
Proof.
  split; [done|]. split; [done|]. split.
  - intros Hx. destruct x as [|a x]; [done|]. simpl.
    destruct (fold_max_spec x a) as (_ & _ & H1).
    destruct (fold_min_spec x a) as (_ & _ & H2). done.
  - intros t Ht. destruct x as [|a x]; [inversion Ht|]. simpl.
    destruct (fold_max_spec x a) as (H1 & H2 & _).
    destruct (fold_min_spec x a) as (H3 & H4 & _).
    apply elem_of_cons in Ht as [->|Ht]; auto.
Qed.

(** ** [getbibdata] *)

Lemma append_cons c (s t : string) : String c s ++ t = String c (s ++ t).
Proof. reflexivity. Qed.

Lemma rev_app_append s : forall t acc,
  String.rev_app (s ++ t) acc = String.rev_app t (String.rev_app s acc).
Proof.
  induction s as [|c s IH]; intros t acc; [done|].
  rewrite append_cons. simpl. apply IH.
Qed.

Lemma rev_app_acc s : forall acc, String.rev_app s acc = String.rev_app s "" ++ acc.
Proof.
  induction s as [|c s IH]; intros acc; [done|].
  simpl. rewrite (IH (String c acc)), (IH (String c "")).
  by rewrite append_assoc.
Qed.

Lemma startswith_append p s : PyStr.startswith p (p ++ s) = true.
Proof.
  induction p as [|c p IH]; [by destruct s|].
  rewrite append_cons. simpl. by rewrite Ascii.eqb_refl.
Qed.

Lemma endswith_append p s : PyStr.endswith p (s ++ p) = true.
Proof.
  unfold PyStr.endswith, String.rev.
  rewrite rev_app_append, (rev_app_acc p (String.rev_app s "")).
  apply startswith_append.
Qed.

(** Every name that [getbibdata] returns ends with the extension of
    bibliography files, whatever the directive holds. *)
Theorem getbibdata_names_end_in_bib (lines : list string) :
  Forall (fun b => PyStr.endswith ".bib" b = true) (getbibdata lines).
Proof.
  apply Forall_forall. intros b Hb. unfold getbibdata in Hb.
  apply list_elem_of_In, in_flat_map in Hb as (line & _ & Hb).
  destruct (bibdata_match line) as [g|]; [|done].
  apply in_map_iff in Hb as (x & <- & _). apply endswith_append.
Qed.

(** ** [getauxinfo] *)

(** The snapshot has an entry for exactly the full paths that end with the
    extension; names of other files and empty names give none. *)
Theorem getauxinfo_domain os (fs : gmap string File) files pdir md5 ext (f : string) :
  is_Some (getauxinfo os fs files pdir md5 ext !! f)
  <-> In f (getfullpaths os files pdir) /\ PyStr.endswith ext f = true.
Proof.
  unfold getauxinfo. rewrite getauxinfo_fold_dom, filter_In. cbn [snd].
  rewrite lookup_empty. split; [intros [[x Hx]|H]; [done|exact H]|by right].
Qed.

Lemma getauxinfo_fold_describes os (fs : gmap string File) pdir l : forall st,
  (forall p a, st.2 !! p = Some a -> describes os fs pdir p a) ->
  forall p a, (fold_left (getauxinfo_body os fs pdir) l st).2 !! p = Some a ->
              describes os fs pdir p a.
Proof.
  induction l as [|f l IH]; intros [v acc] Hacc; cbn [fold_left]; [exact Hacc|].
  apply IH. intros p a.
  destruct (getauxinfo_body os fs pdir (v, acc) f) as [v' acc'] eqn:E.
  assert (Hl := getauxinfo_body_lookup os fs pdir v acc f p).
  rewrite E in Hl. cbn [snd] in *. rewrite Hl.
  destruct (decide (f = p)) as [->|Hne]; [|apply Hacc].
  intros [= <-]. unfold describes, isfile, getmtime.
  destruct (fs !! p) as [file|]; simpl; repeat split; done.
Qed.

Lemma getauxinfo_lookup_describes os (fs : gmap string File) files pdir md5 ext f a :
  getauxinfo os fs files pdir md5 ext !! f = Some a ->
  describes os fs pdir f a.
Proof.
  unfold getauxinfo. apply getauxinfo_fold_describes.
  intros p b. cbn [snd]. by rewrite lookup_empty.
Qed.

(** Each entry of a snapshot tells the truth about its file, at the time
    of the snapshot: whether it exists, its modification time or minus
    infinity, the bibliography files it names or none, its relative path;
    and a file that does not exist has no digest. *)
Theorem getauxinfo_describes os (fs : gmap string File) files pdir md5 ext f a :
  getauxinfo os fs files pdir md5 ext !! f = Some a ->
  describes os fs pdir f a.
Proof. apply getauxinfo_lookup_describes. Qed.

Lemma getauxinfo_describes_witness :
  describes Ex.os_abs ExA.fs_two "/d" "/d/a.aux"
    (mkAuxFile "/d/a.aux" true (At 3) ["refs.bib"] None).
Proof.
  apply (getauxinfo_describes Ex.os_abs ExA.fs_two ExA.listing "/d" false ".aux").
  vm_compute. reflexivity.
Defined.

Lemma getauxinfo_fold_nodigest os (fs : gmap string File) pdir l : forall v acc,
  truthy v = false ->
  (forall p a, acc !! p = Some a -> aux_md5 a = None) ->
  forall p a, (fold_left (getauxinfo_body os fs pdir) l (v, acc)).2 !! p = Some a ->
              aux_md5 a = None.
Proof.
  induction l as [|f l IH]; intros v acc Hv Hacc; cbn [fold_left]; [exact Hacc|].
  destruct (getauxinfo_body_falsy os fs pdir v acc f Hv) as (Hv' & _ & _).
  assert (Hl := getauxinfo_body_lookup os fs pdir v acc f).
  destruct (getauxinfo_body os fs pdir (v, acc) f) as [v' acc'].
  cbn [fst snd] in *. apply (IH v' acc' Hv').
  intros p a. rewrite Hl, Hv. destruct (decide (f = p)); [|apply Hacc].
  intros [= <-]. by destruct (fs !! f).
Qed.

(** Without the digest check no entry of a snapshot carries a digest. *)
Theorem getauxinfo_no_digest os (fs : gmap string File) files pdir ext :
  map_Forall (fun _ a => aux_md5 a = None) (getauxinfo os fs files pdir false ext).
Proof.
  intros f a. unfold getauxinfo. apply getauxinfo_fold_nodigest; [done|].
  intros p b. by rewrite lookup_empty.
Qed.

Lemma getauxinfo_fold_digest os (fs : gmap string File) pdir l : forall v acc,
  truthy v = true ->
  (forall p, In p l -> exists file, fs !! p = Some file /\ f_md5 file ≠ "") ->
  (forall p a, acc !! p = Some a ->
     exists file, fs !! p = Some file /\ aux_md5 a = Some (f_md5 file)) ->
  forall p a, (fold_left (getauxinfo_body os fs pdir) l (v, acc)).2 !! p = Some a ->
    exists file, fs !! p = Some file /\ aux_md5 a = Some (f_md5 file).
Proof.
  induction l as [|f l IH]; intros v acc Hv Hl Hacc; cbn [fold_left]; [exact Hacc|].
  destruct (Hl f (or_introl eq_refl)) as (file & Hfile & Hd).
  assert (Hlk := getauxinfo_body_lookup os fs pdir v acc f).
  assert (Hv' : truthy (getauxinfo_body os fs pdir (v, acc) f).1 = true).
  { unfold getauxinfo_body. rewrite Hfile, Hv. simpl.
    destruct (String.eqb_spec (f_md5 file) ""); done. }
  destruct (getauxinfo_body os fs pdir (v, acc) f) as [v' acc'].
  cbn [fst snd] in *. apply (IH v' acc' Hv').
  - intros p Hp. apply Hl. by right.
  - intros p a. rewrite Hlk, Hv, Hfile. destruct (decide (f = p)) as [<-|]; [|apply Hacc].
    intros [= <-]. by exists file.
Qed.

(** With the digest check, when every path of the snapshot is a file (with
    a digest that is not the empty string, as every MD5 digest is), every
    entry carries the digest of its file. *)
Theorem getauxinfo_all_digests os (fs : gmap string File) files pdir ext :
  (forall p, In p (getfullpaths os files pdir) -> PyStr.endswith ext p = true ->
     exists file, fs !! p = Some file /\ f_md5 file ≠ "") ->
  forall f a, getauxinfo os fs files pdir true ext !! f = Some a ->
    exists file, fs !! f = Some file /\ aux_md5 a = Some (f_md5 file).
Proof.
  intros Hall f a. unfold getauxinfo. apply getauxinfo_fold_digest; [done| |].
  - intros p Hp. apply filter_In in Hp as [H1 H2]. by apply Hall.
  - intros p b. by rewrite lookup_empty.
Qed.

Lemma getauxinfo_all_digests_witness :
  exists file, ExA.fs_two !! "/d/b.aux" = Some file
               /\ Some "4a8a08f09d37b73795649038408b5f33" = Some (f_md5 file).
Proof.
  apply (getauxinfo_all_digests Ex.os_abs ExA.fs_two ExA.listing "/d" ".aux"
           ltac:(intros p Hp He; vm_compute in Hp;
                 destruct Hp as [<-|[<-|[<-|[]]]];
                 [eexists; split; [vm_compute; reflexivity|vm_compute; discriminate]
                 |vm_compute in He; discriminate He
                 |eexists; split; [vm_compute; reflexivity|vm_compute; discriminate]])
           "/d/b.aux"
           (mkAuxFile "/d/b.aux" true (At 7) [] (Some "4a8a08f09d37b73795649038408b5f33"))).
  vm_compute. reflexivity.
Defined.
(** ** [getmodifiedaux] after [getauxinfo] *)

(** A file that exists at neither of two snapshots and has an entry in the
    older one is never reported as changed, with or without the digest
    check. *)
Theorem getmodifiedaux_missing_in_both os (fs1 fs2 : gmap string File)
    files1 files2 pdir m1 m2 md5 ext (f : string) :
  fs1 !! f = None ->
  fs2 !! f = None ->
  is_Some (getauxinfo os fs1 files1 pdir m1 ext !! f) ->
  getmodifiedaux (getauxinfo os fs1 files1 pdir m1 ext)
                 (getauxinfo os fs2 files2 pdir m2 ext) md5 !! f = None.
Proof.
  intros H1 H2 [o Ho].
  destruct (getmodifiedaux _ _ md5 !! f) as [a|] eqn:E; [|done].
  apply getmodifiedaux_lookup in E as [Ha Hc].
  unfold ischanged in Hc. rewrite Ho in Hc.
  apply getauxinfo_lookup_describes in Ho as (_ & _ & Hto & _ & Hmo).
  apply getauxinfo_lookup_describes in Ha as (_ & _ & Hta & _ & Hma).
  unfold getmtime in Hto, Hta. rewrite H1 in Hto. rewrite H2 in Hta.
  rewrite Hto, Hta, (Hmo H1), (Hma H2) in Hc.
  rewrite bool_decide_eq_false_2 in Hc by auto. by destruct md5.
Qed.

Lemma getmodifiedaux_missing_in_both_witness :
  getmodifiedaux
    (getauxinfo Ex.os_abs Ex1.fs_b ["/d/a.aux"; "/d/b.aux"] "/d" true ".aux")
    (getauxinfo Ex.os_abs Ex1.fs_b ["/d/b.aux"; "/d/a.aux"] "/d" true ".aux")
    true !! "/d/a.aux" = None.
Proof.
  apply (getmodifiedaux_missing_in_both Ex.os_abs Ex1.fs_b Ex1.fs_b).
  - vm_compute. reflexivity.
  - vm_compute. reflexivity.
  - eexists (mkAuxFile _ _ _ _ _). vm_compute. reflexivity.
Defined.

(** ** [biboutofdate]: the names it resolves *)

(** The names that [biboutofdate] hands to kpsewhich are the bibliography
    files named by the entries of the snapshot; without the option for
    them, the names that end with [-blx.bib] are left out. *)
Theorem bibnames_spec (auxinfo : gmap string AuxFile) (includeblx : bool) (b : string) :
  In b (bibnames auxinfo includeblx)
  <-> (exists f a, auxinfo !! f = Some a /\ In b (aux_bibdata a))
      /\ (includeblx = false -> PyStr.endswith "-blx.bib" b = false).
Proof.
  assert (Hall : In b (flat_map (fun p : string * AuxFile => aux_bibdata p.2)
                         (map_to_list auxinfo))
                 <-> exists f a, auxinfo !! f = Some a /\ In b (aux_bibdata a)).
  { rewrite in_flat_map. split.
    - intros ([f a] & Hfa & Hb). exists f, a. split; [|done].
      by apply elem_of_map_to_list, list_elem_of_In.
    - intros (f & a & Hfa & Hb). exists (f, a). split; [|done].
      by apply list_elem_of_In, elem_of_map_to_list. }
  unfold bibnames. destruct includeblx.
  - rewrite Hall. split; [intros H; split; [done|discriminate]|tauto].
  - rewrite filter_In, Hall, negb_true_iff. split; [intros [H1 H2]|intros [H1 H2]]; auto.
Qed.

(** ** [ErrorChecker.add], [ErrorChecker.change] *)

Lemma dict_get_None {V : Type} (k : checkname) (d : list (checkname * V)) :
  Dict.get k d = None <-> ~ In k (map fst d).
Proof.
  induction d as [|[k' v] d IH]; simpl; [tauto|].
  destruct (decide (k = k')) as [->|Hne]; [split; [done|tauto]|].
  rewrite IH. split; [intros H [E|E]; [congruence|done]|tauto].
Qed.

Lemma dict_set_fresh {V : Type} (k : checkname) (v : V) (d : list (checkname * V)) :
  Dict.get k d = None -> Dict.set k v d = (d ++ [(k, v)])%list.
Proof.
  induction d as [|[k' v'] d IH]; simpl; [done|].
  destruct (decide (k = k')); [done|]. intros H. by rewrite IH.
Qed.

Lemma dict_set_names {V : Type} (k : checkname) (v : V) (d : list (checkname * V)) :
  Dict.get k d ≠ None -> map fst (Dict.set k v d) = map fst d.
Proof.
  induction d as [|[k' v'] d IH]; simpl; [done|].
  destruct (decide (k = k')) as [->|Hne]; [done|]. intros H. simpl. by rewrite IH.
Qed.

Lemma dict_get_set {V : Type} (k k' : checkname) (v : V) (d : list (checkname * V)) :
  Dict.get k' (Dict.set k v d) = if decide (k' = k) then Some v else Dict.get k' d.
Proof.
  induction d as [|[k0 v0] d IH]; simpl.
  - by destruct (decide (k' = k)).
  - destruct (decide (k = k0)) as [->|Hne]; simpl.
    + by destruct (decide (k' = k0)).
    + rewrite IH. destruct (decide (k' = k0)) as [->|]; [by rewrite decide_False|done].
Qed.

Lemma dict_set_same {V : Type} (k : checkname) (v : V) (d : list (checkname * V)) :
  Dict.get k d = Some v -> Dict.set k v d = d.
Proof.
  induction d as [|[k' v'] d IH]; simpl; [done|].
  destruct (decide (k = k')) as [->|Hne]; [by intros [= ->]|]. intros H. by rewrite IH.
Qed.

Lemma well_formed_append ec k c :
  well_formed ec ->
  ~ In k (names ec) ->
  (forall n, k = Auto n -> n = length (checks ec)) ->
  well_formed (mkErrorChecker (checks ec ++ [(k, c)])%list (defaultlevel ec)).
Proof.
  intros [Hnd Hauto] Hk Hn. unfold well_formed, names in *. simpl.
  rewrite map_app, length_app. simpl. split.
  - apply NoDup_app. split; [done|]. split; [|apply NoDup_singleton].
    intros x Hx Hx'. apply list_elem_of_singleton in Hx' as ->.
    by apply Hk, list_elem_of_In.
  - intros n Hin. apply in_app_iff in Hin as [Hin|[Hin|[]]].
    + apply Hauto in Hin. lia.
    + rewrite (Hn n Hin). lia.
Qed.

(** Registration of a rule.  On a checker whose names are in order, [add]
    fails for the name exactly when the name given is already used.  With
    a name that is free, or none, it fails when no pattern is given or
    when [re.compile] rejects the pattern, and nothing is registered;
    otherwise the new rule goes after the rules that are there, under the
    name given or else under the count of the rules, with the default
    level where no level is given, and the names stay in order. *)
Theorem add_spec compiles ec rx lvl n name :
  well_formed ec ->
  match add compiles ec rx lvl n name with
  | inl NameUsed => exists s, name = Some s /\ In (Named s) (names ec)
  | inl NoPattern =>
      rx = None /\ (forall s, name = Some s -> ~ In (Named s) (names ec))
  | inl BadPattern =>
      (exists p, rx = Some p /\ compiles p = false)
      /\ (forall s, name = Some s -> ~ In (Named s) (names ec))
  | inr (k, ec') =>
      exists p,
        rx = Some p
        /\ compiles p = true
        /\ k = match name with
               | Some s => Named s
               | None => Auto (length (checks ec))
               end
        /\ ~ In k (names ec)
        /\ checks ec' = (checks ec ++ [(k, mkCheck p (default (defaultlevel ec) lvl) n)])%list
        /\ defaultlevel ec' = defaultlevel ec
        /\ well_formed ec'
  end.
Proof.
  intros Hwf. unfold add.
  assert (Hfree : forall k,
            ~ In k (names ec) ->
            (forall m, k = Auto m -> m = length (checks ec)) ->
            (forall s, name = Some s -> ~ In (Named s) (names ec)) ->
            k = match name with
                | Some s => Named s
                | None => Auto (length (checks ec))
                end ->
            match
              match rx with
              | None => inl NoPattern
              | Some p =>
                  if compiles p
                  then inr (k, mkErrorChecker
                                 (Dict.set k (mkCheck p (match lvl with
                                                         | Some l => l
                                                         | None => defaultlevel ec
                                                         end) n) (checks ec))
                                 (defaultlevel ec))
                  else inl BadPattern
              end
            with
            | inl NameUsed => exists s, name = Some s /\ In (Named s) (names ec)
            | inl NoPattern =>
                rx = None /\ (forall s, name = Some s -> ~ In (Named s) (names ec))
            | inl BadPattern =>
                (exists p, rx = Some p /\ compiles p = false)
                /\ (forall s, name = Some s -> ~ In (Named s) (names ec))
            | inr (k0, ec') =>
                exists p,
                  rx = Some p
                  /\ compiles p = true
                  /\ k0 = match name with
                          | Some s => Named s
                          | None => Auto (length (checks ec))
                          end
                  /\ ~ In k0 (names ec)
                  /\ checks ec'
                     = (checks ec ++ [(k0, mkCheck p (default (defaultlevel ec) lvl) n)])%list
                  /\ defaultlevel ec' = defaultlevel ec
                  /\ well_formed ec'
            end).
  { intros k Hk Hauto Hname Hkey. destruct rx as [p|]; [|done].
    destruct (compiles p) eqn:Ec; [|split; [by exists p|done]].
    exists p. rewrite dict_set_fresh by by apply dict_get_None.
    cbn [checks defaultlevel].
    split; [done|]. split; [done|]. split; [done|]. split; [done|].
    split; [by destruct lvl|]. split; [done|].
    destruct lvl; by apply well_formed_append. }
  destruct name as [s|].
  - destruct (Dict.get (Named s) (checks ec)) as [c|] eqn:E.
    + exists s. split; [done|].
      destruct (in_dec (decide_rel (=)) (Named s) (names ec)) as [H|H]; [done|].
      apply dict_get_None in H. unfold names in *. congruence.
    + assert (Hk : ~ In (Named s) (names ec)) by by apply dict_get_None.
      apply Hfree; [done|done| |done]. by intros s' [= <-].
  - apply Hfree; [|by intros m [= ->]|done|done].
    intros H. apply Hwf in H. lia.
Qed.

Lemma two_lines_well_formed : well_formed Ex3.two_lines.
Proof.
  split.
  - apply NoDup_singleton.
  - intros n [[= <-]|[]]. simpl. lia.
Qed.

Lemma add_spec_witness :
  exists p,
    Some "LaTeX Error:" = Some p
    /\ compiles_loaded p = true
    /\ Named "late" = Named "late"
    /\ ~ In (Named "late") (names Ex3.two_lines)
    /\ checks (mkErrorChecker [(Auto 0, mkCheck "Error" "error" 2);
                               (Named "late", mkCheck "LaTeX Error:" "error" 1)] "error")
       = (checks Ex3.two_lines
          ++ [(Named "late",
               mkCheck p (default (defaultlevel Ex3.two_lines) None) 1)])%list
    /\ defaultlevel (mkErrorChecker [(Auto 0, mkCheck "Error" "error" 2);
                                     (Named "late", mkCheck "LaTeX Error:" "error" 1)]
                                    "error")
       = defaultlevel Ex3.two_lines
    /\ well_formed (mkErrorChecker [(Auto 0, mkCheck "Error" "error" 2);
                                    (Named "late", mkCheck "LaTeX Error:" "error" 1)]
                                   "error").
Proof.
  exact (add_spec compiles_loaded Ex3.two_lines (Some "LaTeX Error:") None 1 (Some "late")
           two_lines_well_formed).
Defined.

Example add_rejects_pattern :
  add Ex3.no_leading_star Ex3.two_lines (Some "*") None 1 None = inl BadPattern
  /\ add Ex3.no_leading_star Ex3.two_lines None None 1 None = inl NoPattern
  /\ add Ex3.no_leading_star Ex3.two_lines (Some "*") None 1 (Some "late") = inl BadPattern.
Proof. repeat split; vm_compute; reflexivity. Qed.

(** A change of a rule.  [change] fails exactly when the name is not
    registered.  Otherwise the rule keeps its name, its place and its
    pattern and takes the level and the number of lines that are given
    (keeping those that are not), no other rule changes, a change that
    gives neither leaves the checker as it is, and the names stay in
    order. *)
Theorem change_spec ec name lvl n :
  match change ec name lvl n with
  | None => ~ In name (names ec)
  | Some ec' =>
      exists c,
        Dict.get name (checks ec) = Some c
        /\ names ec' = names ec
        /\ Dict.get name (checks ec')
           = Some (mkCheck (regex c) (default (level c) lvl) (default (lines c) n))
        /\ (forall k, k ≠ name -> Dict.get k (checks ec') = Dict.get k (checks ec))
        /\ defaultlevel ec' = defaultlevel ec
        /\ (lvl = None -> n = None -> ec' = ec)
        /\ (well_formed ec -> well_formed ec')
  end.
Proof.
  unfold change. destruct (Dict.get name (checks ec)) as [c|] eqn:E.
  - exists c. split; [done|]. unfold names. simpl.
    assert (Hn : forall v, map fst (Dict.set name v (checks ec)) = map fst (checks ec)).
    { intros v. apply dict_set_names. congruence. }
    split; [apply Hn|]. split.
    { rewrite dict_get_set, decide_True by done. by destruct lvl, n. }
    split. { intros k Hk. by rewrite dict_get_set, decide_False. }
    split; [done|]. split.
    + intros -> ->. destruct ec as [cs dl]. simpl in *. f_equal.
      apply dict_set_same. by destruct c.
    + intros [Hnd Hauto]. unfold well_formed, names in *. simpl.
      rewrite Hn. split; [done|]. intros m Hm. apply Hauto in Hm.
      rewrite <- (length_map fst), Hn, length_map. done.
  - by apply dict_get_None.
Qed.

(** ** [ErrorChecker.search]: what it never reports *)

Lemma search_fold_no_match re line cs : forall st,
  (forall c, In c cs -> re (regex c) line = false) ->
  fold_left (search_check re line) cs st = st.
Proof.
  induction cs as [|c cs IH]; intros [log ms] H; simpl; [done|].
  rewrite (H c) by by left. apply IH. intros c' Hc'. apply H. by right.
Qed.

Lemma search_loop_no_match re cs : forall log fuel ms,
  (forall c line, In c cs -> In line log -> re (regex c) line = false) ->
  search_loop re cs fuel log ms = ms.
Proof.
  induction log as [|line log IH]; intros fuel ms H; destruct fuel; simpl; try done.
  rewrite search_fold_no_match.
  - apply IH. intros c l Hc Hl. apply H; [done|by right].
  - intros c Hc. apply H; [done|by left].
Qed.

(** When no pattern of the checker is found in any line of the log,
    [search] returns no message at any level. *)
Theorem search_no_match re ec log :
  (forall c line, In c (Dict.values (checks ec)) -> In line log ->
                  re (regex c) line = false) ->
  search re ec log = ∅.
Proof. intros H. unfold search. by apply search_loop_no_match. Qed.

Lemma search_no_match_witness :
  search Ex3.literal Ex3.two_lines ExB.calm_log = ∅.
Proof.
  apply (search_no_match Ex3.literal Ex3.two_lines ExB.calm_log).
  intros c line [<-|[]] [<-|[<-|[]]]; vm_compute; reflexivity.
Defined.

Lemma search_check_level re line lvl c st :
  level c ≠ lvl ->
  (search_check re line st c).2 !! lvl = st.2 !! lvl.
Proof.
  intros Hl. destruct st as [log ms]. unfold search_check.
  destruct (re (regex c) line); [|done].
  destruct (take_next _ log) as [extra log']. simpl.
  unfold bucket_append. by rewrite lookup_insert_ne.
Qed.

Lemma search_fold_level re line lvl cs : forall st,
  (forall c, In c cs -> level c ≠ lvl) ->
  (fold_left (search_check re line) cs st).2 !! lvl = st.2 !! lvl.
Proof.
  induction cs as [|c cs IH]; intros st H; simpl; [done|].
  rewrite IH by (intros c' Hc'; apply H; by right).
  apply search_check_level, H. by left.
Qed.

Lemma search_loop_level re cs lvl : forall fuel log ms,
  (forall c, In c cs -> level c ≠ lvl) ->
  search_loop re cs fuel log ms !! lvl = ms !! lvl.
Proof.
  induction fuel as [|fuel IH]; intros log ms H; simpl; [done|].
  destruct log as [|line rest]; [done|].
  assert (Hf := search_fold_level re line lvl cs (rest, ms) H).
  destruct (fold_left (search_check re line) cs (rest, ms)) as [rest' ms'].
  simpl in Hf. by rewrite IH.
Qed.

(** [search] files messages only under the levels of the registered
    rules: a level that no rule has gets no entry, whatever the log. *)
Theorem search_levels re ec log lvl :
  (forall c, In c (Dict.values (checks ec)) -> level c ≠ lvl) ->
  search re ec log !! lvl = None.
Proof. intros H. unfold search. by rewrite search_loop_level. Qed.

Lemma search_levels_witness :
  search Ex3.literal Ex3.two_lines Ex3.log_two !! "warning" = None.
Proof.
  apply (search_levels Ex3.literal Ex3.two_lines Ex3.log_two "warning").
  intros c [<-|[]]. vm_compute. discriminate.
Defined.

(** ** [CitationIndex]: the expressions *)

Lemma orb_false_elim' a b : a || b = false -> a = false /\ b = false.
Proof. by destruct a, b. Qed.

Lemma lstrip_by_mem p c s r :
  PyStr.lstrip_by p s = String c r -> PyStr.mem c s = true.
Proof.
  induction s as [|d s IH]; simpl; [done|].
  destruct (p d).
  - intros H. rewrite (IH H). apply orb_true_r.
  - intros [= -> ->]. by rewrite Ascii.eqb_refl.
Qed.

Lemma sub_fuel_no_match m repl s : forall fuel,
  (forall n, m (PyStr.drop n s) = None) ->
  CitationIndex.sub_fuel fuel m repl s = s.
Proof.
  induction s as [|c s IH]; intros fuel H; destruct fuel; simpl; try done.
  assert (H0 := H O). simpl in H0. rewrite H0. f_equal.
  apply IH. intros n. apply (H (S n)).
Qed.

Lemma mem_drop c n : forall s, PyStr.mem c s = false -> PyStr.mem c (PyStr.drop n s) = false.
Proof.
  induction n as [|n IH]; intros s H; [done|].
  destruct s as [|d s]; [done|]. simpl in *.
  apply orb_false_elim' in H as [_ H]. by apply IH.
Qed.

(** [nobracespace] changes nothing in a text that has no brace. *)
Theorem nobracespace_no_brace s :
  PyStr.mem "{" s = false ->
  PyStr.mem "}" s = false ->
  CitationIndex.nobracespace s = s.
Proof.
  intros Ho Hc. unfold CitationIndex.nobracespace, CitationIndex.sub.
  rewrite (sub_fuel_no_match CitationIndex.spacebeforere).
  - apply sub_fuel_no_match. intros n.
    assert (H := mem_drop "{" n s Ho).
    destruct (PyStr.drop n s) as [|c r]; [done|]. simpl in *.
    apply orb_false_elim' in H as [H _].
    unfold CitationIndex.spaceafterre.
    destruct (Ascii.eqb_spec "{" c) as [<-|Hne]; [done|].
    destruct c as [[] [] [] [] [] [] [] []]; try done.
  - intros n. assert (H := mem_drop "}" n s Hc).
    destruct (PyStr.drop n s) as [|c r] eqn:E; [done|].
    unfold CitationIndex.spacebeforere. destruct (PyStr.isspace c); [|done].
    destruct (PyStr.lstrip_by PyStr.isspace (String c r)) as [|d r'] eqn:E'; [done|].
    apply lstrip_by_mem in E'.
    destruct (Ascii.eqb_spec "}" d) as [<-|Hne]; [congruence|].
    destruct d as [[] [] [] [] [] [] [] []]; try done.
Qed.

Lemma nobracespace_no_brace_witness : CitationIndex.nobracespace "van der Berg" = "van der Berg".
Proof.
  apply (nobracespace_no_brace "van der Berg"); vm_compute; reflexivity.
Defined.
Lemma match_year_unfold s :
  CitationIndex.match_year s =
  match (if PyStr.startswith "}{" s then CitationIndex.match_page (PyStr.drop 2 s)
         else None) with
  | Some page => Some (EmptyString, page)
  | None =>
      match s with
      | EmptyString => None
      | String c s' =>
          if Ascii.eqb c PyStr.newline then None
          else option_map (fun yp => (String c yp.1, yp.2)) (CitationIndex.match_year s')
      end
  end.
Proof. by destruct s. Qed.

Lemma match_author_unfold s :
  CitationIndex.match_author s =
  match (if PyStr.startswith "}\ " s then CitationIndex.match_year (PyStr.drop 3 s)
         else None) with
  | Some (year, page) => Some (EmptyString, year, page)
  | None =>
      match s with
      | EmptyString => None
      | String c s' =>
          if Ascii.eqb c PyStr.newline then None
          else option_map (fun ayp => (String c ayp.1.1, ayp.1.2, ayp.2))
                          (CitationIndex.match_author s')
      end
  end.
Proof. by destruct s. Qed.

Lemma drop_length_append p s : PyStr.drop (String.length p) (p ++ s) = s.
Proof. induction p as [|c p IH]; [by destruct s|]. rewrite append_cons. simpl. exact IH. Qed.

Lemma mem_cons_false c d s :
  PyStr.mem c (String d s) = false -> Ascii.eqb c d = false /\ PyStr.mem c s = false.
Proof. simpl. apply orb_false_elim'. Qed.

Lemma match_page_field p rest :
  PyStr.mem "}" p = false -> PyStr.mem PyStr.newline p = false ->
  CitationIndex.match_page (p ++ "}" ++ rest) = Some p.
Proof.
  induction p as [|c p IH]; intros Hb Hn; [done|].
  apply mem_cons_false in Hb as [Hb1 Hb2]. apply mem_cons_false in Hn as [Hn1 Hn2].
  rewrite append_cons. simpl.
  destruct (Ascii.eqb_spec c "}") as [->|_]; [by rewrite Ascii.eqb_refl in Hb1|].
  destruct (Ascii.eqb_spec c PyStr.newline) as [->|_]; [by rewrite Ascii.eqb_refl in Hn1|].
  by rewrite IH.
Qed.

Lemma match_year_field y p rest :
  PyStr.mem "}" y = false -> PyStr.mem PyStr.newline y = false ->
  PyStr.mem "}" p = false -> PyStr.mem PyStr.newline p = false ->
  CitationIndex.match_year (y ++ "}{" ++ p ++ "}" ++ rest) = Some (y, p).
Proof.
  intros Hb Hn Hpb Hpn. induction y as [|c y IH]; rewrite match_year_unfold.
  - change ("" ++ "}{" ++ p ++ "}" ++ rest) with ("}{" ++ (p ++ "}" ++ rest)).
    rewrite startswith_append, (drop_length_append "}{"), match_page_field; done.
  - apply mem_cons_false in Hb as [Hb1 Hb2]. apply mem_cons_false in Hn as [Hn1 Hn2].
    rewrite append_cons.
    replace (PyStr.startswith "}{" (String c (y ++ "}{" ++ p ++ "}" ++ rest))) with false
      by (cbn [PyStr.startswith]; by rewrite Hb1).
    destruct (Ascii.eqb_spec c PyStr.newline) as [->|_];
      [by rewrite Ascii.eqb_refl in Hn1|].
    rewrite IH; done.
Qed.

Lemma match_author_field a y p rest :
  PyStr.mem "}" a = false -> PyStr.mem PyStr.newline a = false ->
  PyStr.mem "}" y = false -> PyStr.mem PyStr.newline y = false ->
  PyStr.mem "}" p = false -> PyStr.mem PyStr.newline p = false ->
  CitationIndex.match_author (a ++ "}\ " ++ y ++ "}{" ++ p ++ "}" ++ rest)
  = Some (a, y, p).
Proof.
  intros Hb Hn Hyb Hyn Hpb Hpn. induction a as [|c a IH]; rewrite match_author_unfold.
  - change ("" ++ "}\ " ++ y ++ "}{" ++ p ++ "}" ++ rest)
      with ("}\ " ++ (y ++ "}{" ++ p ++ "}" ++ rest)).
    rewrite startswith_append, (drop_length_append "}\ "), match_year_field; done.
  - apply mem_cons_false in Hb as [Hb1 Hb2]. apply mem_cons_false in Hn as [Hn1 Hn2].
    rewrite append_cons.
    replace (PyStr.startswith "}\ "
               (String c (a ++ "}\ " ++ y ++ "}{" ++ p ++ "}" ++ rest))) with false
      by (cbn [PyStr.startswith]; by rewrite Hb1).
    destruct (Ascii.eqb_spec c PyStr.newline) as [->|_];
      [by rewrite Ascii.eqb_refl in Hn1|].
    rewrite IH; done.
Qed.

(** The expression for a raw entry reads back what was put in: a line
    made of the opening of an entry, an author, a year and a page, each
    without closing brace and without newline, gives these three fields,
    whatever follows the entry. *)
Theorem entryre_search_entry a y p rest :
  PyStr.mem "}" a = false -> PyStr.mem PyStr.newline a = false ->
  PyStr.mem "}" y = false -> PyStr.mem PyStr.newline y = false ->
  PyStr.mem "}" p = false -> PyStr.mem PyStr.newline p = false ->
  CitationIndex.entryre_search
    ("\indexentry {{" ++ a ++ "}\ " ++ y ++ "}{" ++ p ++ "}" ++ rest)
  = Some (a, y, p).
Proof.
  intros. rewrite entryre_search_unfold. unfold CitationIndex.entry_prefix.
  rewrite startswith_append, (drop_length_append "\indexentry {{").
  by rewrite match_author_field.
Qed.

Lemma entryre_search_entry_witness :
  CitationIndex.entryre_search
    ("\indexentry {{" ++ "Smith" ++ "}\ " ++ "2000" ++ "}{" ++ "12" ++ "}" ++ Ex.nl)
  = Some ("Smith", "2000", "12").
Proof.
  apply (entryre_search_entry "Smith" "2000" "12" Ex.nl); vm_compute; reflexivity.
Defined.

Lemma match_page_clean s p :
  CitationIndex.match_page s = Some p ->
  PyStr.mem PyStr.newline p = false /\ PyStr.mem "}" p = false.
Proof.
  revert p. induction s as [|c s IH]; intros p; simpl; [done|].
  destruct (Ascii.eqb_spec c "}") as [->|Hb]; [by intros [= <-]|].
  destruct (Ascii.eqb_spec c PyStr.newline) as [->|Hn]; [done|].
  destruct (CitationIndex.match_page s) as [p'|]; [|done].
  intros [= <-]. destruct (IH p' eq_refl) as [H1 H2]. cbn [PyStr.mem]. rewrite H1, H2.
  split; apply orb_false_intro; try done; apply Ascii.eqb_neq; congruence.
Qed.

Lemma match_year_clean s : forall y p,
  CitationIndex.match_year s = Some (y, p) ->
  PyStr.mem PyStr.newline y = false
  /\ PyStr.mem PyStr.newline p = false /\ PyStr.mem "}" p = false.
Proof.
  induction s as [|c s IH]; intros y p; rewrite match_year_unfold.
  - destruct (if PyStr.startswith "}{" "" then _ else _) as [pg|] eqn:E; [|done].
    intros [= <- <-]. destruct (PyStr.startswith "}{" ""); [|done].
    by apply match_page_clean in E.
  - destruct (if PyStr.startswith "}{" (String c s) then _ else _) as [pg|] eqn:E.
    + intros [= <- <-]. destruct (PyStr.startswith "}{" (String c s)); [|done].
      by apply match_page_clean in E.
    + destruct (Ascii.eqb_spec c PyStr.newline) as [->|Hn]; [done|].
      destruct (CitationIndex.match_year s) as [[y' p']|]; [|done].
      intros [= <- <-]. destruct (IH y' p' eq_refl) as (H1 & H2 & H3).
      split; [|done]. cbn [PyStr.mem]. rewrite H1.
      apply orb_false_intro; [|done]. apply Ascii.eqb_neq. congruence.
Qed.

Lemma match_author_clean s : forall a y p,
  CitationIndex.match_author s = Some (a, y, p) ->
  PyStr.mem PyStr.newline a = false /\ PyStr.mem PyStr.newline y = false
  /\ PyStr.mem PyStr.newline p = false /\ PyStr.mem "}" p = false.
Proof.
  induction s as [|c s IH]; intros a y p; rewrite match_author_unfold.
  - destruct (if PyStr.startswith "}\ " "" then _ else _) as [[yr pg]|] eqn:E; [|done].
    intros [= <- <- <-]. destruct (PyStr.startswith "}\ " ""); [|done].
    by apply match_year_clean in E.
  - destruct (if PyStr.startswith "}\ " (String c s) then _ else _) as [[yr pg]|] eqn:E.
    + intros [= <- <- <-]. destruct (PyStr.startswith "}\ " (String c s)); [|done].
      by apply match_year_clean in E.
    + destruct (Ascii.eqb_spec c PyStr.newline) as [->|Hn]; [done|].
      destruct (CitationIndex.match_author s) as [[[a' y'] p']|]; [|done].
      intros [= <- <- <-]. destruct (IH a' y' p' eq_refl) as (H1 & H2 & H3 & H4).
      split; [|done]. cbn [PyStr.mem]. rewrite H1.
      apply orb_false_intro; [|done]. apply Ascii.eqb_neq. congruence.
Qed.

(** The fields that the expression for a raw entry finds stay within one
    line: none of them has a newline, and the page has no closing
    brace. *)
Theorem entryre_search_fields line a y p :
  CitationIndex.entryre_search line = Some (a, y, p) ->
  PyStr.mem PyStr.newline a = false /\ PyStr.mem PyStr.newline y = false
  /\ PyStr.mem PyStr.newline p = false /\ PyStr.mem "}" p = false.
Proof.
  induction line as [|c line IH]; rewrite entryre_search_unfold.
  - destruct (if PyStr.startswith _ "" then _ else _) as [g|] eqn:E; [|done].
    intros [= ->]. destruct (PyStr.startswith _ ""); [|done].
    by apply match_author_clean in E.
  - destruct (if PyStr.startswith _ (String c line) then _ else _) as [g|] eqn:E.
    + intros [= ->]. destruct (PyStr.startswith _ (String c line)); [|done].
      by apply match_author_clean in E.
    + exact IH.
Qed.

Lemma entryre_search_fields_witness :
  PyStr.mem PyStr.newline "Smith" = false /\ PyStr.mem PyStr.newline "2000" = false
  /\ PyStr.mem PyStr.newline "12" = false /\ PyStr.mem "}" "12" = false.
Proof.
  apply (entryre_search_fields Ex5.raw_entry "Smith" "2000" "12").
  vm_compute. reflexivity.
Defined.

(** ** [CitationIndex.clean]: the files it leaves alone *)

(** [clean] writes to the output file, or else to the temporary file and
    the input file, and to no other file; when the input file cannot be
    opened it writes nothing at all. *)
Theorem clean_frame address tmp (files : gmap string (list string))
    infilename outfilename (f : string) :
  (files !! infilename = None ->
   CitationIndex.clean address tmp files infilename outfilename
   = (CitationIndex.FileNotFound, files))
  /\ (f ≠ destination infilename outfilename ->
      (outfilename = None -> f ≠ tmp) ->
      (CitationIndex.clean address tmp files infilename outfilename).2 !! f
      = files !! f).
Proof.
  split.
  - intros Hin. unfold CitationIndex.clean. by rewrite Hin.
  - intros Hd Ht. unfold CitationIndex.clean.
    destruct (files !! infilename) as [lines|]; [|done]. cbn zeta.
    destruct (CitationIndex.clean_loop _ _ _ _) as [r out].
    destruct outfilename as [o|]; simpl in Hd.
    + destruct r; simpl; by rewrite !lookup_insert_ne.
    + specialize (Ht eq_refl).
      destruct r; simpl; rewrite ?lookup_insert_ne, ?lookup_delete_ne, ?lookup_insert_ne;
        done.
Qed.

(** ** [getindexfiles], [checktotalslides] *)

Lemma dict_set_names_str {V : Type} (k : string) (v : V) (d : list (string * V)) :
  NoDup (map fst d) ->
  NoDup (map fst (Dict.set k v d))
  /\ forall e, In e (Dict.set k v d) -> e = (k, v) \/ In e d.
Proof.
  induction d as [|[k' v'] d IH]; simpl.
  - intros _. split; [apply NoDup_singleton|]. intros e [<-|[]]. by left.
  - intros Hnd. apply NoDup_cons in Hnd as [Hk' Hnd].
    destruct (decide (k = k')) as [->|Hne]; simpl.
    + split; [by apply NoDup_cons|]. intros e [<-|He]; [by left|right; by right].
    + destruct (IH Hnd) as [IH1 IH2]. split.
      * apply NoDup_cons. split; [|done]. intros Hin.
        apply list_elem_of_In, in_map_iff in Hin as ([k0 v0] & Hk0 & Hin).
        simpl in Hk0. subst k0. apply IH2 in Hin as [[= -> ->]|Hin]; [done|].
        apply Hk', list_elem_of_In, in_map_iff. by exists (k', v0).
      * intros e [<-|He]; [right; by left|].
        apply IH2 in He as [->|He]; [by left|right; by right].
Qed.

(** The index files that [getindexfiles] reports are rows of its table of
    the three kinds of index, each kind at most once: the extensions of an
    entry are those that the table gives for its kind. *)
Theorem getindexfiles_table (log : list string) :
  NoDup (map fst (getindexfiles log))
  /\ Forall (fun e => In (e.2.1, (e.1, e.2.2)) indexes) (getindexfiles log).
Proof.
  unfold getindexfiles.
  assert (H : forall acc,
             NoDup (map fst acc)
             /\ Forall (fun e : string * (string * string) =>
                          In (e.2.1, (e.1, e.2.2)) indexes) acc ->
             let r := fold_left (fun found line =>
               match index_search line with
               | Some inext =>
                   match Dict.get inext indexes with
                   | Some (name, outext) => Dict.set name (inext, outext) found
                   | None => found
                   end
               | None => found
               end) log acc in
             NoDup (map fst r)
             /\ Forall (fun e : string * (string * string) =>
                          In (e.2.1, (e.1, e.2.2)) indexes) r).
  { induction log as [|line log IH]; intros acc Hacc; cbn [fold_left]; [exact Hacc|].
    apply IH. destruct (index_search line) as [inext|]; [|exact Hacc].
    destruct (Dict.get inext indexes) as [[name outext]|] eqn:E; [|exact Hacc].
    destruct Hacc as [Hnd Hall].
    destruct (dict_set_names_str name (inext, outext) acc Hnd) as [H1 H2].
    split; [done|]. apply Forall_forall. intros e He.
    apply list_elem_of_In, H2 in He as [->|He].
    - simpl. clear -E. unfold indexes in *. simpl in E.
      repeat (destruct (decide _) as [->|]; [injection E as <- <-; simpl; tauto|]).
      done.
    - rewrite Forall_forall in Hall. by apply Hall, list_elem_of_In. }
  apply (H []). split; [apply NoDup_nil_2|apply Forall_nil_2].
Qed.

Lemma int_digits_nonneg ds : forall acc, 0 <= acc -> 0 <= int_digits acc ds.
Proof.
  induction ds as [|c ds IH]; intros acc Hacc; simpl; [done|].
  apply IH. lia.
Qed.

Lemma py_int_nonneg ds n : py_int ds = Some n -> 0 <= n.
Proof.
  unfold py_int. destruct (_ <? _)%nat; [done|].
  intros [= <-]. by apply int_digits_nonneg.
Qed.

Lemma py_int_raises ds :
  py_int ds = None <-> (int_max_str_digits < String.length ds)%nat.
Proof.
  unfold py_int. destruct (Nat.ltb_spec int_max_str_digits (String.length ds)).
  - done.
  - split; [done|lia].
Qed.

(** [checktotalslides] gives no number for a file that does not exist, and
    a number it gives is never negative.  It raises only for a file with
    a line whose number of frames has more digits than [int] converts. *)
Theorem checktotalslides_spec (fs : gmap string File) (auxfile : string) :
  (fs !! auxfile = None -> checktotalslides fs auxfile = Some None)
  /\ (forall n, checktotalslides fs auxfile = Some (Some n) -> 0 <= n)
  /\ (checktotalslides fs auxfile = None ->
      exists file line ds,
        fs !! auxfile = Some file
        /\ In line (f_lines file)
        /\ totalframes_search line = Some ds
        /\ (int_max_str_digits < String.length ds)%nat).
Proof.
  unfold checktotalslides. split; [by intros ->|].
  destruct (fs !! auxfile) as [file|]; [|split; done].
  set (body := fun (retval : option (option Z)) (line : string) =>
                 match retval with
                 | Some r =>
                     match totalframes_search line with
                     | Some ds => option_map Some (py_int ds)
                     | None => Some r
                     end
                 | None => None
                 end).
  assert (H : forall l acc,
            (forall m, acc = Some (Some m) -> 0 <= m) ->
            (forall n, fold_left body l acc = Some (Some n) -> 0 <= n)
            /\ (fold_left body l acc = None ->
                acc = None
                \/ exists line ds, In line l /\ totalframes_search line = Some ds
                                   /\ (int_max_str_digits < String.length ds)%nat)).
  { induction l as [|line l IH]; intros acc Hacc; cbn [fold_left].
    - split; [apply Hacc|by left].
    - destruct (IH (body acc line)) as [IH1 IH2].
      { unfold body. destruct acc as [r|]; [|done].
        destruct (totalframes_search line) as [ds|]; [|exact Hacc].
        destruct (py_int ds) as [k|] eqn:Ek; [|done].
        intros m [= <-]. by apply py_int_nonneg in Ek. }
      split; [exact IH1|]. intros Hnone. apply IH2 in Hnone as [Hb|Hex].
      + unfold body in Hb. destruct acc as [r|]; [|by left]. right.
        destruct (totalframes_search line) as [ds|] eqn:Es; [|done].
        destruct (py_int ds) as [k|] eqn:Ek; [done|].
        exists line, ds. split; [by left|]. split; [done|]. by apply py_int_raises.
      + right. destruct Hex as (line' & ds & Hin & Hs & Hlen).
        exists line', ds. split; [by right|done]. }
  destruct (H (f_lines file) (Some None)) as [H1 H2]; [done|].
  split; [exact H1|]. intros Hnone. apply H2 in Hnone as [Hb|(line & ds & Hin & Hs & Hlen)];
    [done|]. by exists file, line, ds.
Qed.

(** ** The loop of [main]: how it ends *)

(** The errors of the steps before pdflatex. *)
Lemma bibtex_step_errors opts run auxinfo e :
  bibtex_step opts run auxinfo = Some e -> e = OSError \/ e = BibtexLogError.
Proof.
  unfold bibtex_step. destruct (existsb _ _); [|done].
  destruct (cannot_start run "bibtex"); [intros [= <-]; by left|].
  destruct (bibtex_raises _ _ _); [intros [= <-]; by right|done].
Qed.

Lemma clean_raises_errors run f text e :
  clean_raises run f text = Some e ->
  e = UnicodeDecodeError \/ exists i, e = CorruptIndex i.
Proof.
  unfold clean_raises. destruct text as [lines|before];
    destruct (CitationIndex.clean _ _ _ _ _).1 as [|i|]; intros [= <-];
    first [by left|right; by exists i].
Qed.

Lemma index_raises_errors job run indexfiles e :
  index_raises job run indexfiles = Some e ->
  e = OSError \/ e = UnicodeDecodeError \/ exists i, e = CorruptIndex i.
Proof.
  induction indexfiles as [|[t [inext outext]] l IH]; cbn [index_raises]; [done|].
  destruct (index_input run (extrafile job inext)) as [text|]; [|exact IH].
  destruct (String.eqb t "author").
  { destruct (cannot_start run "authorindex"); [intros [= <-]; by left|].
    destruct (cannot_start run "makeindex"); [intros [= <-]; by left|exact IH]. }
  destruct (String.eqb t "citation").
  { destruct (clean_raises run (extrafile job inext) text) as [e'|] eqn:Ec.
    - intros [= <-]. right. by apply clean_raises_errors in Ec.
    - destruct (cannot_start run "makeindex"); [intros [= <-]; by left|exact IH]. }
  destruct (cannot_start run "makeindex"); [intros [= <-]; by left|exact IH].
Qed.

Lemma aux_recheck_errors os opts job run runcount st auxinfo keepgoing e :
  aux_recheck os opts job run runcount st auxinfo keepgoing = inl e ->
  e = OSError \/ e = UnicodeDecodeError \/ e = ValueError.
Proof.
  unfold aux_recheck. destruct ((runcount =? 1) || recheck_aux opts); [|done].
  destruct (kpsewhich_raises opts run auxinfo) as [e'|] eqn:Ek.
  { intros [= <-]. unfold kpsewhich_raises in Ek.
    destruct (length _ =? 0)%nat; [done|].
    destruct (cannot_start run "kpsewhich"); [injection Ek as <-; by left|].
    destruct (kpsewhich_stdout run _); [done|]. injection Ek as <-. right. by left. }
  destruct (bool_decide (beamer_numslides st ≠ None) || recheck_aux opts); [|done].
  destruct (checktotalslides _ _) as [new|]; [|intros [= <-]; right; by right].
  by destruct (bool_decide (new ≠ beamer_numslides st)).
Qed.

(** The errors of a pass: none of them is the read of a run count that
    was never set, and a check is unknown only to [change]. *)
Lemma iteration_inl re os opts job run maxruns runcount st e :
  iteration re os opts job run maxruns runcount st = inl e ->
  e ≠ NameError
  /\ (e = UnknownCheck -> pass_checker opts maxruns runcount st = None).
Proof.
  unfold iteration.
  destruct (bibtex_step _ _ _) as [e'|] eqn:Eb.
  { intros [= <-]. apply bibtex_step_errors in Eb as [->| ->]; done. }
  destruct (index_raises _ _ _) as [e'|] eqn:Ei.
  { intros [= <-]. apply index_raises_errors in Ei as [->|[->|[i ->]]]; done. }
  destruct (cannot_start run (pdflatex opts)); [intros [= <-]; done|].
  destruct (pass_checker opts maxruns runcount st) as [ec|]; [|intros [= <-]; done].
  destruct (fs_after run !! extrafile job "log") as [logfile|]; [|intros [= <-]; done].
  destruct (aux_recheck _ _ _ _ _ _ _ _) as [e'|[k0 ns]] eqn:Ek; [|done].
  intros [= <-]. apply aux_recheck_errors in Ek as [->|[->| ->]]; done.
Qed.

Lemma loop_bounds re os opts job world maxruns n : forall runcount st,
  1 <= runcount ->
  runcount + Z.of_nat n = maxruns + 1 ->
  match loop re os opts job world maxruns n runcount st with
  | Success r => runcount <= r <= maxruns /\ min_runs opts <= r
  | ErrorsPersist r => r = maxruns
  | Raised r e => runcount <= r <= maxruns /\ e ≠ NameError
  end.
Proof.
  induction n as [|n IH]; intros runcount st H1 Hn; cbn [loop]; [lia|].
  destruct (iteration re os opts job (world runcount) maxruns runcount st)
    as [e|[st' keepgoing]] eqn:Hit.
  { apply iteration_inl in Hit as [Hit _]. split; [lia|done]. }
  destruct (floor opts runcount keepgoing) eqn:Ef.
  - specialize (IH (runcount + 1) st' ltac:(lia) ltac:(lia)).
    destruct (loop _ _ _ _ _ _ _ _ _); [lia|lia|split; [lia|tauto]].
  - unfold floor in Ef. destruct (runcount <? min_runs opts) eqn:El; [done|].
    apply Z.ltb_ge in El. lia.
Qed.

(** [main] reports success only after the minimum number of runs and
    within the maximum, and it reports that errors persist only after
    exactly the maximum number of runs.  An error is raised before the
    first pass or in a pass within the maximum; the read of a run count
    that was never set is raised only before the first pass, when the
    maximum is not positive. *)
Theorem main_result_bounds re os opts job (fs : gmap string File) world :
  match main re os opts job fs world with
  | Success r => 1 <= r <= maxruns_of opts /\ min_runs opts <= r
  | ErrorsPersist r => r = maxruns_of opts /\ 1 <= r
  | Raised r e =>
      (r = 0 \/ 1 <= r <= maxruns_of opts)
      /\ (e = NameError -> r = 0 /\ maxruns_of opts <= 0)
  end.
Proof.
  unfold main. rewrite initial_checker_some.
  destruct (checktotalslides fs (extrafile job "aux")) as [slides|];
    [|split; [by left|done]].
  destruct (maxruns_of opts <=? 0) eqn:E.
  - apply Z.leb_le in E. split; [by left|done].
  - apply Z.leb_gt in E.
    assert (H := loop_bounds re os opts job world (maxruns_of opts)
                   (Z.to_nat (maxruns_of opts)) 1 (initial_state opts slides)
                   ltac:(lia) ltac:(lia)).
    destruct (loop _ _ _ _ _ _ _ _ _); [lia|lia|].
    split; [right; lia|]. intros ->. by destruct H as [_ H].
Qed.

Example main_raises_before_loop :
  main Ex3.literal Ex.os_abs Ex4.opts Ex4.job ExF.fs_long_number Ex4.quiet_run
  = Raised 0 ValueError.
Proof. vm_compute. reflexivity. Qed.

Lemma change_names ec k l n ec' :
  change ec k l n = Some ec' -> names ec' = names ec.
Proof.
  unfold change. destruct (Dict.get k (checks ec)) as [c|] eqn:E; [|done].
  intros [= <-]. unfold names. simpl. apply dict_set_names. congruence.
Qed.

Lemma change_known ec k l n :
  In k (names ec) -> exists ec', change ec k l n = Some ec'.
Proof.
  intros Hk. unfold change.
  destruct (Dict.get k (checks ec)) as [c|] eqn:E; [by eexists|].
  apply dict_get_None in E. done.
Qed.

Lemma final_levels_known opts ec :
  cite_names_known ec ->
  exists ec', final_levels opts ec = Some ec' /\ names ec' = names ec.
Proof.
  intros (H1 & H2 & H3). unfold final_levels. cbn [fold_left].
  set (lvl := Some (if ignore_cite_errors opts then "ignore" else "error")).
  destruct (change_known ec (Named "undef") lvl None H1) as [e1 E1].
  rewrite E1. apply change_names in E1 as N1.
  destruct (change_known e1 (Named "undefref") lvl None) as [e2 E2]; [by rewrite N1|].
  rewrite E2. apply change_names in E2 as N2.
  destruct (change_known e2 (Named "undefcite") lvl None) as [e3 E3];
    [by rewrite N2, N1|].
  rewrite E3. apply change_names in E3 as N3.
  exists e3. split; [done|]. by rewrite N3, N2, N1.
Qed.

Lemma iteration_names re os opts job run maxruns runcount st :
  cite_names_known (checker st) ->
  match iteration re os opts job run maxruns runcount st with
  | inl e => e ≠ UnknownCheck
  | inr (st', _) => names (checker st') = names (checker st)
  end.
Proof.
  intros Hk.
  destruct (final_levels_known opts (checker st) Hk) as (ec' & Ef & Hn).
  assert (Hec : exists ec, pass_checker opts maxruns runcount st = Some ec
                           /\ names ec = names (checker st)).
  { unfold pass_checker.
    destruct (runcount =? maxruns); [by exists ec'|by exists (checker st)]. }
  destruct Hec as (ec & Hec & Hnames).
  destruct (iteration re os opts job run maxruns runcount st) as [e|[st' k]] eqn:Hit.
  - apply iteration_inl in Hit as [_ Hit]. intros ->. rewrite Hit in Hec; done.
  - apply iteration_inr in Hit as (ec0 & logfile & k0 & ns & Hc & _ & _ & -> & _).
    cbn [checker]. congruence.
Qed.

Lemma loop_known re os opts job world maxruns n : forall runcount st r,
  cite_names_known (checker st) ->
  loop re os opts job world maxruns n runcount st ≠ Raised r UnknownCheck.
Proof.
  induction n as [|n IH]; intros runcount st r Hk; cbn [loop]; [done|].
  assert (H := iteration_names re os opts job (world runcount) maxruns runcount st Hk).
  destruct (iteration re os opts job (world runcount) maxruns runcount st)
    as [e|[st' keepgoing]]; [congruence|].
  destruct (floor opts runcount keepgoing); [|done].
  apply IH. unfold cite_names_known in *. by rewrite H.
Qed.

(** [main] never fails for a name that the log checker does not know: the
    three names whose level it changes on the final run are registered
    when the script is loaded, and no pass removes or renames a rule. *)
Theorem main_knows_its_checks re os opts job (fs : gmap string File) world r :
  main re os opts job fs world ≠ Raised r UnknownCheck.
Proof.
  unfold main. rewrite initial_checker_some.
  destruct (checktotalslides fs (extrafile job "aux")) as [slides|]; [|done].
  destruct (maxruns_of opts <=? 0); [done|].
  apply loop_known. unfold initial_state, initial_checker. cbn [checker].
  destruct (show_cite_errors opts); vm_compute; tauto.
Qed.

Lemma iteration_quiet_inv_witness :
  returncode (Ex4.quiet_run 1) = 0
  /\ (exists logfile,
        fs_after (Ex4.quiet_run 1) !! extrafile Ex4.job "log" = Some logfile
        /\ any_messages (search Ex3.literal (checker Ex4.st1) (f_lines logfile)) = false)
  /\ (forall logfile v,
        fs_after (Ex4.quiet_run 1) !! extrafile Ex4.job "log" = Some logfile ->
        v ∈ getindexfiles (f_lines logfile) ->
        index_outofdate (fs_after (Ex4.quiet_run 1)) (extrafile Ex4.job "tex")
                        (extrafile Ex4.job v.2.2) = false).
Proof.
  apply (iteration_quiet_inv Ex3.literal Ex.os_abs Ex4.opts Ex4.job (Ex4.quiet_run 1)
           4 1 (initial_state Ex4.opts None) Ex4.st1).
  vm_compute. reflexivity.
Defined.
(** ** [getauxfromlog] *)

Lemma startswith_split p : forall s,
  PyStr.startswith p s = true -> s = p ++ PyStr.drop (String.length p) s.
Proof.
  induction p as [|a p IH]; intros s H; [by destruct s|].
  destruct s as [|b s]; [done|]. cbn [PyStr.startswith] in H.
  apply andb_true_iff in H as [Hab H]. apply Ascii.eqb_eq in Hab as ->.
  rewrite append_cons. cbn [String.length PyStr.drop]. f_equal. by apply IH.
Qed.

Lemma lazy_aux_unfold s :
  lazy_aux s =
  if PyStr.startswith ".aux" s then Some (".aux", PyStr.drop 4 s)
  else
    match s with
    | EmptyString => None
    | String c s' =>
        if Ascii.eqb c PyStr.newline then None
        else option_map (fun gr => (String c gr.1, gr.2)) (lazy_aux s')
    end.
Proof. by destruct s. Qed.

Lemma lazy_aux_spec s : forall g r,
  lazy_aux s = Some (g, r) -> exists t, g = t ++ ".aux" /\ s = g ++ r.
Proof.
  induction s as [|c s IH]; intros g r; rewrite lazy_aux_unfold.
  - destruct (PyStr.startswith ".aux" "") eqn:E; [done|done].
  - destruct (PyStr.startswith ".aux" (String c s)) eqn:E.
    + intros [= <- <-]. exists "". split; [done|].
      exact (startswith_split ".aux" (String c s) E).
    + destruct (Ascii.eqb c PyStr.newline); [done|].
      destruct (lazy_aux s) as [[g' r']|]; [|done].
      intros [= <- <-]. destruct (IH g' r' eq_refl) as (t & -> & Hs).
      exists (String c t). split; [done|]. simpl. rewrite append_cons. by f_equal.
Qed.

Lemma auxre_at_spec s g rest :
  auxre_at s = Some (g, rest) ->
  exists t, (g = "/" ++ t ++ ".aux" \/ g = "./" ++ t ++ ".aux").
Proof.
  unfold auxre_at. destruct s as [|c1 [|c2 s]]; try done.
  { destruct c1 as [[] [] [] [] [] [] [] []]; done. }
  destruct c1 as [[] [] [] [] [] [] [] []]; try done.
  destruct c2 as [[] [] [] [] [] [] [] []]; try done.
  - destruct (lazy_aux s) as [[g' r']|] eqn:E; [|done].
    intros [= <- <-]. apply lazy_aux_spec in E as (t & -> & _). exists t. by left.
  - destruct s as [|c3 s]; [done|].
    destruct c3 as [[] [] [] [] [] [] [] []]; try done.
    destruct (lazy_aux s) as [[g' r']|] eqn:E; [|done].
    intros [= <- <-]. apply lazy_aux_spec in E as (t & -> & _). exists t. by right.
Qed.

(** Every name that the expression of [getauxfromlog] finds in a line
    starts with a slash, or a dot and a slash, and ends with the extension
    of aux files. *)
Theorem auxre_findall_shape (line : string) :
  Forall (fun a => (PyStr.startswith "/" a = true \/ PyStr.startswith "./" a = true)
                   /\ PyStr.endswith ".aux" a = true)
         (auxre_findall line).
Proof.
  unfold auxre_findall. generalize (String.length line) as fuel.
  intros fuel. revert line. induction fuel as [|fuel IH]; intros s; simpl; [done|].
  destruct s as [|c s]; [done|].
  destruct (auxre_at (String c s)) as [[g rest]|] eqn:E; [|apply IH].
  constructor; [|apply IH].
  apply auxre_at_spec in E as (t & [->| ->]).
  - split; [left; exact (startswith_append "/" (t ++ ".aux"))|].
    rewrite <- append_assoc. apply endswith_append.
  - split; [right; exact (startswith_append "./" (t ++ ".aux"))|].
    rewrite <- append_assoc. apply endswith_append.
Qed.

Lemma getauxfromlog_inner os (fs : gmap string File) pdir l : forall (acc : gset string) p,
  p ∈ fold_left (fun aux a =>
                   let a := normjoin os pdir a in
                   if isfile fs a then aux ∪ {[ a ]} else aux) l acc
  <-> p ∈ acc \/ (isfile fs p = true /\ exists a, In a l /\ p = normjoin os pdir a).
Proof.
  induction l as [|a l IH]; intros acc p; cbn [fold_left].
  - split; [by left|]. intros [H|(_ & a & [] & _)]. done.
  - rewrite IH. cbn zeta. split.
    + intros [H|(Hf & b & Hb & ->)].
      * destruct (isfile fs (normjoin os pdir a)) eqn:E; [|by left].
        apply elem_of_union in H as [H|H]; [by left|].
        apply elem_of_singleton in H as ->. right. split; [done|].
        exists a. split; [by left|done].
      * right. split; [done|]. exists b. split; [by right|done].
    + intros [H|(Hf & b & [<-|Hb] & ->)].
      * left. destruct (isfile fs (normjoin os pdir a)); [|done].
        apply elem_of_union. by left.
      * left. rewrite Hf. apply elem_of_union. right. by apply elem_of_singleton.
      * right. split; [done|]. by exists b.
Qed.

(** [getauxfromlog] returns a path exactly when the path is a file and is
    the normal form, taken from the build directory, of a name that its
    expression finds in a line of the log: a name of the log whose file
    does not exist is left out. *)
Theorem getauxfromlog_spec os (fs : gmap string File) log pdir (p : string) :
  p ∈ getauxfromlog os fs log pdir
  <-> isfile fs p = true
      /\ exists line a, In line log /\ In a (auxre_findall line)
                        /\ p = normjoin os pdir a.
Proof.
  unfold getauxfromlog.
  assert (H : forall (acc : gset string),
     p ∈ fold_left (fun aux line =>
               fold_left (fun aux a =>
                            let a := normjoin os pdir a in
                            if isfile fs a then aux ∪ {[ a ]} else aux)
                         (auxre_findall line) aux) log acc
     <-> p ∈ acc \/ (isfile fs p = true
                     /\ exists line a, In line log /\ In a (auxre_findall line)
                                       /\ p = normjoin os pdir a)).
  { induction log as [|line log IH]; intros acc; cbn [fold_left].
    - split; [by left|]. intros [H|(_ & l & a & [] & _)]. done.
    - rewrite IH, getauxfromlog_inner. split.
      + intros [[H|(Hf & a & Ha & ->)]|(Hf & l & a & Hl & Ha & ->)].
        * by left.
        * right. split; [done|]. exists line, a. split; [by left|done].
        * right. split; [done|]. exists l, a. split; [by right|done].
      + intros [H|(Hf & l & a & [<-|Hl] & Ha & ->)].
        * left. by left.
        * left. right. split; [done|]. by exists a.
        * right. split; [done|]. by exists l, a. }
  rewrite H. split; [intros [Hp|Hp]; [set_solver|done]|by right].
Qed.

(** ** [StatusConsole] *)

(** A console that shows neither errors nor debugging text prints nothing
    for the messages of a log, whatever they are. *)
Theorem multiprint_silent (c : StatusConsole) (messages : gmap string (list string)) :
  show_errors c = false ->
  show_debug c = false ->
  multiprint c messages = Some [].
Proof.
  intros He Hd. unfold multiprint, multiignore, multidebug, multierror.
  rewrite He, Hd. simpl. by destruct (length (bucket messages "fatal") =? 0)%nat.
Qed.

Lemma multiprint_silent_witness :
  multiprint (mkConsole true false false true) (search Ex3.literal Ex3.two_lines Ex3.log_two)
  = Some [].
Proof. by apply (multiprint_silent (mkConsole true false false true)). Defined.

(** Without debugging, fatal messages hide the others: when the log has a
    fatal message, [multiprint] prints the fatal messages and nothing
    else, so the messages of level error are not shown. *)
Theorem multiprint_fatal_only (c : StatusConsole) (messages : gmap string (list string)) :
  show_debug c = false ->
  bucket messages "fatal" ≠ [] ->
  multiprint c messages = multierror c (bucket messages "fatal") "fatal errors".
Proof.
  intros Hd Hf. unfold multiprint, multiignore, multidebug. rewrite Hd. simpl.
  destruct (bucket messages "fatal") as [|m ms] eqn:E; [done|]. simpl.
  by destruct (multierror c (m :: ms) "fatal errors").
Qed.

Lemma multiprint_fatal_only_witness :
  multiprint (mkConsole true true false true)
             {[ "error" := ["bad"]; "fatal" := ["worse"] ]}
  = multierror (mkConsole true true false true)
               (bucket {[ "error" := ["bad"]; "fatal" := ["worse"] ]} "fatal")
               "fatal errors".
Proof.
  apply (multiprint_fatal_only (mkConsole true true false true)).
  - reflexivity.
  - vm_compute. discriminate.
Defined.




Lemma mem_append c s t :
  PyStr.mem c (s ++ t) = PyStr.mem c s || PyStr.mem c t.
Proof.
  induction s as [|d s IH]; [done|].
  rewrite append_cons. cbn [PyStr.mem]. rewrite IH. by rewrite orb_assoc.
Qed.

Lemma replace_fuel_absent c repl s : forall fuel,
  PyStr.mem c s = false ->
  PyStr.replace_fuel fuel (String c "") repl s = s.
Proof.
  induction s as [|d s IH]; intros fuel H; destruct fuel; try done.
  apply mem_cons_false in H as [Hd H]. cbn [PyStr.replace_fuel PyStr.startswith].
  rewrite Hd. simpl. by rewrite IH.
Qed.

Lemma split_absent c s : PyStr.mem c s = false -> PyStr.split c s = [s].
Proof.
  induction s as [|d s IH]; intros H; [done|].
  apply mem_cons_false in H as [Hd H]. cbn [PyStr.split].
  rewrite (Ascii.eqb_sym d c), Hd, IH; done.
Qed.

(** A list of messages of one line each is printed as one line for each
    message, the bullet before it. *)
Theorem printbulleted_single_lines (errors : list string) (bullet fmt : string) :
  PyStr.mem PyStr.newline bullet = false ->
  Forall (fun err => PyStr.mem PyStr.newline err = false) errors ->
  printbulleted errors bullet fmt
  = printlines (map (fun err => bullet ++ err) errors) fmt.
Proof.
  intros Hb Herr. unfold printbulleted. f_equal.
  induction Herr as [|err errors He _ IH]; [done|].
  cbn [flat_map map]. rewrite IH. unfold PyStr.replace.
  assert (H : PyStr.mem PyStr.newline (bullet ++ err) = false)
    by (by rewrite mem_append, Hb, He).
  rewrite replace_fuel_absent, split_absent; done.
Qed.

Lemma printbulleted_single_lines_witness :
  printbulleted ["first"; "second"] "  > " "error"
  = printlines (map (fun err => "  > " ++ err) ["first"; "second"]) "error".
Proof.
  apply (printbulleted_single_lines ["first"; "second"] "  > " "error").
  - vm_compute. reflexivity.
  - repeat constructor.
Defined.

(** ** [biboutofdate] and the control files of biblatex *)

(** Unless their timestamps are asked for, bibliography files whose names
    end with [-blx.bib] do not count: a snapshot that names no other
    bibliography file is never out of date, and nothing is resolved. *)
Theorem biboutofdate_blx_only os (fs : gmap string File) stdout
    (auxinfo : gmap string AuxFile) pdir :
  (forall f a b, auxinfo !! f = Some a -> In b (aux_bibdata a) ->
                 PyStr.endswith "-blx.bib" b = true) ->
  biboutofdate os fs stdout auxinfo pdir false = (false, []).
Proof.
  intros H. unfold biboutofdate.
  assert (E : bibnames auxinfo false = []).
  { unfold bibnames.
    destruct (List.filter _ _) as [|b l] eqn:E; [done|].
    assert (Hb : In b (b :: l)) by by left.
    rewrite <- E in Hb. apply filter_In in Hb as [Hb1 Hb2].
    apply in_flat_map in Hb1 as ([f a] & Hfa & Hb).
    apply list_elem_of_In, elem_of_map_to_list in Hfa.
    rewrite (H f a b Hfa Hb) in Hb2. done. }
  by rewrite E.
Qed.

Lemma biboutofdate_blx_only_witness :
  biboutofdate Ex.os_abs Ex1.fs_nobbl Ex1.kpse ExF.auxinfo_blx "/d" false = (false, []).
Proof.
  apply (biboutofdate_blx_only Ex.os_abs Ex1.fs_nobbl Ex1.kpse ExF.auxinfo_blx "/d").
  intros f a b Hfa Hb.
  assert (Ha : a = mkAuxFile "main.aux" true (At 10) ["main-blx.bib"] None).
  { unfold ExF.auxinfo_blx in Hfa. apply lookup_singleton_Some in Hfa as [_ <-]. done. }
  subst a. destruct Hb as [<-|[]]. vm_compute. reflexivity.
Defined.

(** ** The index step of [main] *)

Lemma clean_good_done address tmp f lines :
  Forall (fun l => CitationIndex.entryre_search l ≠ None) lines ->
  (CitationIndex.clean address tmp {[ f := lines ]} f None).1 = CitationIndex.Done.
Proof.
  intros Hgood. unfold CitationIndex.clean. rewrite lookup_singleton_eq.
  destruct (decide (tmp = f)) as [->|Hne].
  - rewrite lookup_insert_eq. cbn [from_option CitationIndex.clean_loop]. done.
  - rewrite lookup_insert_ne, lookup_singleton_eq by done. cbn [from_option id].
    destruct (clean_loop_good address lines 0 [] [] Hgood) as (new & _ & E).
    rewrite app_nil_r in E. rewrite E. cbn [CitationIndex.clean_loop]. done.
Qed.

(** The index step raises nothing when authorindex and makeindex can be
    started and every citation index that it cleans can be decoded and
    has an entry on each of its lines. *)
Theorem index_step_passes job run indexfiles :
  cannot_start run "authorindex" = false ->
  cannot_start run "makeindex" = false ->
  (forall inext outext text,
     In ("citation", (inext, outext)) indexfiles ->
     index_input run (extrafile job inext) = Some text ->
     exists lines,
       text = Text lines
       /\ Forall (fun l => CitationIndex.entryre_search l ≠ None) lines) ->
  index_raises job run indexfiles = None.
Proof.
  intros Ha Hm. induction indexfiles as [|[t [inext outext]] l IH]; intros Hc; [done|].
  cbn [index_raises]. rewrite Ha, Hm.
  assert (Hl : index_raises job run l = None).
  { apply IH. intros i o text Hin. apply (Hc i o text). by right. }
  destruct (index_input run (extrafile job inext)) as [text|] eqn:Etext; [|exact Hl].
  destruct (String.eqb t "author"); [exact Hl|].
  destruct (String.eqb_spec t "citation") as [->|Hne]; [|exact Hl].
  destruct (Hc inext outext text (or_introl eq_refl) Etext) as (lines & -> & Hgood).
  unfold clean_raises. by rewrite clean_good_done.
Qed.

Lemma index_step_passes_witness :
  index_raises Ex4.job ExF.index_run
    [("citation", ("ctx", "cnd")); ("author", ("ain", "and"))] = None.
Proof.
  apply (index_step_passes Ex4.job ExF.index_run
           [("citation", ("ctx", "cnd")); ("author", ("ain", "and"))]).
  - reflexivity.
  - reflexivity.
  - intros inext outext text _ [= <-]. exists [Ex5.raw_entry]. split; [done|].
    repeat constructor. vm_compute. discriminate.
Defined.

(** The errors of the index step, each met on a small input: a citation
    index with a line that is not an entry, one that cannot be decoded,
    and programs that cannot be started. *)
Example index_raises_cases :
  index_raises Ex4.job ExF.corrupt_run [("citation", ("ctx", "cnd"))]
  = Some (CorruptIndex 1)
  /\ index_raises Ex4.job ExF.garbled_run [("citation", ("ctx", "cnd"))]
     = Some UnicodeDecodeError
  /\ index_raises Ex4.job ExF.no_makeindex_run [("subject", ("idx", "ind"))]
     = Some OSError
  /\ index_raises Ex4.job ExF.no_makeindex_run [("author", ("ain", "and"))]
     = Some OSError.
Proof. repeat split; vm_compute; reflexivity. Qed.

(** ** The option paranoid *)

Lemma fold_aux_check_false_all opts old l : forall keepgoing,
  fold_left (aux_check opts old) l keepgoing = false ->
  forall p, In p l -> aux_check opts old false p = false.
Proof.
  induction l as [|q l IH]; intros keepgoing H p Hp; [done|].
  cbn [fold_left] in H. assert (Hk := fold_aux_check_false _ _ _ _ H).
  destruct Hp as [<-|Hp]; [|by eapply IH].
  apply fold_aux_check_false in H as Hq.
  destruct keepgoing; [by rewrite aux_check_true in Hq|done].
Qed.

(** What the option paranoid is for: a pass that ends with [keepgoing]
    false under that option has found every aux file that it reports as
    changed in the older snapshot already, with the digest it has now, and
    with the same list of bibliography files when it names some. *)
Theorem paranoid_pass_quiet re os opts job run maxruns runcount st st' :
  paranoid opts = true ->
  iteration re os opts job run maxruns runcount st = inr (st', false) ->
  auxinfo st' = getmodifiedaux (oldauxinfo_of os opts job run runcount st)
                               (newauxinfo_of os opts job run) true
  /\ forall f a, auxinfo st' !! f = Some a ->
       exists o, oldauxinfo_of os opts job run runcount st !! f = Some o
                 /\ aux_md5 o = aux_md5 a
                 /\ (aux_bibdata a ≠ [] -> aux_bibdata o = aux_bibdata a).
Proof.
  intros Hp Hit.
  apply iteration_inr in Hit as (ec & logfile & k0 & ns & _ & _ & _ & -> & Hk).
  cbn [auxinfo]. split; [unfold changed_aux; by rewrite Hp|].
  intros f a Hfa. symmetry in Hk.
  apply fold_index_check_false in Hk as [Hk _].
  apply fold_aux_check_false_all with (p := (f, a)) in Hk;
    [|by apply list_elem_of_In, changed_items].
  unfold aux_check in Hk. rewrite Hp in Hk.
  destruct (oldauxinfo_of os opts job run runcount st !! f) as [o|] eqn:Eo.
  - exists o. split; [done|].
    destruct (negb (length (aux_bibdata a) =? 0)%nat) eqn:El.
    + destruct (bool_decide (aux_bibdata o ≠ aux_bibdata a)) eqn:Eb; [done|].
      simpl in Hk. destruct (bool_decide (aux_md5 o ≠ aux_md5 a)) eqn:Em; [done|].
      apply bool_decide_eq_false in Eb, Em.
      split; [by destruct (decide (aux_md5 o = aux_md5 a))|].
      intros _. by destruct (decide (aux_bibdata o = aux_bibdata a)).
    + simpl in Hk. destruct (bool_decide (aux_md5 o ≠ aux_md5 a)) eqn:Em; [done|].
      apply bool_decide_eq_false in Em.
      split; [by destruct (decide (aux_md5 o = aux_md5 a))|].
      intros Hne. apply negb_false_iff, Nat.eqb_eq in El.
      by destruct (aux_bibdata a).
  - by destruct (negb (length (aux_bibdata a) =? 0)%nat).
Qed.

Lemma paranoid_pass_quiet_witness :
  auxinfo (Ex4.next_state ExF.opts_paranoid ExF.later_lost_run 2 ExF.st_two)
  = getmodifiedaux
      (oldauxinfo_of Ex.os_abs ExF.opts_paranoid Ex4.job ExF.later_lost_run 2 ExF.st_two)
      (newauxinfo_of Ex.os_abs ExF.opts_paranoid Ex4.job ExF.later_lost_run) true
  /\ forall f a,
       auxinfo (Ex4.next_state ExF.opts_paranoid ExF.later_lost_run 2 ExF.st_two) !! f
       = Some a ->
       exists o,
         oldauxinfo_of Ex.os_abs ExF.opts_paranoid Ex4.job ExF.later_lost_run 2 ExF.st_two
           !! f = Some o
         /\ aux_md5 o = aux_md5 a
         /\ (aux_bibdata a ≠ [] -> aux_bibdata o = aux_bibdata a).
Proof.
  apply (paranoid_pass_quiet Ex3.literal Ex.os_abs ExF.opts_paranoid Ex4.job
           ExF.later_lost_run 5 2 ExF.st_two).
  - reflexivity.
  - vm_compute. reflexivity.
Defined.

(** The second pass of that witness: [main.aux] is gone, so [o.aux] has no
    digest in either snapshot, and it is reported for its later time. *)
Example later_lost_pass :
  auxkeys ExF.st_two = ["/d/main.aux"; "/d/o.aux"]
  /\ oldauxinfo_of Ex.os_abs ExF.opts_paranoid Ex4.job ExF.later_lost_run 2 ExF.st_two
       !! "/d/o.aux"
     = Some (mkAuxFile "/d/o.aux" true (At 5) [] None)
  /\ auxinfo (Ex4.next_state ExF.opts_paranoid ExF.later_lost_run 2 ExF.st_two)
     = {[ "/d/o.aux" := mkAuxFile "/d/o.aux" true (At 9) [] None ]}.
Proof. repeat split; vm_compute; reflexivity. Qed.
